(** * mactop-report: the metrics ingestion and statistics pipeline

    A shallow embedding of the analysis core of the repository
    ([mactop_monitor.py] and [mactop_report/analyze.py]) together with
    the properties its specification states about it.

    Conventions of the embedding.
    - A Python [float] is modelled by the rational number it denotes
      ([Q]); rounding, overflow to infinity and NaN are outside the model.
    - A Python exception is an explicit [Raise e] result; a function that
      cannot raise is an ordinary total function.
    - A [dict] with string keys is a [gmap string _]; a [list] is a [list].
    - A [str] is a [string] of 8-bit characters, read as the code points
      0..255 of the text. *)

From Stdlib Require Import ZArith QArith Qround Lia Lqa Ascii String.
From Stdlib Require Import Floats.PrimFloat.
From stdpp Require Import gmap strings list sorting.

(** ** Python builtins used by the code *)

Module Py.

Inductive exn :=
| ValueError | TypeError | KeyError | IndexError | StatisticsError
| AttributeError | ColumnNotFoundError | SchemaError | ComputeError
| OverflowError | ZeroDivisionError.

Inductive result (A : Type) := Ok (a : A) | Raise (e : exn).
Arguments Ok {A} a.
Arguments Raise {A} e.

#[global] Instance result_ret : MRet result := @Ok.
#[global] Instance result_bind : MBind result :=
  λ A B f m, match m with Ok a => f a | Raise e => Raise e end.

(** The order of the rationals is decided by cross multiplication. *)
#[global] Instance Qle_dec : RelDecision Qle :=
  λ x y, decide (Qnum x * QDen y ≤ Qnum y * QDen x)%Z.
#[global] Instance Qeq_dec : RelDecision Qeq :=
  λ x y, decide (Qnum x * QDen y = Qnum y * QDen x)%Z.
#[global] Instance Qlt_dec : RelDecision Qlt :=
  λ x y, decide (Qnum x * QDen y < Qnum y * QDen x)%Z.

(** *** Characters and text *)

Definition code (c : ascii) : nat := nat_of_ascii c.

Definition between (lo hi : nat) (c : ascii) : bool :=
  (lo <=? code c)%nat && (code c <=? hi)%nat.

(** [str.isspace] on the code points below 256: TAB..CR, FS..US, space,
    NEL and the no-break space. *)
Definition is_space (c : ascii) : bool :=
  between 9 13 c || between 28 32 c
  || (code c =? 133)%nat || (code c =? 160)%nat.

(** The line boundaries of [str.splitlines] on the code points below
    256: LF, VT, FF, CR, FS, GS, RS and NEL. *)
Definition LF : ascii := "010"%char.
Definition CR : ascii := "013"%char.

Definition is_linebreak (c : ascii) : bool :=
  between 10 13 c || between 28 30 c || (code c =? 133)%nat.

(** A decimal digit, [0-9]. *)
Definition is_digit (c : ascii) : bool := between 48 57 c.

Definition digit_value (c : ascii) : Z := Z.of_nat (code c - 48).

(** The longest prefix of [s] whose characters satisfy [p], and the rest. *)
Fixpoint span (p : ascii → bool) (s : string) : string * string :=
  match s with
  | EmptyString => (EmptyString, EmptyString)
  | String c s' =>
      if p c then let '(a, b) := span p s' in (String c a, b)
      else (EmptyString, s)
  end.

Fixpoint drop_while (p : ascii → bool) (s : string) : string :=
  match s with
  | EmptyString => EmptyString
  | String c s' => if p c then drop_while p s' else s
  end.

(** [s.rstrip(chars)] for a character class [p]: the characters of the
    class at the end of [s] are removed. *)
Fixpoint rstrip_with (p : ascii → bool) (s : string) : string :=
  match s with
  | EmptyString => EmptyString
  | String c s' =>
      match rstrip_with p s' with
      | EmptyString => if p c then EmptyString else String c EmptyString
      | r => String c r
      end
  end.

(** [s.strip(chars)] for a character class [p]. *)
Definition strip_with (p : ascii → bool) (s : string) : string :=
  rstrip_with p (drop_while p s).

(** [s.strip()] *)
Definition strip : string → string := strip_with is_space.

(** [s.startswith(c)] for a one-character prefix. *)
Definition startswith (c : ascii) (s : string) : bool :=
  match s with
  | String c' _ => bool_decide (c' = c)
  | EmptyString => false
  end.

Fixpoint string_forall (p : ascii → bool) (s : string) : bool :=
  match s with
  | EmptyString => true
  | String c s' => p c && string_forall p s'
  end.

(** [c in s] *)
Fixpoint contains (c : ascii) (s : string) : bool :=
  match s with
  | EmptyString => false
  | String c' s' => bool_decide (c' = c) || contains c s'
  end.

(** [s.split(sep)] for a one-character separator: the pieces between
    the separators, always at least one piece. *)
Fixpoint split (sep : ascii) (s : string) : list string :=
  match s with
  | EmptyString => [EmptyString]
  | String c s' =>
      if bool_decide (c = sep) then EmptyString :: split sep s'
      else match split sep s' with
           | p :: ps => String c p :: ps
           | [] => [String c EmptyString]
           end
  end.

(** [s.split(sep, 1)]: split at the first separator only. *)
Fixpoint split1 (sep : ascii) (s : string) : list string :=
  match s with
  | EmptyString => [EmptyString]
  | String c s' =>
      if bool_decide (c = sep) then [EmptyString; s']
      else match split1 sep s' with
           | p :: ps => String c p :: ps
           | [] => [String c EmptyString]
           end
  end.

(** [s.splitlines()]: the lines of [s] without their line boundaries;
    CR LF counts as one boundary, and a boundary at the very end opens
    no further line. *)
Fixpoint splitlines (s : string) : list string :=
  match s with
  | EmptyString => []
  | String c s' =>
      if is_linebreak c then
        EmptyString ::
          (if bool_decide (c = CR) then
             match s' with
             | String c' s'' =>
                 if bool_decide (c' = LF) then splitlines s''
                 else splitlines s'
             | EmptyString => []
             end
           else splitlines s')
      else
        match splitlines s' with
        | l :: ls => String c l :: ls
        | [] => [String c EmptyString]
        end
  end.

(** *** Numbers *)

Definition digits_value (s : string) : Z :=
  (fix go (s : string) (acc : Z) : Z :=
     match s with
     | EmptyString => acc
     | String c s' => go s' (10 * acc + digit_value c)%Z
     end) s 0%Z.

(** [m * 10^e] as a rational. *)
Definition scale10 (m e : Z) : Q :=
  if (0 <=? e)%Z then inject_Z (m * 10 ^ e)
  else Qmake m (Z.to_pos (10 ^ (- e))).

Definition take_sign (s : string) : bool * string :=
  match s with
  | String "-" s' => (true, s')
  | String "+" s' => (false, s')
  | _ => (false, s)
  end.

(** [float(s)] for a string: surrounding white space, an optional sign,
    digits with an optional fraction (at least one digit in all), and
    an optional exponent.  [None] stands for [ValueError].  The
    spellings of infinity and NaN and digit grouping with underscores
    are not part of the model. *)
Definition float_of_string (s : string) : option Q :=
  let '(neg, s) := take_sign (strip s) in
  let '(ip, s) := span is_digit s in
  let '(fp, s) :=
    match s with
    | String "." s' => span is_digit s'
    | _ => (EmptyString, s)
    end in
  if bool_decide (ip = EmptyString) && bool_decide (fp = EmptyString)
  then None
  else
    let mant := digits_value (ip ++ fp) in
    let mant := if neg then (- mant)%Z else mant in
    let frac := Z.of_nat (String.length fp) in
    match s with
    | EmptyString => Some (scale10 mant (- frac))
    | String c s' =>
        if bool_decide (c = "e"%char) || bool_decide (c = "E"%char) then
          let '(eneg, s') := take_sign s' in
          let '(ep, rest) := span is_digit s' in
          if bool_decide (ep = EmptyString)
             || negb (bool_decide (rest = EmptyString))
          then None
          else
            let e := digits_value ep in
            let e := if eneg then (- e)%Z else e in
            Some (scale10 mant (e - frac))
        else None
    end.

(** *** Time stamps *)

(** Exactly [n] decimal digits at the start of [s]: their value and the
    rest of [s]. *)
Fixpoint take_digits (n : nat) (acc : Z) (s : string) : option (Z * string) :=
  match n with
  | O => Some (acc, s)
  | S n' =>
      match s with
      | String c s' =>
          if is_digit c then take_digits n' (10 * acc + digit_value c)%Z s'
          else None
      | EmptyString => None
      end
  end.

Definition expect (c : ascii) (s : string) : option string :=
  match s with
  | String c' s' => if bool_decide (c' = c) then Some s' else None
  | EmptyString => None
  end.

Definition is_leap (y : Z) : bool :=
  (y mod 4 =? 0)%Z && (negb (y mod 100 =? 0)%Z || (y mod 400 =? 0)%Z).

Definition days_in_month (y m : Z) : Z :=
  if (m =? 2)%Z then (if is_leap y then 29 else 28)%Z
  else if (m =? 4)%Z || (m =? 6)%Z || (m =? 9)%Z || (m =? 11)%Z then 30%Z
  else 31%Z.

Definition days_before_year (y : Z) : Z :=
  let y' := (y - 1)%Z in (y' * 365 + y' / 4 - y' / 100 + y' / 400)%Z.

Definition days_before_month (y m : Z) : Z :=
  fold_left (λ acc k, acc + days_in_month y (Z.of_nat k))%Z
            (seq 1 (Z.to_nat m - 1)) 0%Z.

(** The microseconds from 0001-01-01 00:00:00 to the given civil time. *)
Definition civil_micros (y mo d h mi s us : Z) : Z :=
  ((((days_before_year y + days_before_month y mo + (d - 1)) * 24 + h) * 60
      + mi) * 60 + s) * 1000000 + us.

(** The fraction of a second, [.fff] or [.ffffff], or nothing. *)
Definition parse_fraction (s : string) : option Z :=
  match s with
  | EmptyString => Some 0%Z
  | String c s' =>
      if bool_decide (c = "."%char) then
        match take_digits 3 0 s' with
        | Some (ms, EmptyString) => Some (ms * 1000)%Z
        | Some (ms, rest) =>
            match take_digits 3 0 rest with
            | Some (us, EmptyString) => Some (ms * 1000 + us)%Z
            | _ => None
            end
        | None => None
        end
      else None
  end.

(** [HH[:MM[:SS[.fff[fff]]]]] as microseconds of the day. *)
Definition parse_time (s : string) : option Z :=
  '(h, s) ← take_digits 2 0 s;
  if negb (h <? 24)%Z then None else
  match s with
  | EmptyString => Some (h * 3600 * 1000000)%Z
  | _ =>
      s ← expect ":" s;
      '(mi, s) ← take_digits 2 0 s;
      if negb (mi <? 60)%Z then None else
      match s with
      | EmptyString => Some ((h * 60 + mi) * 60 * 1000000)%Z
      | _ =>
          s ← expect ":" s;
          '(sec, s) ← take_digits 2 0 s;
          if negb (sec <? 60)%Z then None else
          us ← parse_fraction s;
          Some (((h * 60 + mi) * 60 + sec) * 1000000 + us)%Z
      end
  end.

(** [datetime.fromisoformat(s)] for a time stamp without a UTC offset,
    [YYYY-MM-DD[*HH[:MM[:SS[.fff[fff]]]]]] with any one character for
    [*].  The result is the microsecond count of the time stamp;
    [None] stands for [ValueError].  Time stamps that carry a UTC
    offset are not part of the model. *)
Definition fromisoformat (s : string) : option Z :=
  '(y, s) ← take_digits 4 0 s;
  s ← expect "-" s;
  '(mo, s) ← take_digits 2 0 s;
  s ← expect "-" s;
  '(d, s) ← take_digits 2 0 s;
  if negb ((1 <=? y) && (1 <=? mo) && (mo <=? 12)
           && (1 <=? d) && (d <=? days_in_month y mo))%Z
  then None
  else
    match s with
    | EmptyString => Some (civil_micros y mo d 0 0 0 0)
    | String _ t =>
        us ← parse_time t;
        Some (civil_micros y mo d 0 0 0 0 + us)%Z
    end.

(** [int(x)] for a float: truncation towards zero. *)
Definition int (x : Q) : Z :=
  if decide (0 <= x)%Q then Qfloor x else Qceiling x.

(** The double of a small natural number, built exactly from its
    binary digits. *)
Fixpoint double_of_pos (p : positive) : PrimFloat.float :=
  match p with
  | xH => 1%float
  | xO p' => PrimFloat.mul 2%float (double_of_pos p')
  | xI p' => PrimFloat.add (PrimFloat.mul 2%float (double_of_pos p')) 1%float
  end.

Definition double_of_Z (z : Z) : PrimFloat.float :=
  match z with
  | Zpos p => double_of_pos p
  | _ => 0%float
  end.

(** The double-precision product [n * k] has the integer part
    [n * num / den]: it lies between that integer and the next. *)
Definition double_rank_agrees (num den : Z) (k : PrimFloat.float) (n : Z)
  : bool :=
  let x := PrimFloat.mul (double_of_Z n) k in
  let m := (n * num / den)%Z in
  PrimFloat.leb (double_of_Z m) x && PrimFloat.ltb x (double_of_Z (m + 1)).

(** [sum(xs)]: starts from 0 and adds from the left. *)
Definition sum (xs : list Q) : Q := fold_left Qplus xs 0%Q.

(** [min(xs)] and [max(xs)]: the first smallest, respectively largest,
    element; [ValueError] on an empty list. *)
Definition min (xs : list Q) : result Q :=
  match xs with
  | [] => Raise ValueError
  | x :: xs' => Ok (fold_left (λ m y, if decide (y < m)%Q then y else m) xs' x)
  end.

Definition max (xs : list Q) : result Q :=
  match xs with
  | [] => Raise ValueError
  | x :: xs' => Ok (fold_left (λ m y, if decide (m < y)%Q then y else m) xs' x)
  end.

(** [xs[i]]: a negative index counts from the end; [IndexError] out of
    range. *)
Definition index {A} (xs : list A) (i : Z) : result A :=
  let n := Z.of_nat (length xs) in
  let j := if (i <? 0)%Z then (i + n)%Z else i in
  if (j <? 0)%Z then Raise IndexError
  else match xs !! Z.to_nat j with
       | Some x => Ok x
       | None => Raise IndexError
       end.

(** [xs.sort()]: the stable ascending sort. *)
Definition sort (xs : list Q) : list Q := merge_sort Qle xs.

(** [statistics.variance(xs)]: the sample variance, computed exactly;
    [StatisticsError] with fewer than two values. *)
Definition variance (xs : list Q) : result Q :=
  let n := Z.of_nat (length xs) in
  if (n <? 2)%Z then Raise StatisticsError
  else
    let c := (sum xs / inject_Z n)%Q in
    Ok (sum (map (λ x, (x - c) * (x - c))%Q xs) / inject_Z (n - 1))%Q.

(** A value that is either a rational or the square root of one
    ([statistics.stdev] is the root of the variance). *)
Inductive surd := Rational (q : Q) | SqrtOf (q : Q).

Definition stdev (xs : list Q) : result surd :=
  v ← variance xs; mret (SqrtOf v).

(** *** Dates *)

(** A [datetime.date]. *)
Record date := Date { year : Z; month : Z; day : Z }.

#[global] Instance date_eq_dec : EqDecision date.
Proof. solve_decision. Defined.

(** The dates that exist; [date.fromisoformat] raises [ValueError] for
    any other triple. *)
Definition valid_date (d : date) : bool :=
  ((1 <=? year d) && (year d <=? 9999)
   && (1 <=? month d) && (month d <=? 12)
   && (1 <=? day d) && (day d <=? days_in_month (year d) (month d)))%Z.

(** [date.fromisoformat(s)] for the extended format [YYYY-MM-DD];
    [None] stands for [ValueError].  The basic and the week formats
    that later versions of Python also accept are not part of the
    model. *)
Definition date_fromisoformat (s : string) : option date :=
  '(y, s) ← take_digits 4 0 s;
  s ← expect "-" s;
  '(mo, s) ← take_digits 2 0 s;
  s ← expect "-" s;
  '(d, s) ← take_digits 2 0 s;
  if bool_decide (s = EmptyString) && valid_date (Date y mo d)
  then Some (Date y mo d) else None.

(** [a <= b] on dates: by year, then by month, then by day. *)
Definition date_le (a b : date) : bool :=
  ((year a <? year b)
   || ((year a =? year b)
       && ((month a <? month b)
           || ((month a =? month b) && (day a <=? day b)))))%Z.

Definition digit_char (n : Z) : ascii := ascii_of_nat (48 + Z.to_nat n).

(** The last [width] decimal digits of [n], the text of [n] padded
    with zeros when [0 <= n < 10 ^ width]. *)
Fixpoint zero_padded (width : nat) (n : Z) : string :=
  match width with
  | O => EmptyString
  | S w =>
      zero_padded w (n / 10) +:+ String (digit_char (n mod 10)) EmptyString
  end.

(** [d.isoformat()]: [YYYY-MM-DD], the year with four digits. *)
Definition isoformat (d : date) : string :=
  zero_padded 4 (year d) +:+ "-" +:+ zero_padded 2 (month d)
  +:+ "-" +:+ zero_padded 2 (day d).

(** [d.strftime("%Y-%m-%d")], also written [f"{d:%Y-%m-%d}"], for the
    years from 1000 on; for earlier years the padding of [%Y] depends
    on the C library. *)
Definition strftime_ymd (d : date) : string := isoformat d.

(** *** More text *)

(** [n] characters of the class [p] at the start of [s], and the rest. *)
Fixpoint take_class (n : nat) (p : ascii → bool) (s : string)
  : option (string * string) :=
  match n with
  | O => Some (EmptyString, s)
  | S n' =>
      match s with
      | String c s' =>
          if p c then
            '(a, b) ← take_class n' p s'; Some (String c a, b)
          else None
      | EmptyString => None
      end
  end.

(** What follows the prefix [p] in [s], when [s] starts with [p]. *)
Fixpoint after_prefix (p s : string) : option string :=
  match p with
  | EmptyString => Some s
  | String c p' => s' ← expect c s; after_prefix p' s'
  end.

End Py.

Import Py.

(** ** [mactop_monitor.py] *)

Module Monitor.

(** A value of a row read from the CSV file: a number, a text, or the
    parsed time stamp that the peak-window finder stores in the row
    (microseconds on the time line). *)
Inductive cell := CFloat (x : Q) | CStr (s : string) | CTime (t : Z).

#[global] Instance cell_inhabited : Inhabited cell := populate (CStr EmptyString).

(** [float(c)] *)
Definition float (c : cell) : result Q :=
  match c with
  | CFloat x => Ok x
  | CStr s =>
      match float_of_string s with
      | Some x => Ok x
      | None => Raise ValueError
      end
  | CTime _ => Raise TypeError
  end.

(** [c != ''] *)
Definition nonempty (c : cell) : bool :=
  match c with
  | CStr EmptyString => false
  | _ => true
  end.

(** [[float(row[metric]) for row in data
      if metric in row and row[metric] != '']] *)
Fixpoint metric_values (data : list (gmap string cell)) (metric : string)
  : result (list Q) :=
  match data with
  | [] => Ok []
  | row :: data' =>
      match row !! metric with
      | Some c =>
          if nonempty c then
            x ← float c; xs ← metric_values data' metric; mret (x :: xs)
          else metric_values data' metric
      | None => metric_values data' metric
      end
  end.

(** The dictionary returned by [calculate_statistics], one field per
    key: [min], [max], [mean], [median], [p75], [p95], [std_dev] and
    [variance]. *)
Record statistics := {
  s_min : Q; s_max : Q; s_mean : Q; s_median : Q;
  s_p75 : Q; s_p95 : Q; s_std_dev : surd; s_variance : Q
}.

(** The part of [calculate_statistics] that follows the collection of
    the values.  The products [n * 0.75] and [n * 0.95] are taken
    exactly; the rounded double products have the same integer parts
    for every length below 10^14. *)
Definition statistics_of_values (values : list Q) : result statistics :=
  match values with
  | [] =>
      Ok {| s_min := 0; s_max := 0; s_mean := 0; s_median := 0;
            s_p75 := 0; s_p95 := 0; s_std_dev := Rational 0;
            s_variance := 0 |}
  | _ =>
      let values := sort values in
      let n := Z.of_nat (length values) in
      mn ← min values;
      mx ← max values;
      med ← (if (n mod 2 =? 1)%Z then index values (n / 2)
             else a ← index values (n / 2 - 1);
                  b ← index values (n / 2);
                  mret ((a + b) / 2)%Q);
      q75 ← index values (int (inject_Z n * 0.75));
      q95 ← index values (int (inject_Z n * 0.95));
      sd ← (if (1 <? n)%Z then stdev values else Ok (Rational 0));
      var ← (if (1 <? n)%Z then variance values else Ok 0%Q);
      mret {| s_min := mn; s_max := mx;
              s_mean := (sum values / inject_Z n)%Q;
              s_median := med; s_p75 := q75; s_p95 := q95;
              s_std_dev := sd; s_variance := var |}
  end.

Definition calculate_statistics (data : list (gmap string cell))
    (metric : string) : result statistics :=
  values ← metric_values data metric;
  statistics_of_values values.


(** *** The exposition-format parser *)

(** [\w] on the code points below 256: letters, digits (including the
    superscript digits and the vulgar fractions of Latin-1) and the
    underscore. *)
Definition is_word (c : ascii) : bool :=
  between 48 57 c || between 65 90 c || between 97 122 c
  || (code c =? 95)%nat
  || (code c =? 170)%nat || (code c =? 178)%nat || (code c =? 179)%nat
  || (code c =? 181)%nat || (code c =? 185)%nat || (code c =? 186)%nat
  || between 188 190 c || between 192 214 c || between 216 246 c
  || between 248 255 c.

(** [[\d\.eE]] *)
Definition is_value_char (c : ascii) : bool :=
  is_digit c || bool_decide (c = "."%char)
  || bool_decide (c = "e"%char) || bool_decide (c = "E"%char).

(** [[^}]] *)
Definition not_rbrace (c : ascii) : bool := negb (bool_decide (c = "}"%char)).

(** The groups of a match of [METRIC_PATTERN]; [labels] is [None] when
    the optional group did not take part. *)
Record metric_match := {
  metric_name : string;
  labels : option string;
  value : string
}.

(** [[-+]?[\d\.eE]+$]: the text of the value group, when the rest of
    the line is a value (the end-of-string anchor also accepts one final
    line feed). *)
Definition match_value (s : string) : option string :=
  let '(sign, body) :=
    match s with
    | String c b =>
        if bool_decide (c = "-"%char) || bool_decide (c = "+"%char)
        then (String c EmptyString, b) else (EmptyString, s)
    | EmptyString => (EmptyString, s)
    end in
  let '(v, tail) := span is_value_char body in
  if bool_decide (v = EmptyString) then None
  else if bool_decide (tail = EmptyString)
          || bool_decide (tail = String LF EmptyString)
  then Some (sign +:+ v)
  else None.

(** [METRIC_PATTERN.match(line)] for
    [^(?P<metric_name>\w+)(?:\{(?P<labels>[^}]+)\})?\s+(?P<value>[-+]?[\d\.eE]+)$].
    Each repetition is followed by a character outside its class, so
    each takes its longest run and the match, when there is one, is
    unique: the name is the longest word prefix; a following brace
    must open a non-empty label group closed by the first closing
    brace; then white space, then the value up to the end. *)
Definition METRIC_PATTERN_match (line : string) : option metric_match :=
  let '(name, rest) := span is_word line in
  if bool_decide (name = EmptyString) then None
  else
    let group :=
      match rest with
      | String c r =>
          if bool_decide (c = "{"%char) then
            let '(lab, r') := span not_rbrace r in
            match r' with
            | String _ r'' =>
                if bool_decide (lab = EmptyString) then None
                else Some (Some lab, r'')
            | EmptyString => None
            end
          else Some (None, rest)
      | EmptyString => Some (None, rest)
      end in
    match group with
    | None => None
    | Some (labs, rest) =>
        let '(ws, rest) := span is_space rest in
        if bool_decide (ws = EmptyString) then None
        else
          match match_value rest with
          | Some v =>
              Some {| metric_name := name; labels := labs; value := v |}
          | None => None
          end
    end.

(** [a, b = parts]: unpacking into two names. *)
Definition unpack2 (parts : list string) : result (string * string) :=
  match parts with
  | [a; b] => Ok (a, b)
  | _ => Raise ValueError
  end.

Definition is_dquote (c : ascii) : bool := bool_decide (c = "034"%char).

(** The body of the loop over the label parts of one line. *)
Definition process_label (m_name : string) (v : Q)
    (results : gmap string Q) (part : string) : result (gmap string Q) :=
  if contains "="%char part then
    '(label_key, label_value) ← unpack2 (split1 "="%char part);
    let label_key := strip label_key in
    let label_value := strip_with is_dquote (strip label_value) in
    if bool_decide (m_name = "mactop_memory_gb")
       && bool_decide (label_key = "type") then
      if bool_decide (label_value = "swap_total") then
        Ok (<["memory_swap_total" := v]> results)
      else if bool_decide (label_value = "swap_used") then
        Ok (<["memory_swap_used" := v]> results)
      else if bool_decide (label_value = "total") then
        Ok (<["memory_total" := v]> results)
      else if bool_decide (label_value = "used") then
        Ok (<["memory_used" := v]> results)
      else Ok results
    else if bool_decide (m_name = "mactop_power_watts")
            && bool_decide (label_key = "component") then
      if bool_decide (label_value = "cpu") then
        Ok (<["power_cpu" := v]> results)
      else if bool_decide (label_value = "gpu") then
        Ok (<["power_gpu" := v]> results)
      else if bool_decide (label_value = "total") then
        Ok (<["power_total" := v]> results)
      else Ok results
    else Ok results
  else Ok results.

Fixpoint process_labels (m_name : string) (v : Q)
    (results : gmap string Q) (parts : list string)
  : result (gmap string Q) :=
  match parts with
  | [] => Ok results
  | part :: parts' =>
      results' ← process_label m_name v results part;
      process_labels m_name v results' parts'
  end.

(** The body of the loop over the lines of the text. *)
Definition process_line (results : gmap string Q) (line : string)
  : result (gmap string Q) :=
  let line := strip line in
  if bool_decide (line = EmptyString) || startswith "#"%char line
  then Ok results
  else
    match METRIC_PATTERN_match line with
    | None => Ok results
    | Some m =>
        match float_of_string (value m) with
        | None => Ok results
        | Some v =>
            match labels m with
            | None | Some EmptyString =>
                if bool_decide (metric_name m = "mactop_cpu_usage_percent")
                then Ok (<["cpu_usage_percent" := v]> results)
                else if bool_decide (metric_name m = "mactop_gpu_freq_mhz")
                then Ok (<["gpu_freq_mhz" := v]> results)
                else if bool_decide (metric_name m = "mactop_gpu_usage_percent")
                then Ok (<["gpu_usage_percent" := v]> results)
                else Ok (<[metric_name m := v]> results)
            | Some labels_str =>
                process_labels (metric_name m) v results
                  (split ","%char labels_str)
            end
        end
    end.

Fixpoint process_lines (results : gmap string Q) (lines : list string)
  : result (gmap string Q) :=
  match lines with
  | [] => Ok results
  | line :: lines' =>
      results' ← process_line results line;
      process_lines results' lines'
  end.

Definition parse_metrics (text : string) : result (gmap string Q) :=
  if bool_decide (text = EmptyString) then Ok ∅
  else process_lines ∅ (splitlines text).

(** *** The peak-window finder *)

(** The body of the loop that parses the time stamps: a row whose
    [timestamp] is a string receives the parsed time under the key
    [timestamp_obj]. *)
Definition parse_timestamp (item : gmap string cell)
  : result (gmap string cell) :=
  match item !! "timestamp" with
  | None => Raise KeyError
  | Some (CStr s) =>
      match fromisoformat s with
      | Some t => Ok (<["timestamp_obj" := CTime t]> item)
      | None => Raise ValueError
      end
  | Some _ => Ok item
  end.

(** The loop over the rows, which updates them in place: the rows
    after the loop, and the exception that ended it early, if any. *)
Fixpoint parse_timestamps (data : list (gmap string cell))
  : list (gmap string cell) * option exn :=
  match data with
  | [] => ([], None)
  | item :: data' =>
      match parse_timestamp item with
      | Ok item' =>
          let '(rest, e) := parse_timestamps data' in (item' :: rest, e)
      | Raise e => (data, Some e)
      end
  end.

(** [item["timestamp_obj"]], used as a time: [KeyError] when the key is
    absent; a value that is not a time cannot be compared or subtracted
    as one ([TypeError] here, also for the [AttributeError] case). *)
Definition timestamp_obj (item : gmap string cell) : result Z :=
  match item !! "timestamp_obj" with
  | None => Raise KeyError
  | Some (CTime t) => Ok t
  | Some _ => Raise TypeError
  end.

Fixpoint timestamps (data : list (gmap string cell)) : result (list Z) :=
  match data with
  | [] => Ok []
  | item :: data' =>
      t ← timestamp_obj item; ts ← timestamps data'; mret (t :: ts)
  end.

(** [timedelta(minutes=window_minutes)] in microseconds. *)
Definition window_micros (window_minutes : Z) : Z :=
  (window_minutes * 60 * 1000000)%Z.

(** The inner loop, over the rows from the window start on: it stops
    at the first row later than [window_end] and collects the values
    that are present. *)
Fixpoint window_values (rows : list (gmap string cell)) (metric : string)
    (window_end : Z) : result (list Q) :=
  match rows with
  | [] => Ok []
  | row :: rows' =>
      t ← timestamp_obj row;
      if (window_end <? t)%Z then Ok []
      else
        match row !! metric with
        | Some c =>
            if nonempty c then
              x ← float c;
              xs ← window_values rows' metric window_end;
              mret (x :: xs)
            else window_values rows' metric window_end
        | None => window_values rows' metric window_end
        end
  end.

(** [sum(values) / len(values)] *)
Definition average (values : list Q) : Q :=
  (sum values / inject_Z (Z.of_nat (length values)))%Q.

(** One round of the outer loop, for the start index [i]. *)
Definition window_step (data : list (gmap string cell)) (metric : string)
    (window_minutes : Z) (acc : Q * nat) (i : nat) : result (Q * nat) :=
  let '(highest_avg, best_start_idx) := acc in
  row ← index data (Z.of_nat i);
  window_start ← timestamp_obj row;
  let window_end := (window_start + window_micros window_minutes)%Z in
  window ← window_values (drop i data) metric window_end;
  match window with
  | [] => Ok acc
  | _ =>
      let window_avg := average window in
      if decide (highest_avg < window_avg)%Q then Ok (window_avg, i)
      else Ok acc
  end.

Fixpoint window_loop (data : list (gmap string cell)) (metric : string)
    (window_minutes : Z) (acc : Q * nat) (starts : list nat)
  : result (Q * nat) :=
  match starts with
  | [] => Ok acc
  | i :: starts' =>
      acc' ← window_step data metric window_minutes acc i;
      window_loop data metric window_minutes acc' starts'
  end.

Definition list_min (ts : list Z) (t0 : Z) : Z := fold_left Z.min ts t0.
Definition list_max (ts : list Z) (t0 : Z) : Z := fold_left Z.max ts t0.

(** The part of [find_peak_window] after the time stamps are parsed. *)
Definition peak_of_parsed (data : list (gmap string cell)) (metric : string)
    (window_minutes : Z) : result (nat * Q) :=
  ts ← timestamps data;
  match ts with
  | [] => Raise ValueError
  | t0 :: ts' =>
      let start_time := list_min ts' t0 in
      let end_time := list_max ts' t0 in
      if (end_time - start_time <? window_micros window_minutes)%Z then
        values ← metric_values data metric;
        match values with
        | [] => Ok (0%nat, 0%Q)
        | _ => Ok (0%nat, average values)
        end
      else
        '(highest_avg, best_start_idx) ←
          window_loop data metric window_minutes (0%Q, 0%nat)
            (seq 0 (length data - 1));
        Ok (best_start_idx, highest_avg)
  end.

(** [find_peak_window(data, metric, window_minutes)]: the rows as the
    call leaves them, and what the call returns or raises. *)
Definition find_peak_window (data : list (gmap string cell))
    (metric : string) (window_minutes : Z)
  : list (gmap string cell) * result (nat * Q) :=
  if (length data <? 2)%nat then (data, Ok (0%nat, 0%Q))
  else
    match parse_timestamps data with
    | (data', Some _) => (data', Ok (0%nat, 0%Q))
    | (data', None) => (data', peak_of_parsed data' metric window_minutes)
    end.

(** *** Recording: the rows of the CSV file *)

Definition CSV_FIELDS : list string :=
  [ "timestamp"; "cpu_usage_percent"; "gpu_freq_mhz"; "gpu_usage_percent";
    "memory_total"; "memory_used"; "memory_swap_total"; "memory_swap_used";
    "power_cpu"; "power_gpu"; "power_total" ].

(** The body of the loop of [write_metrics_to_csv] that completes the
    dictionary: a field other than [timestamp] that has no entry
    receives the empty text. *)
Definition fill_field (metrics : gmap string cell) (field : string)
  : gmap string cell :=
  if bool_decide (metrics !! field = None)
     && negb (bool_decide (field = "timestamp"))
  then <[field := CStr EmptyString]> metrics
  else metrics.

Definition fill_fields (metrics : gmap string cell) : gmap string cell :=
  fold_left fill_field CSV_FIELDS metrics.

(** [csv.DictWriter(f, fieldnames).writerow(rowdict)]: the cells of the
    written line, in the order of the field names, an absent field as
    the empty text; a key that is no field name is a [ValueError]. *)
Definition writerow (fieldnames : list string) (rowdict : gmap string cell)
  : result (list cell) :=
  if bool_decide (map_Forall (λ k _, k ∈ fieldnames) rowdict) then
    Ok (map (λ f, default (CStr EmptyString) (rowdict !! f)) fieldnames)
  else Raise ValueError.

(** [write_metrics_to_csv(metrics, filename)]: the dictionary as the
    call leaves it, and the lines of the file after the call.  An
    exception of the writer is reported and the file is left as it
    was. *)
Definition write_metrics_to_csv (metrics : gmap string cell)
    (file : list (list cell)) : gmap string cell * list (list cell) :=
  let metrics := fill_fields metrics in
  (metrics,
   match writerow CSV_FIELDS metrics with
   | Ok row => file ++ [row]
   | Raise _ => file
   end).

(** [c > 0] for a value of the dictionary: a text is not ordered
    with a number. *)
Definition gt_zero (c : cell) : result bool :=
  match c with
  | CFloat x => Ok (bool_decide (0 < x)%Q)
  | _ => Raise TypeError
  end.

(** [a / b * 100], evaluated for a positive [b]. *)
Definition percent (a b : cell) : result Q :=
  match a, b with
  | CFloat x, CFloat y => Ok (x / y * 100)%Q
  | _, _ => Raise TypeError
  end.

(** [f"{c:.1f}"]: the format code [f] is unknown for a text. *)
Definition format_f (c : cell) : result unit :=
  match c with
  | CStr _ => Raise ValueError
  | _ => Ok ()
  end.

(** [display_recording_status(metrics, iteration)]: the status line is
    computed on every fifth iteration. *)
Definition display_recording_status (metrics : gmap string cell)
    (iteration : Z) : result unit :=
  if (iteration mod 5 =? 0)%Z then
    let cpu := default (CFloat 0) (metrics !! "cpu_usage_percent") in
    let gpu := default (CFloat 0) (metrics !! "gpu_usage_percent") in
    let ram_total := default (CFloat 0) (metrics !! "memory_total") in
    let ram_used := default (CFloat 0) (metrics !! "memory_used") in
    b ← gt_zero ram_total;
    _ ← (if (b : bool) then percent ram_used ram_total else Ok 0%Q);
    _ ← format_f cpu;
    _ ← format_f gpu;
    Ok ()
  else Ok ().

(** One round of the recording loop of [record_metrics], for the text
    fetched from the endpoint (the empty text when nothing was fetched),
    the time stamp and the number of the round: the lines of the file
    after the round, and whether the round ends normally. *)
Definition record_sample (content timestamp : string) (iteration : Z)
    (file : list (list cell)) : list (list cell) * result unit :=
  if bool_decide (content = EmptyString) then (file, Ok ())
  else
    match parse_metrics content with
    | Raise e => (file, Raise e)
    | Ok metrics =>
        let metrics :=
          <["timestamp" := CStr timestamp]> (CFloat <$> metrics) in
        let '(metrics, file) := write_metrics_to_csv metrics file in
        (file, display_recording_status metrics iteration)
    end.

(** *** Reading the file back *)

(** The conversion of one value in [read_csv_data]: a non-empty value
    of a field other than [timestamp] becomes a float when it reads as
    one. *)
Definition convert_value (key value : string) : cell :=
  if negb (bool_decide (key = "timestamp"))
     && negb (bool_decide (value = EmptyString))
  then
    match float_of_string value with
    | Some x => CFloat x
    | None => CStr value
    end
  else CStr value.

(** [read_csv_data], given the rows that [csv.DictReader] yields for
    the file (rows in which every field has a text). *)
Definition read_csv_data (reader : list (gmap string string))
  : list (gmap string cell) :=
  map (λ row, map_imap (λ key value, Some (convert_value key value)) row)
      reader.

(** *** The analysis command *)

(** [float(c) if c != '' else 0] *)
Definition float_or_zero (c : cell) : result Q :=
  if nonempty c then float c else Ok 0%Q.

(** The body of the loops of [analyze_data] that derive [ram_percent]
    and [swap_percent]: a row that has both counters receives the
    percentage, 0 when the total is not positive. *)
Definition percent_item (total_key used_key percent_key : string)
    (item : gmap string cell) : result (gmap string cell) :=
  match item !! total_key, item !! used_key with
  | Some t, Some u =>
      total ← float_or_zero t;
      used ← float_or_zero u;
      if decide (0 < total)%Q then
        Ok (<[percent_key := CFloat (used / total * 100)]> item)
      else Ok (<[percent_key := CFloat 0]> item)
  | _, _ => Ok item
  end.

(** The loop, which updates the rows in place: the rows after the
    loop, and the exception that ended it early, if any. *)
Fixpoint percent_items (total_key used_key percent_key : string)
    (data : list (gmap string cell))
  : list (gmap string cell) * option exn :=
  match data with
  | [] => ([], None)
  | item :: data' =>
      match percent_item total_key used_key percent_key item with
      | Ok item' =>
          let '(rest, e) :=
            percent_items total_key used_key percent_key data' in
          (item' :: rest, e)
      | Raise e => (data, Some e)
      end
  end.

(** The derived column of a key that needs one ([ram], [swap]): the
    rows after the derivation and the name of the column, [None] when
    the first row lacks a counter. *)
Definition derived_column (total_key used_key percent_key : string)
    (data : list (gmap string cell))
  : list (gmap string cell) * result (option string) :=
  match data with
  | [] => (data, Raise IndexError)
  | first :: _ =>
      if bool_decide (is_Some (first !! total_key))
         && bool_decide (is_Some (first !! used_key))
      then
        match percent_items total_key used_key percent_key data with
        | (data', None) => (data', Ok (Some percent_key))
        | (data', Some e) => (data', Raise e)
        end
      else (data, Ok None)
  end.

(** The first part of the loop body of [analyze_data]: the column that
    a requested key stands for, [None] when the key is skipped. *)
Definition select_metric (data : list (gmap string cell))
    (metric_key : string)
  : list (gmap string cell) * result (option string) :=
  if bool_decide (metric_key = "cpu") then
    (data, Ok (Some "cpu_usage_percent"))
  else if bool_decide (metric_key = "gpu") then
    (data, Ok (Some "gpu_usage_percent"))
  else if bool_decide (metric_key = "ram") then
    derived_column "memory_total" "memory_used" "ram_percent" data
  else if bool_decide (metric_key = "swap") then
    derived_column "memory_swap_total" "memory_swap_used" "swap_percent" data
  else if existsb (λ item, bool_decide (is_Some (item !! metric_key))) data
  then (data, Ok (Some metric_key))
  else (data, Ok None).

(** What [analyze_data] shows for one metric: the row of the table and
    the peak window; [peak_time] is the start of the peak period when
    it is printed. *)
Record report := {
  report_column : string;
  report_stats : statistics;
  peak_idx : nat;
  peak_avg : Q;
  peak_time : option Z
}.

(** [data[peak_idx]["timestamp_obj"]] inside [try], when
    [peak_idx > 0]: a missing key or a value that is no time is
    passed over, an index out of range is not caught. *)
Definition peak_time_of (data : list (gmap string cell)) (idx : nat)
  : result (option Z) :=
  if (0 <? idx)%nat then
    row ← index data (Z.of_nat idx);
    match timestamp_obj row with
    | Ok t => Ok (Some t)
    | Raise _ => Ok None
    end
  else Ok None.

(** The loop body of [analyze_data] for one requested key: the rows as
    it leaves them, and the report, [None] when the key is skipped. *)
Definition analyze_metric (data : list (gmap string cell))
    (metric_key : string)
  : list (gmap string cell) * result (option report) :=
  match select_metric data metric_key with
  | (data, Raise e) => (data, Raise e)
  | (data, Ok None) => (data, Ok None)
  | (data, Ok (Some metric_name)) =>
      match calculate_statistics data metric_name with
      | Raise e => (data, Raise e)
      | Ok st =>
          match find_peak_window data metric_name 15 with
          | (data, Raise e) => (data, Raise e)
          | (data, Ok (idx, avg)) =>
              (data,
               t ← peak_time_of data idx;
               Ok (Some {| report_column := metric_name; report_stats := st;
                           peak_idx := idx; peak_avg := avg;
                           peak_time := t |}))
          end
      end
  end.

(** The loop of [analyze_data] over the requested keys. *)
Fixpoint analyze_metrics (data : list (gmap string cell))
    (metrics_list : list string)
  : list (gmap string cell) * result (list report) :=
  match metrics_list with
  | [] => (data, Ok [])
  | metric_key :: metrics_list' =>
      match analyze_metric data metric_key with
      | (data, Raise e) => (data, Raise e)
      | (data, Ok r) =>
          let '(data, rs) := analyze_metrics data metrics_list' in
          (data, rs ← rs; Ok (option_list r ++ rs))
      end
  end.

(** [analyze_data], given the rows read from the file and the list of
    requested keys: nothing is analysed when there are no rows. *)
Definition analyze_data (data : list (gmap string cell))
    (metrics_list : list string)
  : list (gmap string cell) * result (list report) :=
  match data with
  | [] => (data, Ok [])
  | _ => analyze_metrics data metrics_list
  end.
End Monitor.

(** ** [mactop_report/analyze.py] *)

Module Analyze.

(** *** Polars data frames *)

(** A value of a column: null, a number, a text or a time stamp
    (microseconds on the time line). *)
Inductive datum := VNull | VNum (x : Q) | VStr (s : string) | VTime (t : Z).

Inductive dtype := Int64 | Float64 | Utf8 | Datetime.

#[global] Instance dtype_eq_dec : EqDecision dtype.
Proof. solve_decision. Defined.

(** A data frame: the schema (column names in order, with their
    types) and the rows, each a mapping from the column names. *)
Record DataFrame := {
  schema : list (string * dtype);
  rows : list (gmap string datum)
}.

Definition columns (df : DataFrame) : list string := (schema df).*1.

Fixpoint assoc {A} (k : string) (l : list (string * A)) : option A :=
  match l with
  | [] => None
  | (k', a) :: l' => if bool_decide (k' = k) then Some a else assoc k l'
  end.

(** [c in df.columns] *)
Definition has_column (df : DataFrame) (c : string) : bool :=
  bool_decide (c ∈ columns df).

(** [df[c]]: the values of a column, row by row. *)
Definition column (df : DataFrame) (c : string) : list datum :=
  map (λ r, default VNull (r !! c)) (rows df).

(** [pl.concat(dfs)], the vertical concatenation: the frames must have
    the same schema, and their rows follow one another. *)
Definition concat (dfs : list DataFrame) : result DataFrame :=
  match dfs with
  | [] => Raise ValueError
  | df :: dfs' =>
      if forallb (λ d, bool_decide (schema d = schema df)) dfs' then
        Ok {| schema := schema df;
              rows := rows df ++ mjoin (map rows dfs') |}
      else Raise SchemaError
  end.

(** *** Loading *)

Section load.
(** The reading of one CSV file, [pl.scan_csv(path).collect()], the
    parsing of the [timestamp] column with a format,
    [df.with_columns(pl.col("timestamp").str.strptime(pl.Datetime,
    fmt))], and the textual clean-up of the time stamps of the last
    fallback are operations of the file system and of Polars. *)
Variable scan_csv : string → result DataFrame.
Variable strptime : string → DataFrame → result DataFrame.
Variable clean_timestamps : DataFrame → result DataFrame.

(** The loop over the files: a file that fails to load is reported
    and left out. *)
Fixpoint scan_all (file_paths : list string) : list DataFrame :=
  match file_paths with
  | [] => []
  | file_path :: file_paths' =>
      match scan_csv file_path with
      | Ok df => df :: scan_all file_paths'
      | Raise _ => scan_all file_paths'
      end
  end.

Definition parse_timestamp_column (combined_df : DataFrame)
  : result DataFrame :=
  match strptime "%Y-%m-%d %H:%M:%S" combined_df with
  | Ok df => Ok df
  | Raise _ =>
      match strptime "%Y-%m-%dT%H:%M:%S.%f" combined_df with
      | Ok df => Ok df
      | Raise _ =>
          cleaned ← clean_timestamps combined_df;
          strptime "%Y-%m-%d %H:%M:%S" cleaned
      end
  end.

Definition load_data (file_paths : list string) : result DataFrame :=
  match file_paths with
  | [] => Raise ValueError
  | _ =>
      match scan_all file_paths with
      | [] => Raise ValueError
      | dfs =>
          combined_df ← concat dfs;
          parse_timestamp_column combined_df
      end
  end.
End load.

(** *** Derived metrics *)

(** The number in a cell, if there is one. *)
Definition number (r : gmap string datum) (c : string) : option Q :=
  match r !! c with
  | Some (VNum x) => Some x
  | _ => None
  end.

(** A column used in arithmetic must exist and hold numbers. *)
Definition numeric_column (df : DataFrame) (c : string) : result unit :=
  match assoc c (schema df) with
  | None => Raise ColumnNotFoundError
  | Some Int64 | Some Float64 => Ok ()
  | Some _ => Raise ComputeError
  end.

(** [pl.when(pl.col("memory_total") > 0)
      .then(pl.col(c) / pl.col("memory_total") * 100.0).otherwise(0.0)]
    on one row; a null total does not satisfy the condition, a null
    numerator makes the quotient null. *)
Definition percent_of_total (c : string) (r : gmap string datum) : datum :=
  match number r "memory_total" with
  | Some total =>
      if decide (0 < total)%Q then
        match number r c with
        | Some x => VNum (x / total * 100)%Q
        | None => VNull
        end
      else VNum 0
  | None => VNum 0
  end.

Fixpoint set_dtype (c : string) (ty : dtype) (s : list (string * dtype))
  : list (string * dtype) :=
  match s with
  | [] => [(c, ty)]
  | (c', ty') :: s' =>
      if bool_decide (c' = c) then (c, ty) :: s'
      else (c', ty') :: set_dtype c ty s'
  end.

(** [df.with_columns(expr.alias(c))] for a row-wise expression: a new
    frame in which the column [c] is replaced or added at the end. *)
Definition with_column (c : string) (ty : dtype)
    (expr : gmap string datum → datum) (df : DataFrame) : DataFrame :=
  {| schema := set_dtype c ty (schema df);
     rows := map (λ r, <[c := expr r]> r) (rows df) |}.

Definition calculate_derived_metrics (df : DataFrame) : result DataFrame :=
  let result_df := df in
  _ ← numeric_column result_df "memory_total";
  _ ← numeric_column result_df "memory_used";
  let result_df :=
    with_column "ram_percent" Float64
      (percent_of_total "memory_used") result_df in
  _ ← numeric_column result_df "memory_total";
  _ ← numeric_column result_df "memory_swap_used";
  let result_df :=
    with_column "swap_pressure_percent" Float64
      (percent_of_total "memory_swap_used") result_df in
  Ok result_df.

(** *** Statistics *)

Section statistics.
(** The aggregations of a Polars column; a null result is [None]. *)
Variables col_min col_max col_mean col_median col_std
  : list datum → option Q.
Variable col_quantile : Q → list datum → option Q.

Definition metric_statistics (df : DataFrame) (metric : string)
  : gmap string (option Q) :=
  let c := column df metric in
  {[ "min" := col_min c; "max" := col_max c; "mean" := col_mean c;
     "median" := col_median c; "p50" := col_quantile 0.5 c;
     "p75" := col_quantile 0.75 c; "p95" := col_quantile 0.95 c;
     "std" := col_std c ]}.

Definition calculate_statistics (df : DataFrame) (metrics : list string)
  : gmap string (gmap string (option Q)) :=
  fold_left
    (λ stats metric,
       if has_column df metric
       then <[metric := metric_statistics df metric]> stats
       else stats)
    metrics ∅.
End statistics.

(** *** Heat map *)

Definition day_micros : Z := 86400000000.
Definition hour_micros : Z := 3600000000.

(** [dt.weekday()], 1 for Monday to 7 for Sunday (0001-01-01 is a
    Monday), and [dt.hour()]. *)
Definition weekday (t : Z) : Z := (t / day_micros) mod 7 + 1.
Definition hour (t : Z) : Z := (t mod day_micros) / hour_micros.

Definition bucket_of (r : gmap string datum) : option Z * option Z :=
  match r !! "timestamp" with
  | Some (VTime t) => (Some (weekday t), Some (hour t))
  | _ => (None, None)
  end.

(** The mean of the numbers of a group; null without any. *)
Definition mean (xs : list Q) : option Q :=
  match xs with
  | [] => None
  | _ => Some (sum xs / inject_Z (Z.of_nat (length xs)))%Q
  end.

Definition group_values (df : DataFrame) (metric : string)
  : gmap (option Z * option Z) (list Q) :=
  fold_left
    (λ groups r,
       let k := bucket_of r in
       let old := default [] (groups !! k) in
       <[k := match number r metric with
              | Some x => old ++ [x]
              | None => old
              end]> groups)
    (rows df) ∅.

Definition prepare_heatmap_data (df : DataFrame) (metric : string)
  : result (gmap (option Z * option Z) (option Q)) :=
  if negb (has_column df "timestamp") || negb (has_column df metric)
  then Ok ∅
  else
    match assoc "timestamp" (schema df) with
    | Some Datetime => Ok (mean <$> group_values df metric)
    | _ => Raise SchemaError
    end.

(** *** Sufficiency *)

(** [0.0 if max_val == 0 else (p95 - p75) / max_val]; arithmetic on a
    null statistic is a [TypeError]. *)
Definition sufficiency_score (p75 p95 max_val : option Q) : result Q :=
  match max_val with
  | Some m =>
      if decide (m == 0)%Q then Ok 0%Q
      else
        match p95, p75 with
        | Some a, Some b => Ok ((a - b) / m)%Q
        | _, _ => Raise TypeError
        end
  | None => Raise TypeError
  end.

(** The body of the loop over [stats.items()]. *)
Definition sufficiency_step (metric : string)
    (metric_stats : gmap string (option Q))
    (acc : result (gmap string Q)) : result (gmap string Q) :=
  sufficiency ← acc;
  match metric_stats !! "p75", metric_stats !! "p95",
        metric_stats !! "max" with
  | Some p75, Some p95, Some max_val =>
      gap ← sufficiency_score p75 p95 max_val;
      Ok (<[metric := gap]> sufficiency)
  | _, _, _ => Ok sufficiency
  end.

Definition calculate_sufficiency_metrics
    (stats : gmap string (gmap string (option Q)))
  : result (gmap string Q) :=
  map_fold sufficiency_step (Ok ∅) stats.

(** *** The analysis entry point *)

Definition PRIMARY_ANALYSIS_METRICS : list string :=
  [ "cpu_usage_percent"; "gpu_usage_percent";
    "ram_percent"; "swap_pressure_percent" ].

Record summary := {
  total_records : nat;
  date_range : option Z * option Z;
  summary_metrics : list string
}.

(** The dictionary that [run_analysis] returns: the one with the
    [error] key, or the complete results. *)
Inductive analysis :=
| AnalysisError (error : string)
| AnalysisResults
    (statistics : gmap string (gmap string (option Q)))
    (heatmaps : gmap string (gmap (option Z * option Z) (option Q)))
    (sufficiency : gmap string Q)
    (metrics : list string)
    (summ : summary).

(** [all_metrics.append(m)] when [target] is asked for and [m] is not
    yet in the list. *)
Definition add_raw (target m : string) (all_metrics : list string)
  : list string :=
  if bool_decide (target ∈ all_metrics)
     && negb (bool_decide (m ∈ all_metrics))
  then all_metrics ++ [m] else all_metrics.

(** The day of a time stamp, as [strftime("%Y-%m-%d")] prints it. *)
Definition day_of (t : Z) : Z := t / day_micros.

Definition times (df : DataFrame) : list Z :=
  omap (λ r, match r !! "timestamp" with
             | Some (VTime t) => Some t
             | _ => None
             end) (rows df).

Definition day_range (df : DataFrame) : result (option Z * option Z) :=
  match rows df with
  | [] => Ok (None, None)
  | _ =>
      match times df with
      | [] => Raise AttributeError
      | t :: ts =>
          Ok (Some (day_of (fold_left Z.min ts t)),
              Some (day_of (fold_left Z.max ts t)))
      end
  end.

Section run.
Variable scan_csv : string → result DataFrame.
Variable strptime : string → DataFrame → result DataFrame.
Variable clean_timestamps : DataFrame → result DataFrame.
Variables col_min col_max col_mean col_median col_std
  : list datum → option Q.
Variable col_quantile : Q → list datum → option Q.

Fixpoint heatmaps_of (df : DataFrame) (target_metrics : list string)
    (heatmaps : gmap string (gmap (option Z * option Z) (option Q)))
  : result (gmap string (gmap (option Z * option Z) (option Q))) :=
  match target_metrics with
  | [] => Ok heatmaps
  | metric :: target_metrics' =>
      if has_column df metric then
        h ← prepare_heatmap_data df metric;
        heatmaps_of df target_metrics' (<[metric := h]> heatmaps)
      else heatmaps_of df target_metrics' heatmaps
  end.

(** [run_analysis], given the files that [find_csv_files] finds in
    the data directory for the date range. *)
Definition run_analysis (csv_files : list string)
    (target_metrics : option (list string)) : result analysis :=
  let target_metrics := default PRIMARY_ANALYSIS_METRICS target_metrics in
  match csv_files with
  | [] => Ok (AnalysisError "No data files found for the specified date range.")
  | _ =>
      df ← load_data scan_csv strptime clean_timestamps csv_files;
      df ← calculate_derived_metrics df;
      let all_metrics := target_metrics in
      let all_metrics := add_raw "ram_percent" "memory_used" all_metrics in
      let all_metrics := add_raw "ram_percent" "memory_total" all_metrics in
      let all_metrics :=
        add_raw "swap_pressure_percent" "memory_swap_used" all_metrics in
      let statistics :=
        calculate_statistics col_min col_max col_mean col_median col_std
          col_quantile df all_metrics in
      heatmaps ← heatmaps_of df target_metrics ∅;
      sufficiency ← calculate_sufficiency_metrics statistics;
      range ← day_range df;
      Ok (AnalysisResults statistics heatmaps sufficiency target_metrics
            {| total_records := length (rows df);
               date_range := range;
               summary_metrics := target_metrics |})
  end.
End run.

(** *** The data files *)

(** [CSV_FILENAME_TEMPLATE.format(date=d)], the name of the file of the
    day [d] ([get_daily_csv_path] of [utils.py]); the same text is the
    glob pattern that [find_csv_files] builds for today. *)
Definition CSV_FILENAME (d : date) : string :=
  "mactop_data_" +:+ strftime_ymd d +:+ ".csv".

(** [date_pattern.match(name)] for
    [mactop_data_(\d{4}-\d{2}-\d{2})\.csv]: the text of group 1 when
    the name starts with a match (the pattern has no anchor at its
    end). *)
Definition date_pattern_match (name : string) : option string :=
  s ← after_prefix "mactop_data_" name;
  '(y, s) ← take_class 4 is_digit s;
  s ← expect "-" s;
  '(m, s) ← take_class 2 is_digit s;
  s ← expect "-" s;
  '(d, s) ← take_class 2 is_digit s;
  _ ← after_prefix ".csv" s;
  Some (y +:+ "-" +:+ m +:+ "-" +:+ d).

(** [(start_date is None or file_date >= start_date) and
     (end_date is None or file_date <= end_date)] *)
Definition in_date_range (start_date end_date : option date)
    (file_date : date) : bool :=
  match start_date with
  | None => true
  | Some s => date_le s file_date
  end
  && match end_date with
     | None => true
     | Some e => date_le file_date e
     end.

Section files.
(** [date.today()], and the names of the entries of the data directory
    that [data_dir.glob(pattern)] yields. *)
Variable today : date.
Variable glob : string → list string.

(** The body of the loop over the CSV files of the directory. *)
Definition matching_file (start_date end_date : option date)
    (name : string) : bool :=
  match date_pattern_match name with
  | Some file_date_str =>
      match date_fromisoformat file_date_str with
      | Some file_date => in_date_range start_date end_date file_date
      | None => false
      end
  | None => false
  end.

Definition find_csv_files (start_date end_date : option date)
  : list string :=
  match start_date, end_date with
  | None, None => glob (CSV_FILENAME today)
  | _, _ =>
      List.filter (matching_file start_date end_date) (glob "*.csv")
  end.

(** The files that [run_analysis] analyses: without a date range both
    ends are set to today before the files are looked up. *)
Definition analysis_files (start_date end_date : option date)
  : list string :=
  match start_date, end_date with
  | None, None => find_csv_files (Some today) (Some today)
  | _, _ => find_csv_files start_date end_date
  end.
End files.

End Analyze.

(** ** [mactop_report/visualize.py] *)

Module Visualize.

(** The colour scale of the heat maps, from low to high. *)
Definition HEAT_COLORS : list string :=
  [ "#0A2F51"; "#0E4D64"; "#137177"; "#188977"; "#1D9A6C";
    "#39A96B"; "#56B870"; "#74C67A"; "#99D492"; "#BFE1B0" ].

(** The index that [get_color_for_value] computes: 0 for a range of
    one point, else the position in the range times the number of
    colours, truncated, and at most the last index. *)
Definition color_index (value min_val max_val : Q) : Z :=
  if decide (min_val == max_val)%Q then 0%Z
  else
    let position := ((value - min_val) / (max_val - min_val))%Q in
    Z.min (int (position * inject_Z (Z.of_nat (length HEAT_COLORS))))
          (Z.of_nat (length HEAT_COLORS) - 1).

(** [get_color_for_value(value, min_val, max_val)] *)
Definition get_color_for_value (value min_val max_val : Q) : result string :=
  index HEAT_COLORS (color_index value min_val max_val).

(** The assessments of [create_sufficiency_panel]. *)
Inductive assessment := Very_tight | Tight | Adequate | Generous.

(** The chain of comparisons that turns a score into its assessment. *)
Definition assess (score : Q) : assessment :=
  if decide (score < 0.05)%Q then Very_tight
  else if decide (score < 0.1)%Q then Tight
  else if decide (score < 0.2)%Q then Adequate
  else Generous.

(** The rows of the table of [create_sufficiency_panel]: metric,
    score in percent, assessment; [None] for the panel without
    data. *)
Definition create_sufficiency_panel (sufficiency_metrics : gmap string Q)
  : option (list (string * Q * assessment)) :=
  if decide (sufficiency_metrics = ∅) then None
  else Some (map (λ '(metric, score), (metric, score * 100, assess score)%Q)
               (map_to_list sufficiency_metrics)).

End Visualize.

(** ** [dashboard.py] *)

Module Dashboard.

(** The dictionary returned by [get_stats]. *)
Record stats := {
  st_min : Q; st_max : Q; st_mean : Q; st_median : Q;
  st_p75 : Q; st_p95 : Q
}.

(** [DashboardData.get_stats(metric_data)] *)
Definition get_stats (metric_data : list Q) : result stats :=
  match metric_data with
  | [] =>
      Ok {| st_min := 0; st_max := 0; st_mean := 0; st_median := 0;
            st_p75 := 0; st_p95 := 0 |}
  | _ =>
      let sorted_data := sort metric_data in
      let n := Z.of_nat (length sorted_data) in
      mn ← min sorted_data;
      mx ← max sorted_data;
      med ← (if (n mod 2 =? 1)%Z then index sorted_data (n / 2)
             else a ← index sorted_data (n / 2 - 1);
                  b ← index sorted_data (n / 2);
                  mret ((a + b) / 2)%Q);
      q75 ← index sorted_data (int (inject_Z n * 0.75));
      q95 ← index sorted_data (int (inject_Z n * 0.95));
      mret {| st_min := mn; st_max := mx;
              st_mean := (sum sorted_data / inject_Z n)%Q;
              st_median := med; st_p75 := q75; st_p95 := q95 |}
  end.

Section process.
(** [datetime.now()] when the row of the given position is processed. *)
Variable now : nat → Z.

(** The time stamps that [_process_data] collects: the parsed time of
    a text, the current time when the key is missing or the text does
    not parse, and nothing for a value that is no text. *)
Fixpoint process_timestamps (i : nat) (data : list (gmap string Monitor.cell))
  : list Z :=
  match data with
  | [] => []
  | item :: data' =>
      match item !! "timestamp" with
      | Some (Monitor.CStr s) =>
          match fromisoformat s with
          | Some t => [t]
          | None => [now i]
          end
      | Some _ => []
      | None => [now i]
      end ++ process_timestamps (S i) data'
  end.
End process.

(** The list that [_process_data] builds for a plain metric
    ([cpu_usage_percent], [gpu_usage_percent], [power_total]): the
    value of the row, 0 when it is missing or empty. *)
Fixpoint metric_data (key : string) (data : list (gmap string Monitor.cell))
  : result (list Q) :=
  match data with
  | [] => Ok []
  | item :: data' =>
      x ← match item !! key with
          | Some c => if Monitor.nonempty c then Monitor.float c else Ok 0%Q
          | None => Ok 0%Q
          end;
      xs ← metric_data key data';
      mret (x :: xs)
  end.

(** The inner loop of [find_peak_window], over the positions from the
    window start on. *)
Fixpoint window_values (rows : list (Z * Q)) (window_end : Z) : list Q :=
  match rows with
  | [] => []
  | (t, x) :: rows' =>
      if (window_end <? t)%Z then [] else x :: window_values rows' window_end
  end.

(** One round of the outer loop, for the start index [i]. *)
Definition window_step (timestamps : list Z) (metric_data : list Q)
    (window_minutes : Z) (acc : Q * nat) (i : nat) : result (Q * nat) :=
  let '(highest_avg, best_start_idx) := acc in
  window_start ← index timestamps (Z.of_nat i);
  let window_end :=
    (window_start + Monitor.window_micros window_minutes)%Z in
  match window_values (drop i (zip timestamps metric_data)) window_end with
  | [] => Ok acc
  | window =>
      let window_avg := Monitor.average window in
      if decide (highest_avg < window_avg)%Q then Ok (window_avg, i)
      else Ok acc
  end.

Fixpoint window_loop (timestamps : list Z) (metric_data : list Q)
    (window_minutes : Z) (acc : Q * nat) (starts : list nat)
  : result (Q * nat) :=
  match starts with
  | [] => Ok acc
  | i :: starts' =>
      acc' ← window_step timestamps metric_data window_minutes acc i;
      window_loop timestamps metric_data window_minutes acc' starts'
  end.

(** [DashboardData.find_peak_window(metric_data, window_minutes)], for
    the time stamps of the object. *)
Definition find_peak_window (timestamps : list Z) (metric_data : list Q)
    (window_minutes : Z) : result (nat * Q) :=
  if (length metric_data <? 2)%nat
     || negb (length timestamps =? length metric_data)%nat
  then Ok (0%nat, 0%Q)
  else
    last ← index timestamps (-1);
    first ← index timestamps 0;
    if (last - first <? Monitor.window_micros window_minutes)%Z then
      Ok (0%nat, Monitor.average metric_data)
    else
      '(highest_avg, best_start_idx) ←
        window_loop timestamps metric_data window_minutes (0%Q, 0%nat)
          (seq 0 (length metric_data - 1));
      Ok (best_start_idx, highest_avg).

(** The characters of a sparkline: a blank of the line for no data, or
    one of the eight levels. *)
Inductive spark := Blank | Level (k : nat).

(** The exceptions of [SimpleSpark.generate]. *)
Inductive error := ZeroDivisionError | SparkIndexError.

(** [values[min(int(i * step), len(values) - 1)]] for [i] in
    [range(width)], with [step = len(values) / width]; the index is
    always in range.  The product is taken exactly. *)
Definition sampled (values : list Q) (width : Z) : list Q :=
  let n := Z.of_nat (length values) in
  let step := (inject_Z n / inject_Z width)%Q in
  omap (λ i, values !! Z.to_nat (Z.min (int (inject_Z (Z.of_nat i) * step))
                                    (n - 1)))
       (seq 0 (Z.to_nat width)).

(** [spark_chars[min(int(normalized * 8), 7)]]: a negative index
    counts from the end of the eight characters. *)
Definition spark_char (v min_value value_range : Q) : error + spark :=
  let normalized := ((v - min_value) / value_range)%Q in
  let char_idx := Z.min (int (normalized * 8)) 7 in
  if (0 <=? char_idx)%Z then inr (Level (Z.to_nat char_idx))
  else if (-8 <=? char_idx)%Z then inr (Level (Z.to_nat (char_idx + 8)))
  else inl SparkIndexError.

Fixpoint spark_chars (values : list Q) (min_value value_range : Q)
  : error + list spark :=
  match values with
  | [] => inr []
  | v :: values' =>
      match spark_char v min_value value_range with
      | inl e => inl e
      | inr c =>
          match spark_chars values' min_value value_range with
          | inl e => inl e
          | inr cs => inr (c :: cs)
          end
      end
  end.

(** [SimpleSpark.generate(values, width, min_value, max_value)]; the
    minimum and the maximum of the values are computed as [min] and
    [max] compute them. *)
Definition generate (values : list Q) (width : Z)
    (min_value max_value : option Q) : error + list spark :=
  match values with
  | [] => inr (replicate (Z.to_nat width) Blank)
  | v0 :: rest =>
      let min_value :=
        match min_value with
        | Some m => m
        | None => fold_left (λ m y, if decide (y < m)%Q then y else m)
                    rest v0
        end in
      let max_value :=
        match max_value with
        | Some m => m
        | None => fold_left (λ m y, if decide (m < y)%Q then y else m)
                    rest v0
        end in
      let value_range := (max_value - min_value)%Q in
      let value_range :=
        if decide (value_range <= 0)%Q then 1%Q else value_range in
      let n := Z.of_nat (length values) in
      if (width <? n)%Z then
        if (width =? 0)%Z then inl ZeroDivisionError
        else spark_chars (sampled values width) min_value value_range
      else
        let last := List.last values v0 in
        spark_chars (values ++ replicate (Z.to_nat (width - n)) last)
          min_value value_range
  end.

End Dashboard.

(** ** [mactop_report/record.py] *)

Module Record.

(** [s.split()]: the words of [s] between runs of white space. *)
Definition words (s : string) : list string :=
  List.filter (λ w, negb (bool_decide (w = EmptyString)))
    ((fix pieces (s : string) : list string :=
        match s with
        | EmptyString => [EmptyString]
        | String c s' =>
            if is_space c then EmptyString :: pieces s'
            else match pieces s' with
                 | p :: ps => String c p :: ps
                 | [] => [String c EmptyString]
                 end
        end) s).

(** The body of the loop of [fetch_and_parse_metrics] over the lines
    of the response: a line of exactly two words whose second word is
    a number sets the entry of the first word. *)
Definition process_line (metrics : gmap string Q) (line : string)
  : gmap string Q :=
  let line := strip line in
  if bool_decide (line = EmptyString) || startswith "#"%char line
  then metrics
  else
    match words line with
    | [name; value] =>
        match float_of_string value with
        | Some x => <[name := x]> metrics
        | None => metrics
        end
    | _ => metrics
    end.

(** [fetch_and_parse_metrics], given the text of the response. *)
Definition parse_response (text : string) : gmap string Q :=
  fold_left process_line (split LF text) ∅.

Definition EXPECTED_METRIC_FIELDS : list string :=
  [ "timestamp"; "cpu_usage_percent"; "gpu_usage_percent";
    "memory_used"; "memory_total"; "memory_swap_used" ].

(** [{"timestamp": now, **metrics}] *)
Definition metrics_with_timestamp (timestamp : string)
    (metrics : gmap string Q) : gmap string Monitor.cell :=
  (Monitor.CFloat <$> metrics) ∪ {[ "timestamp" := Monitor.CStr timestamp ]}.

(** The row that [append_metrics_batch_to_csv] writes for one
    dictionary of the batch: [[metrics.get(field, '') for field in
    fields]]. *)
Definition batch_row (fields : list string)
    (metrics : gmap string Monitor.cell) : list Monitor.cell :=
  map (λ field, default (Monitor.CStr EmptyString) (metrics !! field)) fields.

(** The row of one round of [recording_session], for the text of the
    response and the time of the round; a round whose dictionary is
    empty records nothing. *)
Definition sample_row (text timestamp : string)
  : option (list Monitor.cell) :=
  let metrics := parse_response text in
  if decide (metrics = ∅) then None
  else Some (batch_row EXPECTED_METRIC_FIELDS
               (metrics_with_timestamp timestamp metrics)).

End Record.


(** ** The floats of the interpreter *)

(** The modules above read a [float] as the rational number it denotes.
    This module has the numbers that the interpreter computes with,
    IEEE 754 binary64 with rounding to nearest, overflow to infinity
    and NaN, for the properties of [mactop_monitor.py] that depend on
    them. *)
Module Binary64.

(** Every finite double is an integer multiple of [2^-1074] that has at
    most 53 significant bits and is below [2^1024] in absolute value:
    [Finite k] stands for [k * 2^-1074].  The two zeros are not
    distinguished. *)
Inductive double := Finite (k : Z) | Infinity (negative : bool) | NaN.

#[global] Instance double_eq_dec : EqDecision double.
Proof. solve_decision. Defined.

#[global] Instance double_inhabited : Inhabited double := populate (Finite 0).

(** The number 1 in units of [2^-1074], and [2^1024], the first power
    of two beyond the doubles, in these units. *)
Definition unit : Z := 2 ^ 1074.
Definition huge : Z := 2 ^ 2098.

(** [n / d] rounded to the nearest integer, a tie going to the even
    neighbour ([d] positive). *)
Definition rne_div (n d : Z) : Z :=
  let f := (n / d)%Z in
  match (2 * (n mod d) ?= d)%Z with
  | Lt => f
  | Gt => (f + 1)%Z
  | Eq => if Z.even f then f else (f + 1)%Z
  end.

(** The exponent of the last place of the doubles around [n / d] units:
    below [2^53] units the doubles are the integers, and the spacing
    doubles from each binade to the next. *)
Definition last_place (n d : Z) : Z :=
  Z.max 0 (Z.log2 (Z.abs n / d) - 52).

(** [n / d] units rounded to 53 significant bits, before the test for
    overflow. *)
Definition round_int (n d : Z) : Z :=
  let s := last_place n d in
  (rne_div n (d * 2 ^ s) * 2 ^ s)%Z.

(** The double nearest to [n / d] units ([d] positive): rounding to
    nearest, ties to even, and infinity from [2^1024] on. *)
Definition round_units (n d : Z) : double :=
  let k := round_int n d in
  if (huge <=? Z.abs k)%Z then Infinity (k <? 0)%Z else Finite k.

(** The double nearest to a rational number. *)
Definition round (x : Q) : double :=
  round_units (Qnum x * unit) (QDen x).

(** The doubles among the values of the type: a finite one is its own
    rounding. *)
Definition is_double (x : double) : Prop :=
  match x with
  | Finite k => round_units k 1 = Finite k
  | _ => True
  end.

#[global] Instance is_double_dec x : Decision (is_double x).
Proof. destruct x; simpl; apply _. Defined.

Definition is_nan (x : double) : bool :=
  match x with NaN => true | _ => false end.

Definition is_finite (x : double) : bool :=
  match x with Finite _ => true | _ => false end.

(** [x < y], [x == y] and [x <= y]: false when an operand is NaN. *)
Definition ltb (x y : double) : bool :=
  match x, y with
  | NaN, _ | _, NaN => false
  | Finite a, Finite b => (a <? b)%Z
  | Infinity true, Infinity true => false
  | Infinity true, _ => true
  | _, Infinity true => false
  | Infinity false, _ => false
  | _, Infinity false => true
  end.

Definition eqb (x y : double) : bool :=
  match x, y with
  | NaN, _ | _, NaN => false
  | _, _ => bool_decide (x = y)
  end.

Definition leb (x y : double) : bool := ltb x y || eqb x y.

(** [x < n] for an integer [n]: the two numbers are compared exactly. *)
Definition lt_int (x : double) (n : Z) : bool :=
  match x with
  | Finite k => (k <? n * unit)%Z
  | Infinity s => s
  | NaN => false
  end.

Definition negative (k : Z) : bool := (k <? 0)%Z.

(** [-x] *)
Definition opp (x : double) : double :=
  match x with
  | Finite k => Finite (- k)
  | Infinity s => Infinity (negb s)
  | NaN => NaN
  end.

(** [x + y] and [x - y] *)
Definition add (x y : double) : double :=
  match x, y with
  | NaN, _ | _, NaN => NaN
  | Finite a, Finite b => round_units (a + b) 1
  | Infinity s, Infinity s' => if bool_decide (s = s') then x else NaN
  | Infinity _, Finite _ => x
  | Finite _, Infinity _ => y
  end.

Definition sub (x y : double) : double := add x (opp y).

(** [x * y] *)
Definition mul (x y : double) : double :=
  match x, y with
  | NaN, _ | _, NaN => NaN
  | Finite a, Finite b => round_units (a * b) unit
  | Infinity s, Finite b =>
      if (b =? 0)%Z then NaN else Infinity (xorb s (negative b))
  | Finite a, Infinity s =>
      if (a =? 0)%Z then NaN else Infinity (xorb (negative a) s)
  | Infinity s, Infinity s' => Infinity (xorb s s')
  end.

(** The quotient of [x] by a [y] other than zero. *)
Definition quotient (x y : double) : double :=
  match x, y with
  | NaN, _ | _, NaN => NaN
  | Finite a, Finite b => round_units (a * unit * Z.sgn b) (Z.abs b)
  | Infinity s, Finite b => Infinity (xorb s (negative b))
  | Finite _, Infinity _ => Finite 0
  | Infinity _, Infinity _ => NaN
  end.

(** [x / y] *)
Definition div (x y : double) : result double :=
  match y with
  | Finite 0 => Raise ZeroDivisionError
  | _ => Ok (quotient x y)
  end.

(** The double of an integer that is below [2^1024] in absolute value,
    as an operand of [*] and [/] and as [float(n)]. *)
Definition of_Z (n : Z) : double := round_units (n * unit) 1.

(** [int(x)]: truncation towards zero. *)
Definition int (x : double) : result Z :=
  match x with
  | Finite k => Ok (k ÷ unit)%Z
  | Infinity _ => Raise OverflowError
  | NaN => Raise ValueError
  end.

(** *** [float(s)] for a string *)

Definition lower (c : ascii) : ascii :=
  if between 65 90 c then ascii_of_nat (code c + 32) else c.

Fixpoint lowercase (s : string) : string :=
  match s with
  | EmptyString => EmptyString
  | String c s' => String (lower c) (lowercase s')
  end.

(** The digit grouping of numeric literals: an underscore is accepted
    between two digits and nowhere else.  [prev] tells whether the
    preceding character is a digit; the result is the text without its
    underscores. *)
Fixpoint ungroup (prev : bool) (s : string) : option string :=
  match s with
  | EmptyString => Some EmptyString
  | String c s' =>
      if bool_decide (c = "_"%char) then
        match s' with
        | String c' _ =>
            if prev && is_digit c' then ungroup false s' else None
        | EmptyString => None
        end
      else r ← ungroup (is_digit c) s'; Some (String c r)
  end.

(** A decimal numeral, [digits[.digits]] or [.digits], with an optional
    exponent: the double nearest to its value. *)
Definition decimal (neg : bool) (s : string) : option double :=
  let '(ip, s) := span is_digit s in
  let '(fp, s) :=
    match s with
    | String "." s' => span is_digit s'
    | _ => (EmptyString, s)
    end in
  if bool_decide (ip = EmptyString) && bool_decide (fp = EmptyString)
  then None
  else
    let mant := digits_value (ip +:+ fp) in
    let mant := if neg then (- mant)%Z else mant in
    let frac := Z.of_nat (String.length fp) in
    match s with
    | EmptyString => Some (round (scale10 mant (- frac)))
    | String c s' =>
        if bool_decide (c = "e"%char) || bool_decide (c = "E"%char) then
          let '(eneg, s') := take_sign s' in
          let '(ep, rest) := span is_digit s' in
          if bool_decide (ep = EmptyString)
             || negb (bool_decide (rest = EmptyString))
          then None
          else
            let e := digits_value ep in
            let e := if eneg then (- e)%Z else e in
            Some (round (scale10 mant (e - frac)))
        else None
    end.

(** [float(s)]: white space around the numeral is dropped; after an
    optional sign stands a decimal numeral or, in any case of the
    letters, [inf], [infinity] or [nan].  [None] stands for
    [ValueError]. *)
Definition float_of_string (s : string) : option double :=
  s ← ungroup false (strip s);
  let '(neg, body) := take_sign s in
  let word := lowercase body in
  if bool_decide (word = "inf") || bool_decide (word = "infinity")
  then Some (Infinity neg)
  else if bool_decide (word = "nan") then Some NaN
  else decimal neg body.

(** *** Builtins on lists of floats *)

(** [sum(xs)]: starts from 0 and adds from the left, each sum rounded
    (the additions of CPython up to version 3.11; from 3.12 on the
    builtin compensates the rounding errors of a sum of floats). *)
Definition sum (xs : list double) : double := fold_left add xs (Finite 0).

(** [min(xs)] and [max(xs)]: the first element is replaced by each
    later one that is smaller, respectively larger; [ValueError] on an
    empty list. *)
Definition min (xs : list double) : result double :=
  match xs with
  | [] => Raise ValueError
  | x :: xs' => Ok (fold_left (λ m y, if ltb y m then y else m) xs' x)
  end.

Definition max (xs : list double) : result double :=
  match xs with
  | [] => Raise ValueError
  | x :: xs' => Ok (fold_left (λ m y, if ltb m y then y else m) xs' x)
  end.

(** [xs.sort()] and [sorted(xs)] for a list of numbers: the ascending
    order, here by insertion.  The order in which the sort of the
    interpreter leaves a list that holds NaN, which compares false with
    everything, depends on the steps of its algorithm and is outside
    the model. *)
Fixpoint insert (x : double) (xs : list double) : list double :=
  match xs with
  | [] => [x]
  | y :: xs' => if ltb x y then x :: xs else y :: insert x xs'
  end.

Definition sort (xs : list double) : list double := foldr insert [] xs.

(** [len(xs) * k], an integer times a float. *)
Definition times (n : nat) (k : double) : double :=
  mul (of_Z (Z.of_nat n)) k.

(** [sum(xs) / len(xs)] *)
Definition average (xs : list double) : result double :=
  div (sum xs) (of_Z (Z.of_nat (length xs))).

(** *** Time *)

(** A [datetime]: the microseconds of its civil time from 0001-01-01
    00:00:00 on and, when it is aware, its offset from UTC in
    microseconds. *)
Record datetime := Datetime { civil : Z; utcoffset : option Z }.

#[global] Instance datetime_eq_dec : EqDecision datetime.
Proof. solve_decision. Defined.

(** The civil times of the years 1 to 9999. *)
Definition max_micros : Z := 315537897600000000 - 1.

(** The instants of two times that can be compared: both naive or both
    aware; otherwise comparison and subtraction are [TypeError]s. *)
Definition instants (a b : datetime) : result (Z * Z) :=
  match utcoffset a, utcoffset b with
  | None, None => Ok (civil a, civil b)
  | Some oa, Some ob => Ok (civil a - oa, civil b - ob)%Z
  | _, _ => Raise TypeError
  end.

(** [timedelta(minutes=m)], in microseconds: the days of a [timedelta]
    are limited to 999999999. *)
Definition timedelta_minutes (m : Z) : result Z :=
  if (Z.abs (m * 60 / 86400) <=? 999999999)%Z
  then Ok (m * 60 * 1000000)%Z else Raise OverflowError.

(** [a + d] for a [timedelta] of [d] microseconds: the result must be a
    date of the years 1 to 9999. *)
Definition add_timedelta (a : datetime) (d : Z) : result datetime :=
  let t := (civil a + d)%Z in
  if (0 <=? t)%Z && (t <=? max_micros)%Z
  then Ok (Datetime t (utcoffset a)) else Raise OverflowError.

(** [d.total_seconds()] for a [timedelta] of [d] microseconds. *)
Definition total_seconds (d : Z) : double :=
  round_units (d * unit) 1000000.

End Binary64.

(** ** [mactop_monitor.py] with the floats of the interpreter *)

(** The statistics engine and the peak-window finder once more, now on
    doubles and on the rows as [csv.DictReader] hands them out. *)
Module MactopMonitor.
Import Binary64.

(** A value of a row: a float, a text, [None] (the reader fills the
    fields that a short line lacks with it), or a [datetime]. *)
Inductive cell :=
| CFloat (x : double) | CStr (s : string) | CNone | CTime (t : datetime).

#[global] Instance cell_eq_dec : EqDecision cell.
Proof. solve_decision. Defined.

(** [float(c)] *)
Definition float (c : cell) : result double :=
  match c with
  | CFloat x => Ok x
  | CStr s =>
      match float_of_string s with
      | Some x => Ok x
      | None => Raise ValueError
      end
  | CNone | CTime _ => Raise TypeError
  end.

(** [c != ''] *)
Definition nonempty (c : cell) : bool :=
  match c with
  | CStr EmptyString => false
  | _ => true
  end.

(** [[float(row[metric]) for row in data
      if metric in row and row[metric] != '']] *)
Fixpoint metric_values (data : list (gmap string cell)) (metric : string)
  : result (list double) :=
  match data with
  | [] => Ok []
  | row :: data' =>
      match row !! metric with
      | Some c =>
          if nonempty c then
            x ← float c; xs ← metric_values data' metric; mret (x :: xs)
          else metric_values data' metric
      | None => metric_values data' metric
      end
  end.

(** The dictionary returned by [calculate_statistics], one field per
    key. *)
Record statistics := {
  s_min : double; s_max : double; s_mean : double; s_median : double;
  s_p75 : double; s_p95 : double; s_std_dev : double; s_variance : double
}.

(** The float literals of the two percentiles. *)
Definition k75 : double := round 0.75.
Definition k95 : double := round 0.95.

Section engine.
(** [statistics.stdev] and [statistics.variance] belong to the standard
    library; how they round, and what they raise on a spread beyond
    the doubles or on a value that is not finite, differs between its
    versions. *)
Variables stdev variance : list double → result double.

(** The part of [calculate_statistics] that follows the collection of
    the values; the entries of the dictionary are evaluated in their
    order. *)
Definition statistics_of_values (values : list double) : result statistics :=
  match values with
  | [] =>
      Ok {| s_min := Finite 0; s_max := Finite 0; s_mean := Finite 0;
            s_median := Finite 0; s_p75 := Finite 0; s_p95 := Finite 0;
            s_std_dev := Finite 0; s_variance := Finite 0 |}
  | _ =>
      let values := sort values in
      let n := length values in
      mn ← min values;
      mx ← max values;
      mean ← average values;
      med ← (if (n mod 2 =? 1)%nat then index values (Z.of_nat (n / 2))
             else a ← index values (Z.of_nat (n / 2) - 1);
                  b ← index values (Z.of_nat (n / 2));
                  div (add a b) (of_Z 2));
      i75 ← int (times n k75);
      q75 ← index values i75;
      i95 ← int (times n k95);
      q95 ← index values i95;
      sd ← (if (1 <? n)%nat then stdev values else Ok (Finite 0));
      var ← (if (1 <? n)%nat then variance values else Ok (Finite 0));
      mret {| s_min := mn; s_max := mx; s_mean := mean;
              s_median := med; s_p75 := q75; s_p95 := q95;
              s_std_dev := sd; s_variance := var |}
  end.

Definition calculate_statistics (data : list (gmap string cell))
    (metric : string) : result statistics :=
  values ← metric_values data metric;
  statistics_of_values values.
End engine.

(** *** The peak-window finder *)

Section finder.
(** [datetime.fromisoformat]; [None] stands for [ValueError].  The
    texts that it accepts differ between the versions of the
    interpreter. *)
Variable fromisoformat : string → option datetime.

(** The body of the loop that parses the time stamps: a row whose
    [timestamp] is a string receives the parsed time under the key
    [timestamp_obj]. *)
Definition parse_timestamp (item : gmap string cell)
  : result (gmap string cell) :=
  match item !! "timestamp" with
  | None => Raise KeyError
  | Some (CStr s) =>
      match fromisoformat s with
      | Some t => Ok (<["timestamp_obj" := CTime t]> item)
      | None => Raise ValueError
      end
  | Some _ => Ok item
  end.

(** The loop over the rows, which updates them in place: the rows
    after the loop, and the exception that ended it early, if any. *)
Fixpoint parse_timestamps (data : list (gmap string cell))
  : list (gmap string cell) * option exn :=
  match data with
  | [] => ([], None)
  | item :: data' =>
      match parse_timestamp item with
      | Ok item' =>
          let '(rest, e) := parse_timestamps data' in (item' :: rest, e)
      | Raise e => (data, Some e)
      end
  end.

(** [a < b] for two values of rows: numbers, texts and times are
    ordered among themselves. *)
Definition cell_lt (a b : cell) : result bool :=
  match a, b with
  | CFloat x, CFloat y => Ok (ltb x y)
  | CStr s, CStr t => Ok (String.ltb s t)
  | CTime t, CTime u => '(i, j) ← instants t u; Ok (i <? j)%Z
  | _, _ => Raise TypeError
  end.

(** [min(item["timestamp_obj"] for item in data)] and the like with
    [max]: the values are looked up one after the other, each compared
    with the extreme one so far. *)
Fixpoint extreme (better : cell → cell → result bool) (current : cell)
    (data : list (gmap string cell)) : result cell :=
  match data with
  | [] => Ok current
  | item :: data' =>
      match item !! "timestamp_obj" with
      | None => Raise KeyError
      | Some c =>
          b ← better c current;
          extreme better (if (b : bool) then c else current) data'
      end
  end.

Definition extreme_timestamp (better : cell → cell → result bool)
    (data : list (gmap string cell)) : result cell :=
  match data with
  | [] => Raise ValueError
  | item :: data' =>
      match item !! "timestamp_obj" with
      | None => Raise KeyError
      | Some c => extreme better c data'
      end
  end.

(** [(end_time - start_time).total_seconds()] *)
Definition span_seconds (start_time end_time : cell) : result double :=
  match start_time, end_time with
  | CTime a, CTime b => '(i, j) ← instants a b; Ok (total_seconds (j - i))
  | CFloat _, CFloat _ => Raise AttributeError
  | _, _ => Raise TypeError
  end.

(** [window_start + timedelta(minutes=window_minutes)] *)
Definition window_end_of (window_start : cell) (window_minutes : Z)
  : result datetime :=
  d ← timedelta_minutes window_minutes;
  match window_start with
  | CTime t => add_timedelta t d
  | _ => Raise TypeError
  end.

(** [c > window_end] *)
Definition later (c : cell) (window_end : datetime) : result bool :=
  match c with
  | CTime t => '(i, j) ← instants t window_end; Ok (j <? i)%Z
  | _ => Raise TypeError
  end.

(** The inner loop, over the rows from the window start on: it stops
    at the first row later than [window_end] and collects the values
    that are present. *)
Fixpoint window_values (rows : list (gmap string cell)) (metric : string)
    (window_end : datetime) : result (list double) :=
  match rows with
  | [] => Ok []
  | row :: rows' =>
      match row !! "timestamp_obj" with
      | None => Raise KeyError
      | Some c =>
          stop ← later c window_end;
          if (stop : bool) then Ok []
          else
            match row !! metric with
            | Some c =>
                if nonempty c then
                  x ← float c;
                  xs ← window_values rows' metric window_end;
                  mret (x :: xs)
                else window_values rows' metric window_end
            | None => window_values rows' metric window_end
            end
      end
  end.

(** One round of the outer loop, for the start index [i]. *)
Definition window_step (data : list (gmap string cell)) (metric : string)
    (window_minutes : Z) (acc : double * nat) (i : nat)
  : result (double * nat) :=
  let '(highest_avg, best_start_idx) := acc in
  row ← index data (Z.of_nat i);
  match row !! "timestamp_obj" with
  | None => Raise KeyError
  | Some window_start =>
      window_end ← window_end_of window_start window_minutes;
      window ← window_values (drop i data) metric window_end;
      match window with
      | [] => Ok acc
      | _ =>
          window_avg ← average window;
          if ltb highest_avg window_avg then Ok (window_avg, i)
          else Ok acc
      end
  end.

Fixpoint window_loop (data : list (gmap string cell)) (metric : string)
    (window_minutes : Z) (acc : double * nat) (starts : list nat)
  : result (double * nat) :=
  match starts with
  | [] => Ok acc
  | i :: starts' =>
      acc' ← window_step data metric window_minutes acc i;
      window_loop data metric window_minutes acc' starts'
  end.

(** The part of [find_peak_window] after the time stamps are parsed. *)
Definition peak_of_parsed (data : list (gmap string cell)) (metric : string)
    (window_minutes : Z) : result (nat * double) :=
  start_time ← extreme_timestamp cell_lt data;
  end_time ← extreme_timestamp (λ c current, cell_lt current c) data;
  span ← span_seconds start_time end_time;
  if lt_int span (window_minutes * 60) then
    values ← metric_values data metric;
    match values with
    | [] => Ok (0%nat, Finite 0)
    | _ => avg ← average values; Ok (0%nat, avg)
    end
  else
    '(highest_avg, best_start_idx) ←
      window_loop data metric window_minutes (Finite 0, 0%nat)
        (seq 0 (length data - 1));
    Ok (best_start_idx, highest_avg).

(** [find_peak_window(data, metric, window_minutes)]: the rows as the
    call leaves them, and what the call returns or raises. *)
Definition find_peak_window (data : list (gmap string cell))
    (metric : string) (window_minutes : Z)
  : list (gmap string cell) * result (nat * double) :=
  if (length data <? 2)%nat then (data, Ok (0%nat, Finite 0))
  else
    match parse_timestamps data with
    | (data', Some _) => (data', Ok (0%nat, Finite 0))
    | (data', None) => (data', peak_of_parsed data' metric window_minutes)
    end.
End finder.

End MactopMonitor.

(** ** The vocabulary of the specification, and example data *)

Import Analyze.
Import Monitor.

(** The position that the specification names for the percentile [k] of
    [n] values: [floor(n * k)]. *)
Definition nearest_rank (n : nat) (k : Q) : nat :=
  Z.to_nat (Qfloor (inject_Z (Z.of_nat n) * k)).

Definition example_rows (metric : string) (xs : list Q) : list (gmap string cell) :=
  map (λ x, {[ metric := CFloat x ]}) xs.

(** A row has no observation of [metric]: the key is absent or its value
    is the empty string. *)
Definition missing (metric : string) (row : gmap string cell) : Prop :=
  row !! metric = None ∨ row !! metric = Some (CStr EmptyString).

(** The value text of a line, [[-+]?[\d\.eE]+]. *)
Definition is_value_text (v : string) : bool :=
  match v with
  | String c b =>
      if bool_decide (c = "-"%char) || bool_decide (c = "+"%char)
      then negb (bool_decide (b = EmptyString)) && string_forall is_value_char b
      else string_forall is_value_char v
  | EmptyString => false
  end.

(** A line [name{labs} v]. *)
Definition labelled_line (name labs v : string) : string :=
  name +:+ String "{" (labs +:+ String "}" (String " " v)).

(** The label text [key="val"]. *)
Definition label_text (key val : string) : string :=
  key +:+ String "=" (String "034" (val +:+ String "034" EmptyString)).

(** The table of the label combinations that the parser recognises:
    metric name, label key, label value, canonical field. *)
Definition label_table : list (string * string * string * string) :=
  [ ("mactop_memory_gb", "type", "swap_total", "memory_swap_total");
    ("mactop_memory_gb", "type", "swap_used", "memory_swap_used");
    ("mactop_memory_gb", "type", "total", "memory_total");
    ("mactop_memory_gb", "type", "used", "memory_used");
    ("mactop_power_watts", "component", "cpu", "power_cpu");
    ("mactop_power_watts", "component", "gpu", "power_gpu");
    ("mactop_power_watts", "component", "total", "power_total") ].

(** A line that is blank or a comment once stripped. *)
Definition blank_or_comment (line : string) : Prop :=
  strip line = EmptyString ∨ startswith "#" (strip line) = true.

(** A malformed line: it does not have the shape of a sample, or it has
    but its value text is not a number. *)
Definition malformed (line : string) : Prop :=
  match METRIC_PATTERN_match (strip line) with
  | Some m => float_of_string (value m) = None
  | None => True
  end.

Definition newline : string := String LF EmptyString.

(** The text of the three-line example: a sample, a sample whose value
    is not a number, and a labelled sample. *)
Definition example_text : string :=
  "mactop_cpu_usage_percent 12.5" +:+ newline
  +:+ "mactop_gpu_usage_percent 1.2.3" +:+ newline
  +:+ labelled_line "mactop_power_watts" (label_text "component" "cpu") "7e1"
  +:+ newline.

(** A row of the dataset carries the sample [(t, x)] of [metric]: its
    [timestamp] is a string that parses to [t], and its value of
    [metric] is present and converts to [x]. *)
Definition row_sample (metric : string) (row : gmap string cell)
    (sample : Z * Q) : Prop :=
  ∃ s c, row !! "timestamp" = Some (CStr s)
         ∧ fromisoformat s = Some sample.1
         ∧ row !! metric = Some c
         ∧ nonempty c = true
         ∧ float c = Ok sample.2.

(** The rows after the time stamps are parsed. *)
Definition with_time (row : gmap string cell) (sample : Z * Q)
  : gmap string cell :=
  <["timestamp_obj" := CTime sample.1]> row.

(** The values that the inner loop collects: those of the longest run
    of rows not later than the end of the window. *)
Fixpoint run_until (window_end : Z) (series : list (Z * Q)) : list Q :=
  match series with
  | [] => []
  | (t, x) :: series' =>
      if (window_end <? t)%Z then [] else x :: run_until window_end series'
  end.

(** From the specification: a series of (time stamp, value) pairs in
    chronological order, its total time span, and the window that starts
    at the index [i], made of the values from [i] on whose time stamps
    fall within [[t_i, t_i + duration]]. *)
Definition chronological (series : list (Z * Q)) : Prop :=
  StronglySorted Z.le (series.*1).

Definition time_span (series : list (Z * Q)) : Z :=
  match series.*1 with
  | [] => 0
  | t0 :: ts => List.last ts t0 - t0
  end.

Definition window_of (series : list (Z * Q)) (duration : Z) (i : nat)
  : list Q :=
  match series !! i with
  | Some (ti, _) =>
      (filter (λ s, ti ≤ s.1 ≤ ti + duration)%Z (drop i series)).*2
  | None => []
  end.

(** The outer loop keeps the best start index seen so far, replacing it
    only by a window with a strictly higher average. *)
Definition candidate_step (win : nat → list Q) (acc : Q * nat) (i : nat)
  : Q * nat :=
  match win i with
  | [] => acc
  | _ => if decide (acc.1 < average (win i))%Q then (average (win i), i) else acc
  end.

(** What the running pair (highest average, best start index) satisfies
    once the start indices below [m] are done. *)
Definition best_so_far (win : nat → list Q) (m : nat) (acc : Q * nat) : Prop :=
  (∀ i, (i < m)%nat → win i ≠ [] → (average (win i) <= acc.1)%Q)
  ∧ ((acc.1 = 0%Q ∧ acc.2 = 0%nat)
     ∨ ((acc.2 < m)%nat ∧ win acc.2 ≠ []
        ∧ acc.1 = average (win acc.2) ∧ (0 < acc.1)%Q
        ∧ ∀ i, (i < acc.2)%nat → win i ≠ [] → (average (win i) < acc.1)%Q)).

Definition sample_row (metric : string) (ts : string) (x : Q)
  : gmap string cell :=
  {[ "timestamp" := CStr ts; metric := CFloat x ]}.

Definition noon : Z := 63815947200000000.
Definition minute : Z := 60000000.

Definition example_rows4 : list (gmap string cell) :=
  [ sample_row "cpu" "2023-04-01T12:00:00" 1;
    sample_row "cpu" "2023-04-01T12:10:00" 9;
    sample_row "cpu" "2023-04-01T12:20:00" 3;
    sample_row "cpu" "2023-04-01T12:40:00" 2 ].

Definition example_series4 : list (Z * Q) :=
  [ (noon, 1%Q); (noon + 10 * minute, 9%Q);
    (noon + 20 * minute, 3%Q); (noon + 40 * minute, 2%Q) ]%Z.

(** The claim as the specification words it, for series of at least
    [min_len] samples: every index of the series is a start index. *)
Definition peak_window_as_stated (min_len : nat) : Prop :=
  ∀ (data : list (gmap string cell)) (metric : string) (window_minutes : Z)
    (series : list (Z * Q)),
    Forall2 (row_sample metric) data series →
    metric ≠ "timestamp_obj" →
    chronological series →
    (min_len ≤ length series)%nat →
    ∃ b h, (find_peak_window data metric window_minutes).2 = Ok (b, h)
      ∧ ((time_span series < window_micros window_minutes)%Z →
         b = 0%nat ∧ h = average (series.*2))
      ∧ ((window_micros window_minutes ≤ time_span series)%Z →
         best_so_far (window_of series (window_micros window_minutes))
           (length series) (h, b)).

(** The two [with_columns] steps on one row. *)
Definition derived_row (r : gmap string datum) : gmap string datum :=
  let r1 := <["ram_percent" := percent_of_total "memory_used" r]> r in
  <["swap_pressure_percent" := percent_of_total "memory_swap_used" r1]> r1.

Definition memory_schema : list (string * dtype) :=
  [ ("timestamp", Utf8); ("memory_used", Int64);
    ("memory_total", Int64); ("memory_swap_used", Int64) ].

Definition memory_row (ts : string) (used total swap : Q)
  : gmap string datum :=
  {[ "timestamp" := VStr ts; "memory_used" := VNum used;
     "memory_total" := VNum total; "memory_swap_used" := VNum swap ]}.

Definition memory_frame : DataFrame :=
  {| schema := memory_schema;
     rows := [ memory_row "2023-04-01 12:00:00"
                 8589934592 17179869184 1073741824;
               memory_row "2023-04-01 12:01:00" 8589934592 0 1073741824 ] |}.

(** The claim as the specification words it: the quotient for every row,
    and 0 exactly when the denominator is 0. *)
Definition derived_metrics_as_stated : Prop :=
  ∀ df df' i r r' used total,
    calculate_derived_metrics df = Ok df' →
    rows df !! i = Some r → rows df' !! i = Some r' →
    number r "memory_used" = Some used →
    number r "memory_total" = Some total →
    ∃ y, r' !! "ram_percent" = Some (VNum y)
         ∧ (y == if decide (total == 0)%Q then 0 else used / total * 100)%Q.

(** Every statistic of every record is a number (no null). *)
Definition float_stats (stats : gmap string (gmap string (option Q))) : Prop :=
  map_Forall (λ _ metric_stats, map_Forall (λ _ v, is_Some v) metric_stats)
    stats.

(** The score of one record, from its three fields alone: absent when a
    field is missing. *)
Definition score_of (metric_stats : gmap string (option Q)) : option Q :=
  match metric_stats !! "p75", metric_stats !! "p95",
        metric_stats !! "max" with
  | Some (Some p75), Some (Some p95), Some (Some max_val) =>
      Some (if decide (max_val == 0)%Q then 0%Q
            else ((p95 - p75) / max_val)%Q)
  | _, _, _ => None
  end.

Definition example_stats : gmap string (gmap string (option Q)) :=
  {[ "metric1" := {[ "p75" := Some 75%Q; "p95" := Some 95%Q;
                     "max" := Some 100%Q ]};
     "metric2" := {[ "p75" := Some 50%Q; "p95" := Some 90%Q;
                     "max" := Some 100%Q ]} ]}.

(** A file that cannot be read or parsed. *)
Definition unparsable (scan_csv : string → result DataFrame)
    (file_path : string) : Prop :=
  ∃ e, scan_csv file_path = Raise e.

(** An environment for the examples: the files that exist, a parser of
    the [timestamp] column for the two formats of the loader, and no
    clean-up. *)
Definition example_strptime (fmt : string) (df : DataFrame)
  : result DataFrame :=
  match assoc "timestamp" (schema df) with
  | Some Utf8 =>
      rows' ← mapM (M := result)
        (λ r, match r !! "timestamp" with
              | Some (VStr s) =>
                  let sep := if bool_decide (fmt = "%Y-%m-%d %H:%M:%S")
                             then " "%char else "T"%char in
                  if bool_decide (String.get 10 s = Some sep) then
                    match fromisoformat s with
                    | Some t => Ok (<["timestamp" := VTime t]> r)
                    | None => Raise ComputeError
                    end
                  else Raise ComputeError
              | _ => Ok r
              end) (rows df);
      Ok {| schema := set_dtype "timestamp" Datetime (schema df);
            rows := rows' |}
  | Some _ => Raise SchemaError
  | None => Raise ColumnNotFoundError
  end.

Definition no_aggregate (c : list datum) : option Q := None.

Definition broken_scan (file_path : string) : result DataFrame :=
  Raise ComputeError.

(** The claim as the specification words it: when none of the supplied
    batches can be parsed, the caller of the entry point receives a
    structured error result. *)
Definition no_data_as_stated : Prop :=
  ∀ (scan_csv : string → result DataFrame)
    (strptime : string → DataFrame → result DataFrame)
    (clean_timestamps : DataFrame → result DataFrame)
    (col_min col_max col_mean col_median col_std : list datum → option Q)
    (col_quantile : Q → list datum → option Q)
    (csv_files : list string) (target_metrics : option (list string)),
    Forall (unparsable scan_csv) csv_files →
    ∃ error,
      run_analysis scan_csv strptime clean_timestamps
        col_min col_max col_mean col_median col_std col_quantile
        csv_files target_metrics
      = Ok (AnalysisError error).

Definition example_scan (file_path : string) : result DataFrame :=
  if bool_decide (file_path = "mactop_data_2023-04-01.csv") then
    Ok {| schema := memory_schema;
          rows := [ memory_row "2023-04-01 12:00:00"
                      8589934592 17179869184 1073741824 ]
                  ++ [ memory_row "2023-04-01 12:01:00"
                         9663676416 17179869184 2147483648 ] |}
  else if bool_decide (file_path = "part1.csv") then
    Ok {| schema := memory_schema;
          rows := [ memory_row "2023-04-01 12:00:00"
                      8589934592 17179869184 1073741824 ] |}
  else if bool_decide (file_path = "part2.csv") then
    Ok {| schema := memory_schema;
          rows := [ memory_row "2023-04-01 12:01:00"
                      9663676416 17179869184 2147483648 ] |}
  else Raise ComputeError.

(** The rows that the loop over the time stamps leaves: each row is as
    it was, or has received its parsed time stamp. *)
Definition stamped (row row' : gmap string cell) : Prop :=
  row' = row
  ∨ ∃ s t, row !! "timestamp" = Some (CStr s) ∧ fromisoformat s = Some t
           ∧ row' = <["timestamp_obj" := CTime t]> row.

(** The language of [METRIC_PATTERN], with its groups: a line is a
    non-empty word, an optional non-empty label text without closing
    brace between braces, non-empty white space, a value text, and the
    end of the string, before which one final line feed may stand. *)
Definition pattern_matches (line : string) (m : metric_match) : Prop :=
  ∃ group ws tail,
    line = metric_name m +:+ group +:+ ws +:+ value m +:+ tail
    ∧ metric_name m ≠ EmptyString
    ∧ string_forall is_word (metric_name m) = true
    ∧ match labels m with
      | Some l =>
          group = String "{" (l +:+ String "}" EmptyString)
          ∧ l ≠ EmptyString ∧ string_forall not_rbrace l = true
      | None => group = EmptyString
      end
    ∧ ws ≠ EmptyString
    ∧ string_forall is_space ws = true
    ∧ is_value_text (value m) = true
    ∧ (tail = EmptyString ∨ tail = String LF EmptyString).

(** The frame of the heat map example: three samples on a Monday, two
    of them in the same hour, and one on the Tuesday. *)
Definition heatmap_row (ts : string) (x : Q) : gmap string datum :=
  match fromisoformat ts with
  | Some t => {[ "timestamp" := VTime t; "test_metric" := VNum x ]}
  | None => ∅
  end.

Definition heatmap_frame : DataFrame :=
  {| schema := [ ("timestamp", Datetime); ("test_metric", Int64) ];
     rows := [ heatmap_row "2023-04-03 08:00:00" 10;
               heatmap_row "2023-04-03 08:30:00" 20;
               heatmap_row "2023-04-03 14:00:00" 30;
               heatmap_row "2023-04-04 10:00:00" 40 ] |}.

(** ** The vocabulary of the specification on doubles *)

Section vocabulary64.
Import Binary64.
Import MactopMonitor.

(** A float that is a number: any double but NaN. *)
Definition not_nan (x : double) : Prop := is_nan x = false.

Definition is_number (x : double) : Prop := is_double x ∧ not_nan x.

(** The ascending order of a sorted list of floats. *)
Definition ascending (xs : list double) : Prop :=
  StronglySorted (λ a b, leb a b = true) xs.

(** The double nearest to the mean of the doubles [a] and [b]. *)
Definition nearest_mean (a b : Z) : double := round_units (a + b) 2.

(** The rational number that a finite double stands for. *)
Definition exact_value (x : double) : Q :=
  match x with
  | Finite k => Qmake k (Z.to_pos unit)
  | _ => 0%Q
  end.

(** The sample variance of finite doubles, as a rational number. *)
Definition sample_variance (xs : list double) : Q :=
  let qs := map exact_value xs in
  let n := inject_Z (Z.of_nat (length xs)) in
  let c := (Py.sum qs / n)%Q in
  (Py.sum (map (λ q, (q - c) * (q - c))%Q qs) / (n - 1))%Q.

(** The double nearest to the square root of the rational [n / d]: the
    integer square root is taken with 128 further bits, and when it is
    not the root itself the half of the next odd stands for the root in
    the rounding. *)
Definition round_sqrt (n d : Z) : double :=
  let scaled := (n * 4 ^ 1202)%Z in
  let y := Z.sqrt (scaled / d) in
  if (y * y * d =? scaled)%Z then round_units y (2 ^ 128)
  else round_units (2 * y + 1) (2 ^ 129).

Definition finite_or_overflow (x : double) : result double :=
  match x with
  | Finite _ => Ok x
  | _ => Raise OverflowError
  end.

(** [statistics.variance] and [statistics.stdev] as the library
    computes them from Python 3.11 on: the sample variance of finite
    floats is computed exactly and rounded once, its square root is
    rounded correctly, and a result beyond the doubles is an
    [OverflowError]; of values that are not finite [variance] adds up
    those, and [stdev] fails on the float that results. *)
Definition exact_variance (xs : list double) : result double :=
  if (length xs <? 2)%nat then Raise StatisticsError
  else if forallb is_finite xs then
    finite_or_overflow (round (sample_variance xs))
  else
    Ok (quotient (Binary64.sum (filter (λ x, is_finite x = false) xs))
          (of_Z (Z.of_nat (length xs) - 1))).

Definition exact_stdev (xs : list double) : result double :=
  if (length xs <? 2)%nat then Raise StatisticsError
  else if forallb is_finite xs then
    let v := Qred (sample_variance xs) in
    finite_or_overflow (round_sqrt (Qnum v) (QDen v))
  else Raise AttributeError.

(** Rows that hold the given texts for a metric. *)
Definition text_rows (metric : string) (texts : list string)
  : list (gmap string cell) :=
  map (λ s, {[ metric := CStr s ]}) texts.

(** The float that a numeral denotes. *)
Definition literal (s : string) : double :=
  default NaN (float_of_string s).

(** A call that returns. *)
Definition returns {A} (r : result A) : Prop := ∃ a, r = Ok a.

(** The claim on the percentiles as the specification words it, for a
    library whose calls return: the elements at [floor(n * k)], and for
    an even number of values the mean of the two middle ones as the
    median. *)
Definition percentiles_as_stated : Prop :=
  ∀ (stdev variance : list double → result double)
    (data : list (gmap string cell)) (metric : string)
    (values : list double),
    metric_values data metric = Ok values →
    values ≠ [] →
    returns (stdev (Binary64.sort values)) →
    returns (variance (Binary64.sort values)) →
    let s := Binary64.sort values in
    let n := length values in
    ∃ st, calculate_statistics stdev variance data metric = Ok st
      ∧ s !! nearest_rank n 0.75 = Some (s_p75 st)
      ∧ s !! nearest_rank n 0.95 = Some (s_p95 st)
      ∧ (Nat.odd n = true → s !! (n / 2)%nat = Some (s_median st))
      ∧ (Nat.even n = true →
         ∃ a b, s !! (n / 2 - 1)%nat = Some (Finite a)
                ∧ s !! (n / 2)%nat = Some (Finite b)
                ∧ s_median st = nearest_mean a b).

(** The claim on the order of the record as the specification words
    it, for a library whose calls return. *)
Definition ordering_as_stated : Prop :=
  ∀ (stdev variance : list double → result double)
    (data : list (gmap string cell)) (metric : string)
    (values : list double),
    metric_values data metric = Ok values →
    values ≠ [] →
    Forall is_number values →
    returns (stdev (Binary64.sort values)) →
    returns (variance (Binary64.sort values)) →
    ∃ st, calculate_statistics stdev variance data metric = Ok st
      ∧ leb (s_min st) (s_median st) = true
      ∧ leb (s_median st) (s_p75 st) = true
      ∧ leb (s_p75 st) (s_p95 st) = true
      ∧ leb (s_p95 st) (s_max st) = true.

(** The record of a metric without observations. *)
Definition zero_statistics : statistics :=
  {| s_min := Finite 0; s_max := Finite 0; s_mean := Finite 0;
     s_median := Finite 0; s_p75 := Finite 0; s_p95 := Finite 0;
     s_std_dev := Finite 0; s_variance := Finite 0 |}.

(** A row has no observation of [metric]: the key is absent or its
    value is the empty string. *)
Definition unobserved (metric : string) (row : gmap string cell) : Prop :=
  row !! metric = None ∨ row !! metric = Some (CStr EmptyString).

(** The claim on the empty series as the specification words it, with
    an entry that is missing read as the key absent, the empty string
    of the recorder, or the [None] of the reader. *)
Definition empty_series_as_stated : Prop :=
  ∀ (stdev variance : list double → result double)
    (data : list (gmap string cell)) (metric : string),
    Forall (λ row, unobserved metric row ∨ row !! metric = Some CNone) data →
    calculate_statistics stdev variance data metric = Ok zero_statistics.

(** The same claim for [calculate_statistics] of [analyze.py], on a
    metric that is not a column of the frame. *)
Definition absent_column_as_stated : Prop :=
  ∀ (col_min col_max col_mean col_median col_std : list datum → option Q)
    (col_quantile : Q → list datum → option Q)
    (df : DataFrame) (metric : string),
    has_column df metric = false →
    ∃ record,
      Analyze.calculate_statistics col_min col_max col_mean col_median
        col_std col_quantile df [metric] !! metric = Some record
      ∧ map_Forall (λ _ v, v = Some 0%Q) record.

(** *** The peak window *)

Section peak.
Variable fromisoformat : string → option datetime.

(** A row of the dataset carries the sample [(t, x)] of [metric]: its
    [timestamp] is a string that parses to the time [t], without an
    offset from UTC, and its value of [metric] is present and converts
    to [x]. *)
Definition reading (metric : string) (row : gmap string cell)
    (sample : Z * double) : Prop :=
  ∃ s c, row !! "timestamp" = Some (CStr s)
         ∧ fromisoformat s = Some (Datetime sample.1 None)
         ∧ row !! metric = Some c
         ∧ nonempty c = true
         ∧ float c = Ok sample.2.

(** The parsed time stamp stored in a row. *)
Definition stamp (row : gmap string cell) (t : datetime)
  : gmap string cell :=
  <["timestamp_obj" := CTime t]> row.

(** A row whose time stamp the loop over the rows gets past: the key
    is there, and a text under it parses. *)
Definition readable (row : gmap string cell) : Prop :=
  match row !! "timestamp" with
  | None => False
  | Some (CStr s) => is_Some (fromisoformat s)
  | Some _ => True
  end.

#[global] Instance readable_dec row : Decision (readable row).
Proof. unfold readable. destruct (row !! "timestamp") as [[]|]; apply _. Defined.
End peak.

(** A series of (time, value) pairs in chronological order, its total
    span, and the window that starts at the index [i]: the values from
    [i] on whose times fall within [[t_i, t_i + duration]]. *)
Definition in_order (series : list (Z * double)) : Prop :=
  StronglySorted Z.le (series.*1).

Definition span_of (series : list (Z * double)) : Z :=
  match series.*1 with
  | [] => 0
  | t0 :: ts => List.last ts t0 - t0
  end.

Definition window_at (series : list (Z * double)) (duration : Z) (i : nat)
  : list double :=
  match series !! i with
  | Some (ti, _) =>
      (filter (λ s, ti ≤ s.1 ≤ ti + duration)%Z (drop i series)).*2
  | None => []
  end.

(** The mean of a non-empty list as the code computes it: the sum from
    the left, divided by the length. *)
Definition mean_of (xs : list double) : double :=
  quotient (Binary64.sum xs) (of_Z (Z.of_nat (length xs))).

(** The duration of a window in microseconds. *)
Definition duration_of (window_minutes : Z) : Z :=
  (window_minutes * 60 * 1000000)%Z.

(** A window to which the code can compare the span of the data, and
    times to which it can be added: the window is shorter than [2^33]
    seconds, and the times and the ends of their windows are of the
    years 1 to 9999. *)
Definition window_fits (window_minutes : Z) (series : list (Z * double))
  : Prop :=
  (- 2 ^ 33 < window_minutes * 60 < 2 ^ 33)%Z
  ∧ Forall (λ s, 0 ≤ s.1 + duration_of window_minutes ≤ max_micros)%Z series.

(** What the running pair (highest average, best start index) is once
    the start indices below [m] are done: no window has a higher
    average; and either it is still the initial pair, or the index is
    that of a window with this average, which is above 0, and which no
    earlier window reaches. *)
Definition best_start (win : nat → list double) (m : nat)
    (acc : double * nat) : Prop :=
  (∀ i, (i < m)%nat → win i ≠ [] → ltb acc.1 (mean_of (win i)) = false)
  ∧ (acc = (Finite 0, 0%nat)
     ∨ ((acc.2 < m)%nat ∧ win acc.2 ≠ []
        ∧ acc.1 = mean_of (win acc.2) ∧ ltb (Finite 0) acc.1 = true
        ∧ ∀ i, (i < acc.2)%nat → win i ≠ [] →
               leb acc.1 (mean_of (win i)) = false)).

(** The claim on the peak window as the specification words it, for
    series of at least [min_len] samples: every index of the series is
    a start index. *)
Definition peak_as_stated (min_len : nat) : Prop :=
  ∀ (fromisoformat : string → option datetime)
    (data : list (gmap string cell)) (metric : string) (window_minutes : Z)
    (series : list (Z * double)),
    Forall2 (reading fromisoformat metric) data series →
    metric ≠ "timestamp_obj" →
    in_order series →
    window_fits window_minutes series →
    (min_len ≤ length series)%nat →
    ∃ b h,
      (find_peak_window fromisoformat data metric window_minutes).2
      = Ok (b, h)
      ∧ ((span_of series < duration_of window_minutes)%Z →
         b = 0%nat ∧ h = mean_of (series.*2))
      ∧ ((duration_of window_minutes ≤ span_of series)%Z →
         best_start (window_at series (duration_of window_minutes))
           (length series) (h, b)).

(** Time stamps without an offset from UTC,
    [YYYY-MM-DD[*HH[:MM[:SS[.fff[fff]]]]]], which every version of the
    interpreter reads, and reads alike. *)
Definition naive_fromisoformat (s : string) : option datetime :=
  t ← Py.fromisoformat s; Some (Datetime t None).

Definition reading_row (metric ts v : string) : gmap string cell :=
  {[ "timestamp" := CStr ts; metric := CFloat (literal v) ]}.

Definition readings4 : list (gmap string cell) :=
  [ reading_row "cpu" "2023-04-01T12:00:00" "1";
    reading_row "cpu" "2023-04-01T12:10:00" "9";
    reading_row "cpu" "2023-04-01T12:20:00" "3";
    reading_row "cpu" "2023-04-01T12:40:00" "2" ].

Definition series4 : list (Z * double) :=
  [ (noon, literal "1"); (noon + 10 * minute, literal "9");
    (noon + 20 * minute, literal "3"); (noon + 40 * minute, literal "2") ]%Z.

(** Six samples of the value 0.1, whose means over two and over three
    values differ in the last place. *)
Definition readings6 : list (gmap string cell) :=
  [ reading_row "cpu" "2023-04-01T12:00:00" "0.1";
    reading_row "cpu" "2023-04-01T12:10:00" "0.1";
    reading_row "cpu" "2023-04-01T12:20:00" "0.1";
    reading_row "cpu" "2023-04-01T12:25:00" "0.1";
    reading_row "cpu" "2023-04-01T12:30:00" "0.1";
    reading_row "cpu" "2023-04-01T12:50:00" "0.1" ].
End vocabulary64.
(** ** Further example data *)

(** A data directory with the files of three days, a file whose name
    only starts like a daily file, and a file of another kind. *)
Definition example_glob (pattern : string) : list string :=
  if bool_decide (pattern = "*.csv") then
    [ "mactop_data_2023-04-01.csv"; "mactop_data_2023-04-02.csv";
      "other_file.csv"; "mactop_data_2023-04-03.csv";
      "mactop_data_2023-02-30.csv"; "mactop_data_2023-04-02.csv.old.csv" ]
  else if bool_decide (pattern = "mactop_data_2023-04-02.csv") then
    [ "mactop_data_2023-04-02.csv" ]
  else [].

(** Whether a file can be read. *)
Definition loadable (scan_csv : string → result DataFrame) (path : string)
  : bool :=
  match scan_csv path with
  | Ok _ => true
  | Raise _ => false
  end.

(** The frame that the derived-metric calculation returns for the
    memory example. *)
Definition derived_frame : DataFrame :=
  {| schema := memory_schema
               ++ [ ("ram_percent", Float64);
                    ("swap_pressure_percent", Float64) ];
     rows := map derived_row (rows memory_frame) |}.

(** The numbers that the rows of a bucket hold for a metric, in the
    order of the rows. *)
Definition bucket_values (df : DataFrame) (metric : string)
    (k : option Z * option Z) : list Q :=
  omap (λ r, number r metric) (filter (λ r, bucket_of r = k) (rows df)).

(** A statistics record on which the sufficiency score cannot be
    computed: it has the three fields, and its [max] is null, or its
    [max] is a number other than 0 and [p75] or [p95] is null. *)
Definition null_gap (metric_stats : gmap string (option Q)) : Prop :=
  ∃ p75 p95 max_val,
    metric_stats !! "p75" = Some p75
    ∧ metric_stats !! "p95" = Some p95
    ∧ metric_stats !! "max" = Some max_val
    ∧ (max_val = None
       ∨ ∃ m, max_val = Some m ∧ ¬ (m == 0)%Q
              ∧ (p75 = None ∨ p95 = None)).

(** The statistics of a column without any value. *)
Definition null_stats : gmap string (gmap string (option Q)) :=
  {[ "cpu_usage_percent" :=
       {[ "min" := None; "max" := None; "mean" := None; "median" := None;
          "p50" := None; "p75" := None; "p95" := None; "std" := None ]} ]}.

(** Aggregations for the examples: every statistic of every column
    is 1. *)
Definition unit_aggregate (c : list datum) : option Q := Some 1%Q.

(** The analysis of the example file of 2023-04-01, for the primary
    metrics. *)
Definition example_run : result analysis :=
  run_analysis example_scan example_strptime Ok
    unit_aggregate unit_aggregate unit_aggregate unit_aggregate
    unit_aggregate (λ _, unit_aggregate)
    [ "mactop_data_2023-04-01.csv" ] None.

(** The parts of its result. *)
Definition example_statistics : gmap string (gmap string (option Q)) :=
  Eval vm_compute in
    match example_run with
    | Ok (AnalysisResults st _ _ _ _) => st
    | _ => ∅
    end.
Definition example_heatmaps
  : gmap string (gmap (option Z * option Z) (option Q)) :=
  Eval vm_compute in
    match example_run with
    | Ok (AnalysisResults _ hm _ _ _) => hm
    | _ => ∅
    end.
Definition example_sufficiency : gmap string Q :=
  Eval vm_compute in
    match example_run with
    | Ok (AnalysisResults _ _ suf _ _) => suf
    | _ => ∅
    end.
Definition example_summary : summary :=
  Eval vm_compute in
    match example_run with
    | Ok (AnalysisResults _ _ _ _ summ) => summ
    | _ => {| total_records := 0; date_range := (None, None);
              summary_metrics := [] |}
    end.


(** A sample of the recorder in which only the processor load was
    reported. *)
Definition cpu_only_metrics : gmap string cell :=
  {[ "timestamp" := CStr "2023-04-01T12:00:00";
     "cpu_usage_percent" := CFloat 12.5 ]}.

(** A row of the file holds, for a metric, a text that is neither
    empty nor a number. *)
Definition garbage (metric : string) (row : gmap string string) : Prop :=
  ∃ s, row !! metric = Some s ∧ s ≠ EmptyString ∧ float_of_string s = None.

(** The numbers that the rows of the file hold for a metric. *)
Definition numbers_of (metric : string) (reader : list (gmap string string))
  : list Q :=
  omap (λ row, row !! metric ≫= float_of_string) reader.

(** Two rows of a file, the second with a damaged value. *)
Definition damaged_reader : list (gmap string string) :=
  [ {[ "timestamp" := "2023-04-01T12:00:00"; "cpu_usage_percent" := "12.5" ]};
    {[ "timestamp" := "2023-04-01T12:00:01"; "cpu_usage_percent" := "1.2.3" ]} ].

Definition clean_reader : list (gmap string string) :=
  [ {[ "timestamp" := "2023-04-01T12:00:00"; "cpu_usage_percent" := "12.5" ]};
    {[ "timestamp" := "2023-04-01T12:00:01"; "cpu_usage_percent" := EmptyString ]};
    {[ "timestamp" := "2023-04-01T12:00:02"; "cpu_usage_percent" := "7.5" ]} ].

(** A row whose time stamp is missing or is a text that is no ISO
    time stamp. *)
Definition bad_timestamp (row : gmap string cell) : Prop :=
  row !! "timestamp" = None
  ∨ ∃ s, row !! "timestamp" = Some (CStr s) ∧ fromisoformat s = None.

(** The example rows with the time stamp of the third one damaged. *)
Definition damaged_rows4 : list (gmap string cell) :=
  [ sample_row "cpu" "2023-04-01T12:00:00" 1;
    sample_row "cpu" "2023-04-01T12:10:00" 9;
    sample_row "cpu" "2023-04-01 12.20" 3;
    sample_row "cpu" "2023-04-01T12:40:00" 2 ].

(** Four samples of the total power, ten and twenty minutes apart. *)
Definition power_rows4 : list (gmap string cell) :=
  [ sample_row "power_total" "2023-04-01T12:00:00" 1;
    sample_row "power_total" "2023-04-01T12:10:00" 9;
    sample_row "power_total" "2023-04-01T12:20:00" 3;
    sample_row "power_total" "2023-04-01T12:40:00" 2 ].

(** A row whose memory counters are numbers, the used memory between
    0 and the total. *)
Definition memory_counters (item : gmap string cell) : Prop :=
  ∃ total used,
    item !! "memory_total" = Some (CFloat total)
    ∧ item !! "memory_used" = Some (CFloat used)
    ∧ (0 <= used)%Q ∧ (used <= total)%Q.

Definition memory_rows2 : list (gmap string cell) :=
  [ {[ "timestamp" := CStr "2023-04-01T12:00:00";
       "memory_total" := CFloat 16; "memory_used" := CFloat 8 ]};
    {[ "timestamp" := CStr "2023-04-01T12:00:01";
       "memory_total" := CFloat 0; "memory_used" := CFloat 0 ]} ].

(** A line [name v], without labels. *)
Definition unlabelled_line (name v : string) : string :=
  name +:+ String " " v.

(** The key under which the parser stores a sample without labels: the
    three known metrics lose their prefix, any other name is kept. *)
Definition recorded_name (name : string) : string :=
  if bool_decide (name = "mactop_cpu_usage_percent") then "cpu_usage_percent"
  else if bool_decide (name = "mactop_gpu_freq_mhz") then "gpu_freq_mhz"
  else if bool_decide (name = "mactop_gpu_usage_percent")
  then "gpu_usage_percent"
  else name.

(** The seven fields that the labelled samples can set. *)
Definition label_fields : list string :=
  [ "memory_swap_total"; "memory_swap_used"; "memory_total"; "memory_used";
    "power_cpu"; "power_gpu"; "power_total" ].

(** A line is a sample without labels of the metric [name]. *)
Definition unlabelled_sample (line name : string) : Prop :=
  ∃ m, METRIC_PATTERN_match (strip line) = Some m
       ∧ (labels m = None ∨ labels m = Some EmptyString)
       ∧ metric_name m = name.

(** A response of the endpoint: the processor load and the used
    memory, under the names that the endpoint gives them. *)
Definition example_response : string :=
  "mactop_cpu_usage_percent 12.5" +:+ newline
  +:+ labelled_line "mactop_memory_gb" (label_text "type" "used") "8".


(** ** The embedding on concrete inputs *)

Example float_of_string_examples :
  map float_of_string
    [ "8589934592"; "12.5"; "-2.5e2"; "1e-2"; "1."; ".5";
      "."; "1.2.3"; "e5"; "1e" ]
  = [ Some 8589934592%Q; Some 12.5%Q; Some (-250)%Q; Some 0.01%Q;
      Some 1%Q; Some 0.5%Q; None; None; None; None ].
Proof. vm_compute. reflexivity. Qed.

Example fromisoformat_examples :
  map fromisoformat
    [ "1970-01-01"; "2023-04-01T12:00:00"; "2023-04-01 12:00:00.250";
      "2023-02-29"; "2023-04-01T25:00:00" ]
  = [ Some 62135596800000000%Z; Some 63815947200000000%Z;
      Some 63815947200250000%Z; None; None ].
Proof. vm_compute. reflexivity. Qed.

Example splitlines_example :
  splitlines ("a" +:+ newline +:+ newline +:+ "b" +:+ String CR newline
              +:+ "c" +:+ newline)
  = [ "a"; EmptyString; "b"; "c" ].
Proof. vm_compute. reflexivity. Qed.

Example text_examples :
  strip "  a b  " = "a b"
  ∧ split "," "a,b,,c" = [ "a"; "b"; EmptyString; "c" ]
  ∧ split1 "=" "k=v=w" = [ "k"; "v=w" ].
Proof. vm_compute. done. Qed.

Example calculate_statistics_example :
  ∃ st, calculate_statistics (example_rows "cpu" [30; 10; 50; 20; 40]%Q) "cpu"
        = Ok st
    ∧ s_min st = 10%Q ∧ s_max st = 50%Q ∧ (s_mean st == 30)%Q
    ∧ s_median st = 30%Q ∧ s_p75 st = 40%Q ∧ s_p95 st = 50%Q
    ∧ (s_variance st == 250)%Q.
Proof. eexists. split; [vm_compute; reflexivity|]. by vm_compute. Qed.

Example find_peak_window_example :
  (find_peak_window example_rows4 "cpu" 15).2 = Ok (1%nat, (12 # 2)%Q).
Proof. vm_compute. reflexivity. Qed.

Example prepare_heatmap_data_example :
  ∃ heatmap, prepare_heatmap_data heatmap_frame "test_metric" = Ok heatmap
    ∧ heatmap !! (Some 1, Some 8)%Z = Some (Some (30 # 2)%Q)
    ∧ heatmap !! (Some 1, Some 14)%Z = Some (Some 30%Q)
    ∧ heatmap !! (Some 2, Some 10)%Z = Some (Some 40%Q)
    ∧ size heatmap = 3%nat.
Proof. eexists. split; [vm_compute; reflexivity|]. by vm_compute. Qed.

(** ** Facts about the builtins *)

#[global] Instance Qle_total : Total Qle.
Proof.
  intros x y. destruct (Qlt_le_dec x y) as [Hlt|Hle].
  - left. by apply Qlt_le_weak.
  - by right.
Qed.

#[global] Instance Qle_transitive : Transitive Qle.
Proof. intros x y z. apply Qle_trans. Qed.

Lemma sort_sorted xs : StronglySorted Qle (sort xs).
Proof. apply StronglySorted_merge_sort; apply _. Qed.

Lemma sort_perm xs : sort xs ≡ₚ xs.
Proof. apply merge_sort_Permutation. Qed.

Lemma sort_length xs : length (sort xs) = length xs.
Proof. by rewrite sort_perm. Qed.

(** In a sorted list, elements at increasing positions increase. *)
Lemma sorted_lookup_le (l : list Q) i j a b :
  StronglySorted Qle l → (i ≤ j)%nat →
  l !! i = Some a → l !! j = Some b → (a <= b)%Q.
Proof.
  intros Hs. revert i j. induction Hs as [|x l Hs IH Hall]; intros i j Hij Hi Hj.
  - by rewrite lookup_nil in Hi.
  - destruct i as [|i], j as [|j]; simpl in *.
    + simplify_eq. apply Qle_refl.
    + simplify_eq. rewrite Forall_forall in Hall.
      apply Hall. by eapply list_elem_of_lookup_2.
    + lia.
    + eapply IH; [|done..]. lia.
Qed.

Lemma index_lookup {A} (xs : list A) (i : Z) x :
  (0 ≤ i)%Z → xs !! Z.to_nat i = Some x → index xs i = Ok x.
Proof.
  intros Hi Hx. unfold index.
  destruct (Z.ltb_spec i 0) as [|_]; [lia|].
  destruct (Z.ltb_spec i 0) as [|_]; [lia|].
  by rewrite Hx.
Qed.

Lemma index_in_range {A} (xs : list A) (i : Z) :
  (0 ≤ i < Z.of_nat (length xs))%Z →
  ∃ x, xs !! Z.to_nat i = Some x ∧ index xs i = Ok x.
Proof.
  intros [Hi Hlt].
  destruct (lookup_lt_is_Some_2 xs (Z.to_nat i)) as [x Hx]; [lia|].
  exists x. split; [done|]. by apply index_lookup.
Qed.

(** [min] returns a lower bound that occurs in the list, [max] an upper
    bound that occurs in the list. *)
Lemma fold_min_spec (xs : list Q) (x0 : Q) :
  let m := fold_left (λ m y, if decide (y < m)%Q then y else m) xs x0 in
  (m <= x0)%Q ∧ (∀ y, y ∈ xs → (m <= y)%Q) ∧ (m = x0 ∨ m ∈ xs).
Proof.
  revert x0. induction xs as [|y xs IH]; intros x0; simpl.
  - split; [apply Qle_refl|]. split; [|by left]. intros y Hy. by apply elem_of_nil in Hy.
  - destruct (IH (if decide (y < x0)%Q then y else x0)) as (H1 & H2 & H3).
    case_decide as Hlt.
    + split; [eapply Qle_trans; [exact H1|by apply Qlt_le_weak]|].
      split.
      * intros z [->|Hz]%elem_of_cons; [done|]. by apply H2.
      * right. destruct H3 as [->|H3]; [left|by right].
    + apply Qnot_lt_le in Hlt. split; [done|]. split.
      * intros z [->|Hz]%elem_of_cons; [by eapply Qle_trans|]. by apply H2.
      * destruct H3 as [->|H3]; [by left|]. right. by right.
Qed.

Lemma fold_max_spec (xs : list Q) (x0 : Q) :
  let m := fold_left (λ m y, if decide (m < y)%Q then y else m) xs x0 in
  (x0 <= m)%Q ∧ (∀ y, y ∈ xs → (y <= m)%Q) ∧ (m = x0 ∨ m ∈ xs).
Proof.
  revert x0. induction xs as [|y xs IH]; intros x0; simpl.
  - split; [apply Qle_refl|]. split; [|by left]. intros y Hy. by apply elem_of_nil in Hy.
  - destruct (IH (if decide (x0 < y)%Q then y else x0)) as (H1 & H2 & H3).
    case_decide as Hlt.
    + split; [eapply Qle_trans; [by apply Qlt_le_weak|exact H1]|].
      split.
      * intros z [->|Hz]%elem_of_cons; [done|]. by apply H2.
      * right. destruct H3 as [->|H3]; [left|by right].
    + apply Qnot_lt_le in Hlt. split; [done|]. split.
      * intros z [->|Hz]%elem_of_cons; [by eapply Qle_trans|]. by apply H2.
      * destruct H3 as [->|H3]; [by left|]. right. by right.
Qed.

Lemma min_spec xs :
  xs ≠ [] →
  ∃ m, min xs = Ok m ∧ m ∈ xs ∧ ∀ y, y ∈ xs → (m <= y)%Q.
Proof.
  destruct xs as [|x xs]; [done|]. intros _.
  destruct (fold_min_spec xs x) as (H1 & H2 & H3).
  eexists. split; [reflexivity|]. split.
  - destruct H3 as [->|H3]; [left|by right].
  - intros y [->|Hy]%elem_of_cons; [done|]. by apply H2.
Qed.

Lemma max_spec xs :
  xs ≠ [] →
  ∃ m, max xs = Ok m ∧ m ∈ xs ∧ ∀ y, y ∈ xs → (y <= m)%Q.
Proof.
  destruct xs as [|x xs]; [done|]. intros _.
  destruct (fold_max_spec xs x) as (H1 & H2 & H3).
  eexists. split; [reflexivity|]. split.
  - destruct H3 as [->|H3]; [left|by right].
  - intros y [->|Hy]%elem_of_cons; [done|]. by apply H2.
Qed.

(** In double precision, where 0.75 is exact and 0.95 is the double
    [0x1.e666666666666p-1], the products [n * 0.75] and [n * 0.95] have
    the integer parts [n * 3 / 4] and [n * 19 / 20] for the lengths up to
    4096: the exact product of the model selects the same element. *)
Lemma double_rank_agrees_4096 :
  forallb (λ n, double_rank_agrees 3 4 0x1.8p-1%float (Z.of_nat n)
                && double_rank_agrees 19 20 0x1.e666666666666p-1%float
                     (Z.of_nat n))
    (seq 1 4096) = true.
Proof. vm_compute. reflexivity. Qed.

(** The two percentile positions, [int(n * 0.75)] and [int(n * 0.95)]. *)
Lemma int_rank75 (n : Z) : (0 ≤ n)%Z → int (inject_Z n * 0.75) = (n * 75 / 100)%Z.
Proof.
  intros Hn. unfold int. case_decide as H.
  - unfold Qfloor. simpl. f_equal; lia.
  - exfalso. apply H. unfold Qle. simpl. lia.
Qed.

Lemma int_rank95 (n : Z) : (0 ≤ n)%Z → int (inject_Z n * 0.95) = (n * 95 / 100)%Z.
Proof.
  intros Hn. unfold int. case_decide as H.
  - unfold Qfloor. simpl. f_equal; lia.
  - exfalso. apply H. unfold Qle. simpl. lia.
Qed.

(** ** The statistics engine ([calculate_statistics]) *)

Lemma nearest_rank75 n : nearest_rank n 0.75 = Z.to_nat (Z.of_nat n * 75 / 100).
Proof. reflexivity. Qed.

Lemma nearest_rank95 n : nearest_rank n 0.95 = Z.to_nat (Z.of_nat n * 95 / 100).
Proof. reflexivity. Qed.

(** What [statistics_of_values] computes on a non-empty list, in terms of
    positions in the sorted list.  No list access is out of range. *)
Lemma statistics_of_values_nonempty (values : list Q) :
  values ≠ [] →
  let s := sort values in
  let n := length values in
  ∃ st, statistics_of_values values = Ok st
    ∧ min s = Ok (s_min st)
    ∧ max s = Ok (s_max st)
    ∧ s !! nearest_rank n 0.75 = Some (s_p75 st)
    ∧ s !! nearest_rank n 0.95 = Some (s_p95 st)
    ∧ (Nat.odd n = true → s !! (n / 2)%nat = Some (s_median st))
    ∧ (Nat.even n = true →
       ∃ a b, s !! (n / 2 - 1)%nat = Some a ∧ s !! (n / 2)%nat = Some b
              ∧ s_median st = ((a + b) / 2)%Q).
Proof.
  intros Hne s n.
  assert (Hlen : length s = n) by apply sort_length.
  assert (Hn : (1 ≤ n)%nat).
  { destruct values; [done|]. subst n. simpl. lia. }
  assert (Hs : s ≠ []).
  { intros E. rewrite E in Hlen. simpl in Hlen. lia. }
  destruct (min_spec s Hs) as (mn & Hmn & _).
  destruct (max_spec s Hs) as (mx & Hmx & _).
  set (nz := Z.of_nat (length s)).
  assert (Hnz : nz = Z.of_nat n) by (subst nz; by rewrite Hlen).
  destruct (index_in_range s (nz * 75 / 100)) as (q75 & Hq75 & Hi75).
  { subst nz. Z.div_mod_to_equations. lia. }
  destruct (index_in_range s (nz * 95 / 100)) as (q95 & Hq95 & Hi95).
  { subst nz. Z.div_mod_to_equations. lia. }
  destruct (index_in_range s (nz / 2)) as (hi & Hhi & Hihi).
  { subst nz. Z.div_mod_to_equations. lia. }
  assert (Hhalf : Z.to_nat (nz / 2) = (n / 2)%nat).
  { rewrite Hnz. rewrite <- (Nat2Z.id (n / 2)). f_equal.
    by rewrite Nat2Z.inj_div. }
  assert (Hmed : ∃ med,
    (if (nz mod 2 =? 1)%Z then index s (nz / 2)
     else a ← index s (nz / 2 - 1); b ← index s (nz / 2);
          mret ((a + b) / 2)%Q) = Ok med
    ∧ (Nat.odd n = true → s !! (n / 2)%nat = Some med)
    ∧ (Nat.even n = true →
       ∃ a b, s !! (n / 2 - 1)%nat = Some a ∧ s !! (n / 2)%nat = Some b
              ∧ med = ((a + b) / 2)%Q)).
  { destruct (Z.eqb_spec (nz mod 2) 1) as [Hodd|Heven].
    - exists hi. split; [done|]. split.
      + intros _. by rewrite <- Hhalf.
      + intros Hev. apply Nat.even_spec in Hev. destruct Hev as [k Hk].
        exfalso. rewrite Hnz, Hk in Hodd.
        rewrite Nat2Z.inj_mul in Hodd. simpl in Hodd.
        rewrite Z.mul_comm, Z.mod_mul in Hodd; lia.
    - assert (Hmod : (nz mod 2 = 0)%Z).
      { pose proof (Z.mod_pos_bound nz 2). lia. }
      destruct (index_in_range s (nz / 2 - 1)) as (lo & Hlo & Hilo).
      { subst nz. Z.div_mod_to_equations. lia. }
      exists ((lo + hi) / 2)%Q. split.
      { rewrite Hilo, Hihi. reflexivity. }
      split.
      + intros Hodd. apply Nat.odd_spec in Hodd. destruct Hodd as [k Hk].
        exfalso. rewrite Hnz, Hk in Hmod.
        replace (Z.of_nat (2 * k + 1)) with (1 + Z.of_nat k * 2)%Z in Hmod by lia.
        rewrite Z.mod_add in Hmod; [|lia]. done.
      + intros _. exists lo, hi. split; [|split; [by rewrite <- Hhalf|done]].
        replace (n / 2 - 1)%nat with (Z.to_nat (nz / 2 - 1)); [done|].
        rewrite <- Hhalf. lia. }
  destruct Hmed as (med & Hmedeq & Hodd & Heven).
  assert (Hsd : ∃ sd, (if (1 <? nz)%Z then stdev s else Ok (Rational 0)) = Ok sd).
  { destruct (Z.ltb_spec 1 nz) as [H1|H1]; [|by eexists].
    unfold stdev, variance. fold nz.
    destruct (Z.ltb_spec nz 2) as [|_]; [lia|]. by eexists. }
  destruct Hsd as (sd & Hsd).
  assert (Hvar : ∃ v, (if (1 <? nz)%Z then variance s else Ok 0%Q) = Ok v).
  { destruct (Z.ltb_spec 1 nz) as [H1|H1]; [|by eexists].
    unfold variance. fold nz.
    destruct (Z.ltb_spec nz 2) as [|_]; [lia|]. by eexists. }
  destruct Hvar as (var & Hvar).
  eexists {| s_min := mn; s_max := mx; s_median := med;
             s_p75 := q75; s_p95 := q95; s_std_dev := sd; s_variance := var |}.
  simpl. split.
  - unfold statistics_of_values. destruct values as [|v values']; [done|].
    fold s. fold nz. rewrite Hmn, Hmx. simpl. rewrite Hmedeq. simpl.
    rewrite int_rank75, int_rank95 by lia.
    rewrite Hi75, Hi95. simpl. rewrite Hsd. simpl. rewrite Hvar. simpl.
    reflexivity.
  - rewrite nearest_rank75, nearest_rank95, <- Hnz. done.
Qed.

Lemma nearest_rank_order (n : nat) :
  (1 ≤ n)%nat →
  (n / 2 ≤ nearest_rank n 0.75)%nat
  ∧ (nearest_rank n 0.75 ≤ nearest_rank n 0.95)%nat
  ∧ (nearest_rank n 0.95 < n)%nat.
Proof.
  intros Hn. rewrite nearest_rank75, nearest_rank95.
  assert (Z.of_nat (n / 2) = Z.of_nat n / 2)%Z as Hhalf by apply Nat2Z.inj_div.
  repeat split.
  - apply Nat2Z.inj_le. rewrite Z2Nat.id, Hhalf.
    + Z.div_mod_to_equations. lia.
    + apply Z.div_pos; lia.
  - apply Z2Nat.inj_le; [apply Z.div_pos; lia..|].
    Z.div_mod_to_equations. lia.
  - apply Nat2Z.inj_lt. rewrite Z2Nat.id.
    + Z.div_mod_to_equations. lia.
    + apply Z.div_pos; lia.
Qed.





Lemma metric_values_missing data metric :
  Forall (missing metric) data → metric_values data metric = Ok [].
Proof.
  induction 1 as [|row data [Hrow|Hrow] _ IH]; simpl; [done|..].
  - by rewrite Hrow.
  - by rewrite Hrow.
Qed.



(** ** The exposition-format parser ([parse_metrics]) *)

Lemma span_forall p a : string_forall p a = true → span p a = (a, EmptyString).
Proof.
  induction a as [|c a IH]; simpl; [done|].
  intros [Hc Ha]%andb_true_iff. by rewrite Hc, IH.
Qed.

Lemma span_app_stop p a c b :
  string_forall p a = true → p c = false →
  span p (a +:+ String c b) = (a, String c b).
Proof.
  intros Ha Hc. induction a as [|d a IH]; simpl.
  - by rewrite Hc.
  - simpl in Ha. apply andb_true_iff in Ha as [Hd Ha]. by rewrite Hd, IH.
Qed.

Lemma rstrip_with_clean p s :
  string_forall (λ c, negb (p c)) s = true → rstrip_with p s = s.
Proof.
  induction s as [|c s IH]; simpl; [done|].
  intros [Hc Hs]%andb_true_iff. rewrite IH by done.
  destruct s; [|done]. by apply negb_true_iff in Hc as ->.
Qed.

Lemma rstrip_with_app p a b :
  rstrip_with p b ≠ EmptyString →
  rstrip_with p (a +:+ b) = a +:+ rstrip_with p b.
Proof.
  intros Hb. induction a as [|c a IH]; simpl; [done|].
  rewrite IH. destruct a; simpl; by destruct (rstrip_with p b).
Qed.

Lemma split1_contains c s :
  contains c s = true → ∃ a b, split1 c s = [a; b].
Proof.
  induction s as [|d s IH]; simpl; [done|].
  case_bool_decide as Hd; simpl.
  - intros _. by eexists _, _.
  - intros Hs. destruct (IH Hs) as (a & b & ->). by eexists _, _.
Qed.

Lemma value_char_not_space c : is_value_char c = true → is_space c = false.
Proof. by destruct c as [[] [] [] [] [] [] [] []]. Qed.

Lemma value_char_not_sign c :
  is_value_char c = true →
  bool_decide (c = "-"%char) || bool_decide (c = "+"%char) = false.
Proof. by destruct c as [[] [] [] [] [] [] [] []]. Qed.

Lemma sign_not_space c :
  bool_decide (c = "-"%char) || bool_decide (c = "+"%char) = true →
  is_space c = false.
Proof. by destruct c as [[] [] [] [] [] [] [] []]. Qed.

Lemma value_chars_not_space b :
  string_forall is_value_char b = true →
  string_forall (λ c, negb (is_space c)) b = true.
Proof.
  induction b as [|c b IH]; simpl; [done|].
  intros [Hc Hb]%andb_true_iff.
  by rewrite (value_char_not_space c Hc), IH.
Qed.

Lemma match_value_text v : is_value_text v = true → match_value v = Some v.
Proof.
  unfold is_value_text, match_value. destruct v as [|c b]; [done|].
  destruct (bool_decide (c = "-"%char) || bool_decide (c = "+"%char)) eqn:Hsign.
  - intros [Hne Hb]%andb_true_iff. rewrite (span_forall _ _ Hb).
    apply negb_true_iff in Hne. by rewrite Hne.
  - intros Hv. by rewrite (span_forall _ _ Hv).
Qed.

Lemma value_text_head v :
  is_value_text v = true →
  ∃ c b, v = String c b ∧ is_space c = false.
Proof.
  unfold is_value_text. destruct v as [|c b]; [done|].
  intros Hv. exists c, b. split; [done|].
  destruct (bool_decide (c = "-"%char) || bool_decide (c = "+"%char)) eqn:Hsign.
  - by apply sign_not_space.
  - simpl in Hv. apply andb_true_iff in Hv as [Hc _].
    by apply value_char_not_space.
Qed.

Lemma value_text_rstrip v :
  is_value_text v = true → rstrip_with is_space v = v ∧ v ≠ EmptyString.
Proof.
  intros Hv. split; [|by destruct v].
  apply rstrip_with_clean.
  unfold is_value_text in Hv. destruct v as [|c b]; [done|].
  destruct (bool_decide (c = "-"%char) || bool_decide (c = "+"%char)) eqn:Hsign.
  - apply andb_true_iff in Hv as [_ Hb]. simpl.
    by rewrite (sign_not_space c Hsign), (value_chars_not_space b Hb).
  - by apply value_chars_not_space.
Qed.

Lemma string_app_cons (x : ascii) (a b : string) :
  String x a +:+ b = String x (a +:+ b).
Proof. reflexivity. Qed.

Lemma string_app_assoc (a b c : string) : (a +:+ b) +:+ c = a +:+ (b +:+ c).
Proof.
  induction a as [|x a IH]; [done|].
  rewrite !string_app_cons. by f_equal.
Qed.

Lemma rstrip_with_app_value a v :
  is_value_text v = true → rstrip_with is_space (a +:+ v) = a +:+ v.
Proof.
  intros Hv. destruct (value_text_rstrip v Hv) as [Hr Hne].
  rewrite rstrip_with_app; rewrite Hr; done.
Qed.

Lemma word_not_space c : is_word c = true → is_space c = false.
Proof. by destruct c as [[] [] [] [] [] [] [] []]. Qed.

Lemma strip_labelled_line name labs v :
  name ≠ EmptyString → string_forall is_word name = true →
  is_value_text v = true →
  strip (labelled_line name labs v) = labelled_line name labs v.
Proof.
  intros Hne Hname Hv. unfold strip, strip_with.
  assert (drop_while is_space (labelled_line name labs v)
          = labelled_line name labs v) as ->.
  { unfold labelled_line. destruct name as [|c name]; [done|]. simpl.
    simpl in Hname. apply andb_true_iff in Hname as [Hc _].
    by rewrite (word_not_space c Hc). }
  unfold labelled_line.
  replace (name +:+ String "{" (labs +:+ String "}" (String " " v)))
    with ((name +:+ String "{" (labs +:+ String "}" (String " " EmptyString))) +:+ v).
  - by apply rstrip_with_app_value.
  - rewrite string_app_assoc. f_equal. rewrite string_app_cons. f_equal.
    by rewrite string_app_assoc.
Qed.

Lemma match_labelled_line name labs v :
  name ≠ EmptyString → string_forall is_word name = true →
  labs ≠ EmptyString → string_forall not_rbrace labs = true →
  is_value_text v = true →
  METRIC_PATTERN_match (labelled_line name labs v)
  = Some {| metric_name := name; labels := Some labs; value := v |}.
Proof.
  intros Hne Hname Hlne Hlabs Hv.
  unfold METRIC_PATTERN_match, labelled_line.
  rewrite (span_app_stop is_word name) by done.
  rewrite bool_decide_eq_false_2 by done.
  rewrite bool_decide_eq_true_2 by done.
  rewrite (span_app_stop not_rbrace labs) by done.
  rewrite bool_decide_eq_false_2 by done.
  destruct (value_text_head v Hv) as (c & b & -> & Hc).
  simpl span. rewrite Hc.
  rewrite bool_decide_eq_false_2 by done.
  by rewrite (match_value_text _ Hv).
Qed.

Lemma process_line_table name key val field v x (r : gmap string Q) :
  (name, key, val, field) ∈ label_table →
  is_value_text v = true →
  float_of_string v = Some x →
  process_line r (labelled_line name (label_text key val) v)
  = Ok (<[field := x]> r).
Proof.
  intros Hin Hv Hx. unfold process_line.
  unfold label_table in Hin.
  repeat (apply elem_of_cons in Hin as [Hin|Hin]; [simplify_eq|]);
    try (by apply elem_of_nil in Hin).
  all: rewrite strip_labelled_line by done.
  all: rewrite match_labelled_line by done.
  all: simpl value; rewrite Hx; simpl labels; simpl metric_name.
  all: reflexivity.
Qed.

(** *** The pattern: the matching function against the language *)

Lemma string_app_nil_r (s : string) : s +:+ EmptyString = s.
Proof.
  induction s as [|c s IH]; [done|]. rewrite string_app_cons. by f_equal.
Qed.

Lemma span_spec p s a b :
  span p s = (a, b) →
  s = a +:+ b ∧ string_forall p a = true
  ∧ match b with String c _ => p c = false | EmptyString => True end.
Proof.
  revert a b. induction s as [|c s IH]; intros a b; simpl.
  - by intros [= <- <-].
  - destruct (p c) eqn:Hc.
    + destruct (span p s) as [a' b'] eqn:Hs. intros [= <- <-].
      destruct (IH a' b' eq_refl) as (-> & Ha & Hb).
      rewrite string_app_cons. simpl. by rewrite Hc.
    + intros [= <- <-]. by rewrite Hc.
Qed.

Lemma span_app p a b :
  string_forall p a = true →
  match b with String c _ => p c = false | EmptyString => True end →
  span p (a +:+ b) = (a, b).
Proof.
  intros Ha Hb. destruct b as [|c b].
  - rewrite string_app_nil_r. by apply span_forall.
  - by apply span_app_stop.
Qed.

Lemma space_not_word c : is_space c = true → is_word c = false.
Proof. by destruct c as [[] [] [] [] [] [] [] []]. Qed.

Lemma space_not_lbrace c : is_space c = true → bool_decide (c = "{"%char) = false.
Proof. by destruct c as [[] [] [] [] [] [] [] []]. Qed.

Lemma lf_not_value_char : is_value_char LF = false.
Proof. reflexivity. Qed.

Lemma match_value_spec s v :
  match_value s = Some v ↔
  is_value_text v = true
  ∧ (s = v ∨ s = v +:+ String LF EmptyString).
Proof.
  split.
  - unfold match_value. destruct s as [|c b]; [done|].
    destruct (bool_decide (c = "-"%char) || bool_decide (c = "+"%char)) eqn:Hsign.
    + destruct (span is_value_char b) as [w tail] eqn:Hspan.
      destruct (span_spec _ _ _ _ Hspan) as (-> & Hw & Htail).
      destruct (bool_decide (w = EmptyString)) eqn:Hne; [done|].
      destruct (bool_decide (tail = EmptyString)
                || bool_decide (tail = String LF EmptyString)) eqn:Hend; [|done].
      intros [= <-]. change (String c EmptyString +:+ w) with (String c w).
      rewrite string_app_cons. split.
      * unfold is_value_text. by rewrite Hsign, Hne.
      * apply orb_true_iff in Hend as [Hend|Hend];
          apply bool_decide_eq_true in Hend; subst tail.
        -- left. by rewrite string_app_nil_r.
        -- by right.
    + destruct (span is_value_char (String c b)) as [w tail] eqn:Hspan.
      destruct (span_spec _ _ _ _ Hspan) as (Heq & Hw & Htail).
      destruct (bool_decide (w = EmptyString)) eqn:Hne; [done|].
      destruct (bool_decide (tail = EmptyString)
                || bool_decide (tail = String LF EmptyString)) eqn:Hend; [|done].
      intros [= <-]. change (EmptyString +:+ w) with w.
      destruct w as [|c' w]; [done|].
      rewrite string_app_cons in Heq. injection Heq as <- Hb.
      split.
      * unfold is_value_text. by rewrite Hsign.
      * rewrite Hb. rewrite string_app_cons.
        apply orb_true_iff in Hend as [Hend|Hend];
          apply bool_decide_eq_true in Hend; subst tail.
        -- left. by rewrite string_app_nil_r.
        -- by right.
  - intros [Hv Hs]. destruct v as [|c b]; [done|].
    assert (Hcase : ∃ tail, s = String c (b +:+ tail)
                            ∧ (tail = EmptyString ∨ tail = String LF EmptyString)).
    { destruct Hs as [->| ->].
      - exists EmptyString. rewrite string_app_nil_r. by split; [|left].
      - exists (String LF EmptyString). by split; [|right]. }
    destruct Hcase as (tail & -> & Htail).
    assert (Hstop : match tail with
                    | String c _ => is_value_char c = false
                    | EmptyString => True
                    end).
    { by destruct Htail as [->| ->]. }
    assert (Hend : bool_decide (tail = EmptyString)
                   || bool_decide (tail = String LF EmptyString) = true).
    { destruct Htail as [->| ->]; [done|]. apply orb_true_r. }
    unfold match_value. unfold is_value_text in Hv.
    destruct (bool_decide (c = "-"%char) || bool_decide (c = "+"%char)) eqn:Hsign.
    + apply andb_true_iff in Hv as [Hne Hb].
      rewrite (span_app _ _ _ Hb Hstop).
      apply negb_true_iff in Hne. by rewrite Hne, Hend.
    + rewrite <- string_app_cons.
      rewrite (span_app _ _ _ Hv Hstop).
      rewrite bool_decide_eq_false_2 by done. by rewrite Hend.
Qed.

Lemma not_rbrace_false c : not_rbrace c = false → c = "}"%char.
Proof.
  unfold not_rbrace. intros H. apply negb_false_iff in H.
  by apply bool_decide_eq_true in H.
Qed.

Lemma value_text_head_stop (p : ascii → bool) v tail :
  (∀ c, is_space c = false → p c = false) →
  is_value_text v = true →
  match v +:+ tail with String c _ => p c = false | EmptyString => True end.
Proof.
  intros Hp Hv. destruct (value_text_head v Hv) as (c & b & -> & Hc).
  rewrite string_app_cons. by apply Hp.
Qed.

(** The matching function computes exactly the matches of the pattern:
    it finds a match whenever the line belongs to the language, and the
    groups are determined by the line. *)
Lemma METRIC_PATTERN_match_spec line m :
  METRIC_PATTERN_match line = Some m ↔ pattern_matches line m.
Proof.
  split.
  - unfold METRIC_PATTERN_match.
    destruct (span is_word line) as [name rest] eqn:Hname.
    destruct (span_spec _ _ _ _ Hname) as (-> & Hword & Hstop).
    destruct (bool_decide (name = EmptyString)) eqn:Hne; [done|].
    apply bool_decide_eq_false in Hne.
    assert (Hrest : ∀ labs rest',
      (let '(ws, rest) := span is_space rest' in
       if bool_decide (ws = EmptyString) then None
       else match match_value rest with
            | Some v => Some {| metric_name := name; labels := labs; value := v |}
            | None => None
            end) = Some m →
      ∃ ws tail, rest' = ws +:+ value m +:+ tail
        ∧ metric_name m = name ∧ labels m = labs
        ∧ ws ≠ EmptyString ∧ string_forall is_space ws = true
        ∧ is_value_text (value m) = true
        ∧ (tail = EmptyString ∨ tail = String LF EmptyString)).
    { intros labs rest'.
      destruct (span is_space rest') as [ws rest3] eqn:Hws.
      destruct (span_spec _ _ _ _ Hws) as (-> & Hspace & _).
      destruct (bool_decide (ws = EmptyString)) eqn:Hwne; [done|].
      apply bool_decide_eq_false in Hwne.
      destruct (match_value rest3) as [v|] eqn:Hv; [|done].
      intros [= <-]. simpl.
      apply match_value_spec in Hv as [Hv Htail].
      destruct Htail as [->| ->].
      - exists ws, EmptyString. rewrite string_app_nil_r. eauto 10.
      - exists ws, (String LF EmptyString). eauto 10. }
    destruct rest as [|c r].
    + intros Hm. destruct (Hrest None EmptyString Hm)
        as (ws & tail & Heq & Hn & Hl & Hwne & Hws & Hv & Htail).
      exists EmptyString, ws, tail. rewrite Hn, Hl.
      split; [by rewrite Heq|]. eauto 10.
    + destruct (bool_decide (c = "{"%char)) eqn:Hc.
      * apply bool_decide_eq_true in Hc as ->.
        destruct (span not_rbrace r) as [lab r'] eqn:Hlab.
        destruct (span_spec _ _ _ _ Hlab) as (-> & Hlabs & Hclose).
        destruct r' as [|c2 r'']; [done|].
        apply not_rbrace_false in Hclose as ->.
        destruct (bool_decide (lab = EmptyString)) eqn:Hlne; [done|].
        apply bool_decide_eq_false in Hlne.
        intros Hm. destruct (Hrest (Some lab) r'' Hm)
          as (ws & tail & -> & Hn & Hl & Hwne & Hws & Hv & Htail).
        exists (String "{" (lab +:+ String "}" EmptyString)), ws, tail.
        rewrite Hn, Hl. split; [|eauto 10].
        f_equal. rewrite string_app_cons. f_equal.
        rewrite string_app_assoc. f_equal.
      * intros Hm. destruct (Hrest None (String c r) Hm)
          as (ws & tail & Heq & Hn & Hl & Hwne & Hws & Hv & Htail).
        exists EmptyString, ws, tail. rewrite Hn, Hl.
        split; [by rewrite Heq|]. eauto 10.
  - intros (group & ws & tail & -> & Hne & Hword & Hgroup & Hwne & Hws & Hv & Htail).
    destruct m as [name labs v]. simpl in *.
    assert (Hvalue : match_value (v +:+ tail) = Some v).
    { apply match_value_spec. split; [done|].
      destruct Htail as [->| ->]; [left; apply string_app_nil_r|by right]. }
    assert (Hspace : span is_space (ws +:+ v +:+ tail) = (ws, v +:+ tail)).
    { apply span_app; [done|]. by apply value_text_head_stop. }
    destruct ws as [|w ws']; [done|]. simpl in Hws.
    apply andb_true_iff in Hws as [Hw Hws'].
    unfold METRIC_PATTERN_match.
    destruct labs as [lab|].
    + destruct Hgroup as (-> & Hlne & Hlabs).
      rewrite string_app_cons.
      rewrite (span_app_stop is_word name) by done.
      rewrite bool_decide_eq_false_2 by done.
      rewrite bool_decide_eq_true_2 by done.
      rewrite string_app_assoc, string_app_cons.
      rewrite (span_app_stop not_rbrace lab) by done.
      rewrite bool_decide_eq_false_2 by done.
      change (EmptyString +:+ String w ws' +:+ v +:+ tail)
        with (String w ws' +:+ v +:+ tail).
      rewrite Hspace. rewrite bool_decide_eq_false_2 by done.
      by rewrite Hvalue.
    + subst group.
      change (EmptyString +:+ String w ws' +:+ v +:+ tail)
        with (String w ws' +:+ v +:+ tail).
      rewrite string_app_cons.
      rewrite (span_app_stop is_word name); [|done|by apply space_not_word].
      rewrite bool_decide_eq_false_2 by done.
      rewrite (space_not_lbrace w Hw).
      rewrite <- string_app_cons.
      rewrite Hspace. rewrite bool_decide_eq_false_2 by done.
      by rewrite Hvalue.
Qed.

Lemma process_label_ok m_name v (r : gmap string Q) part :
  ∃ r', process_label m_name v r part = Ok r'.
Proof.
  unfold process_label. destruct (contains "=" part) eqn:Heq; [|by eexists].
  destruct (split1_contains _ _ Heq) as (a & b & ->). simpl.
  repeat (case_match; try by eexists).
Qed.

Lemma process_labels_ok m_name v (r : gmap string Q) parts :
  ∃ r', process_labels m_name v r parts = Ok r'.
Proof.
  revert r. induction parts as [|part parts IH]; intros r; simpl; [by eexists|].
  destruct (process_label_ok m_name v r part) as (r1 & ->). simpl. apply IH.
Qed.

Lemma process_line_ok (r : gmap string Q) line :
  ∃ r', process_line r line = Ok r'.
Proof.
  unfold process_line.
  repeat (case_match; try by eexists); apply process_labels_ok.
Qed.

Lemma process_lines_ok (r : gmap string Q) lines :
  ∃ r', process_lines r lines = Ok r'.
Proof.
  revert r. induction lines as [|line lines IH]; intros r; simpl; [by eexists|].
  destruct (process_line_ok r line) as (r1 & ->). simpl. apply IH.
Qed.

Lemma parse_metrics_lines text :
  parse_metrics text = process_lines ∅ (splitlines text).
Proof. unfold parse_metrics. case_bool_decide as H; [by rewrite H|done]. Qed.

Lemma process_line_skipped (r : gmap string Q) line :
  blank_or_comment line ∨ malformed line → process_line r line = Ok r.
Proof.
  unfold process_line, malformed. intros [[Hblank|Hcomment]|Hbad].
  - by rewrite Hblank.
  - rewrite Hcomment. by rewrite orb_true_r.
  - destruct (METRIC_PATTERN_match (strip line)) as [m|].
    + rewrite Hbad. by case_match.
    + by case_match.
Qed.

Lemma process_lines_app (r : gmap string Q) l1 l2 :
  process_lines r (l1 ++ l2) = r' ← process_lines r l1; process_lines r' l2.
Proof.
  revert r. induction l1 as [|l l1 IH]; intros r; simpl; [done|].
  destruct (process_line r l); simpl; [apply IH|done].
Qed.

Lemma process_lines_skip (r : gmap string Q) before line after :
  blank_or_comment line ∨ malformed line →
  process_lines r (before ++ line :: after) = process_lines r (before ++ after).
Proof.
  intros Hskip. rewrite !process_lines_app.
  destruct (process_lines r before) as [r'|e]; simpl; [|done].
  by rewrite (process_line_skipped r' line Hskip).
Qed.

(** C5: the parser returns a mapping for every text and never raises;
    a blank line, a comment line and a malformed line (one whose value
    is not a number) leave the result of the other lines unchanged; each entry of the
    label table sends its labelled line to its canonical field with the
    value of the line, in particular [type="used"] of the memory gauge to
    [memory_used] and [component="cpu"] of the power gauge to
    [power_cpu]. *)
Theorem parse_metrics_total_table :
  (∀ text, ∃ m, parse_metrics text = Ok m)
  ∧ (∀ text before line after,
       splitlines text = before ++ line :: after →
       blank_or_comment line ∨ malformed line →
       parse_metrics text = process_lines ∅ (before ++ after))
  ∧ (∀ name key val field v x (r : gmap string Q),
       (name, key, val, field) ∈ label_table →
       is_value_text v = true →
       float_of_string v = Some x →
       process_line r (labelled_line name (label_text key val) v)
       = Ok (<[field := x]> r))
  ∧ parse_metrics
      (labelled_line "mactop_memory_gb" (label_text "type" "used") "8589934592")
    = Ok {[ "memory_used" := 8589934592%Q ]}
  ∧ parse_metrics
      (labelled_line "mactop_power_watts" (label_text "component" "cpu") "12.5")
    = Ok {[ "power_cpu" := 12.5%Q ]}
  ∧ parse_metrics example_text
    = Ok {[ "cpu_usage_percent" := 12.5%Q; "power_cpu" := 70%Q ]}.
Proof.
  split; [|split; [|split; [|split; [|split]]]].
  - intros text. rewrite parse_metrics_lines. apply process_lines_ok.
  - intros text before line after Hlines Hskip.
    rewrite parse_metrics_lines, Hlines. by apply process_lines_skip.
  - intros. by apply process_line_table.
  - vm_compute. reflexivity.
  - vm_compute. reflexivity.
  - vm_compute. reflexivity.
Qed.

Lemma parse_metrics_total_table_witness :
  parse_metrics example_text
  = process_lines ∅
      ([ "mactop_cpu_usage_percent 12.5" ]
       ++ [ labelled_line "mactop_power_watts" (label_text "component" "cpu") "7e1" ])
  ∧ process_line ∅
      (labelled_line "mactop_memory_gb" (label_text "type" "total") "+16")
    = Ok (<["memory_total" := 16%Q]> ∅).
Proof.
  destruct parse_metrics_total_table as (_ & Hskip & Htable & _).
  split.
  - apply (Hskip example_text _ "mactop_gpu_usage_percent 1.2.3").
    + vm_compute. reflexivity.
    + right. vm_compute. reflexivity.
  - apply Htable.
    + do 2 apply list_elem_of_further. apply list_elem_of_here.
    + vm_compute. reflexivity.
    + vm_compute. reflexivity.
Defined.

(** ** The peak-window finder ([find_peak_window]) *)

Section peak_window.
Context (metric : string) (Hmetric : metric ≠ "timestamp_obj").

Lemma parse_timestamp_sample row sample :
  row_sample metric row sample →
  parse_timestamp row = Ok (with_time row sample).
Proof.
  intros (s & c & Hs & Ht & _). unfold parse_timestamp. by rewrite Hs, Ht.
Qed.

Lemma parse_timestamps_samples data series :
  Forall2 (row_sample metric) data series →
  parse_timestamps data = (zip_with with_time data series, None).
Proof.
  induction 1 as [|row sample data series Hrow _ IH]; simpl; [done|].
  by rewrite (parse_timestamp_sample _ _ Hrow), IH.
Qed.

Lemma with_time_sample row sample :
  row_sample metric row sample →
  timestamp_obj (with_time row sample) = Ok sample.1
  ∧ ∃ c, with_time row sample !! metric = Some c
         ∧ nonempty c = true ∧ float c = Ok sample.2.
Proof.
  intros (s & c & _ & _ & Hc & Hne & Hx). unfold with_time, timestamp_obj.
  split; [by rewrite lookup_insert_eq|].
  exists c. by rewrite lookup_insert_ne.
Qed.

Lemma timestamps_samples data series :
  Forall2 (row_sample metric) data series →
  timestamps (zip_with with_time data series) = Ok (series.*1).
Proof.
  induction 1 as [|row sample data series Hrow _ IH]; simpl; [done|].
  destruct (with_time_sample _ _ Hrow) as [-> _]. simpl. by rewrite IH.
Qed.

Lemma metric_values_samples data series :
  Forall2 (row_sample metric) data series →
  metric_values (zip_with with_time data series) metric = Ok (series.*2).
Proof.
  induction 1 as [|row sample data series Hrow _ IH]; simpl; [done|].
  destruct (with_time_sample _ _ Hrow) as [_ (c & -> & -> & ->)]. simpl.
  by rewrite IH.
Qed.

Lemma window_values_samples data series window_end :
  Forall2 (row_sample metric) data series →
  window_values (zip_with with_time data series) metric window_end
  = Ok (run_until window_end series).
Proof.
  induction 1 as [|row [t x] data series Hrow _ IH]; simpl; [done|].
  destruct (with_time_sample _ _ Hrow) as [-> (c & -> & -> & ->)]. simpl.
  destruct (window_end <? t)%Z; [done|]. by rewrite IH.
Qed.
End peak_window.

Lemma list_min_lower (ts : list Z) (t0 : Z) :
  Forall (Z.le t0) ts → list_min ts t0 = t0.
Proof.
  unfold list_min. induction 1 as [|t ts Ht _ IH]; simpl; [done|].
  by rewrite Z.min_l.
Qed.

Lemma last_cons_default {A} (x d d' : A) (l : list A) :
  List.last (x :: l) d = List.last (x :: l) d'.
Proof.
  revert x. induction l as [|y l IH]; intros x; [done|].
  change (List.last (y :: l) d = List.last (y :: l) d'). apply IH.
Qed.

Lemma list_max_sorted (ts : list Z) (t0 : Z) :
  StronglySorted Z.le (t0 :: ts) → list_max ts t0 = List.last ts t0.
Proof.
  unfold list_max. revert t0. induction ts as [|t ts IH]; intros t0 Hs; [done|].
  apply StronglySorted_inv in Hs as [Hs Hall].
  apply Forall_cons in Hall as [Ht _].
  simpl fold_left. rewrite Z.max_r by done. rewrite (IH t Hs).
  destruct ts as [|t' ts]; [done|].
  change (List.last (t :: t' :: ts) t0) with (List.last (t' :: ts) t0).
  apply last_cons_default.
Qed.

Lemma chronological_drop series i :
  chronological series → chronological (drop i series).
Proof.
  unfold chronological. revert i.
  induction series as [|s series IH]; intros [|i]; simpl; try done.
  intros [Hs _]%StronglySorted_inv. by apply IH.
Qed.

Lemma filter_none {A} (P : A → Prop) `{∀ x, Decision (P x)} (l : list A) :
  Forall (λ x, ¬ P x) l → filter P l = [].
Proof.
  induction 1 as [|x l Hx _ IH]; [done|]. by rewrite filter_cons_False.
Qed.

(** Along a chronological series the scan that stops at the first later
    row collects exactly the values of the window. *)
Lemma run_until_filter series lo hi :
  chronological series →
  Forall (Z.le lo) (series.*1) →
  run_until hi series = (filter (λ s, lo ≤ s.1 ≤ hi)%Z series).*2.
Proof.
  unfold chronological.
  induction series as [|[t x] series IH]; [done|].
  rewrite fmap_cons.
  intros [Hs Hall]%StronglySorted_inv [Hlo Hlos]%Forall_cons.
  rewrite Forall_fmap in Hall. simpl in Hlo. simpl run_until.
  destruct (Z.ltb_spec hi t) as [Hlt|Hge].
  - rewrite filter_cons_False by (simpl; lia).
    rewrite filter_none; [done|].
    eapply Forall_impl; [exact Hall|].
    intros [t' x'] Ht'. change (t ≤ t')%Z in Ht'.
    intros [H1 H2]. simpl in H1, H2. lia.
  - rewrite filter_cons_True by (split; simpl; lia).
    rewrite fmap_cons. simpl snd. by rewrite IH.
Qed.

Lemma run_until_window series duration i t x :
  chronological series →
  series !! i = Some (t, x) →
  run_until (t + duration) (drop i series) = window_of series duration i.
Proof.
  intros Hs Hi. unfold window_of. rewrite Hi.
  apply run_until_filter; [by apply chronological_drop|].
  pose proof (chronological_drop series i Hs) as Hd.
  unfold chronological in Hd.
  rewrite (drop_S _ _ _ Hi) in Hd |- *. rewrite fmap_cons in Hd |- *.
  apply StronglySorted_inv in Hd as [_ Hall].
  apply Forall_cons. split; [simpl; lia|].
  eapply Forall_impl; [exact Hall|]. intros t' Ht'. simpl in Ht'. lia.
Qed.

Lemma best_so_far_nonneg win m acc : best_so_far win m acc → (0 <= acc.1)%Q.
Proof.
  intros [_ [[-> _]|(_ & _ & _ & Hpos & _)]]; [apply Qle_refl|].
  by apply Qlt_le_weak.
Qed.

Lemma best_so_far_step win m acc :
  best_so_far win m acc → best_so_far win (S m) (candidate_step win acc m).
Proof.
  intros Hinv. pose proof (best_so_far_nonneg _ _ _ Hinv) as Hnn.
  destruct Hinv as [Hub Hbest]. unfold candidate_step.
  destruct (win m) as [|x xs] eqn:Hwin.
  - split.
    + intros i Hi Hne. destruct (decide (i = m)) as [->|]; [done|].
      apply Hub; [lia|done].
    + destruct Hbest as [?|(? & ? & ? & ? & ?)]; [by left|right].
      repeat split; [lia|done..].
  - case_decide as Hlt.
    + split; simpl.
      * intros i Hi Hne. destruct (decide (i = m)) as [->|].
        { rewrite Hwin. apply Qle_refl. }
        apply Qlt_le_weak. eapply Qle_lt_trans; [apply Hub; [lia|done]|done].
      * right. rewrite Hwin. repeat split; [lia|done|..].
        { eapply Qle_lt_trans; [exact Hnn|done]. }
        intros i Hi Hne. eapply Qle_lt_trans; [by apply Hub|done].
    + apply Qnot_lt_le in Hlt. split.
      * intros i Hi Hne. destruct (decide (i = m)) as [->|].
        { by rewrite Hwin. }
        apply Hub; [lia|done].
      * destruct Hbest as [?|(? & ? & ? & ? & ?)]; [by left|right].
        repeat split; [lia|done..].
Qed.

Lemma best_so_far_loop win a k acc :
  best_so_far win a acc →
  best_so_far win (a + k) (fold_left (candidate_step win) (seq a k) acc).
Proof.
  revert a acc. induction k as [|k IH]; intros a acc Hinv; simpl.
  - by rewrite Nat.add_0_r.
  - replace (a + S k)%nat with (S a + k)%nat by lia.
    apply IH. by apply best_so_far_step.
Qed.

Section peak_loop.
Context (metric : string) (Hmetric : metric ≠ "timestamp_obj").
Context (data : list (gmap string cell)) (series : list (Z * Q)).
Context (Hdata : Forall2 (row_sample metric) data series).
Context (Hchrono : chronological series).
Context (window_minutes : Z).

Let parsed := zip_with with_time data series.
Let win := window_of series (window_micros window_minutes).

Lemma window_step_samples acc i :
  (i < length series)%nat →
  window_step parsed metric window_minutes acc i
  = Ok (candidate_step win acc i).
Proof using Hmetric Hdata Hchrono.
  intros Hi. unfold window_step. destruct acc as [h b].
  destruct (lookup_lt_is_Some_2 series i Hi) as [[t x] Hs].
  destruct (lookup_lt_is_Some_2 data i) as [row Hrow].
  { by rewrite (Forall2_length _ _ _ Hdata). }
  assert (parsed !! i = Some (with_time row (t, x))) as Hp.
  { subst parsed. rewrite lookup_zip_with, Hrow. simpl. by rewrite Hs. }
  rewrite (index_lookup parsed (Z.of_nat i) (with_time row (t, x)));
    [|lia|by rewrite Nat2Z.id].
  simpl.
  destruct (with_time_sample metric Hmetric row (t, x)) as [-> _].
  { eapply Forall2_lookup_lr; eauto. }
  simpl. subst parsed. rewrite zip_with_drop.
  rewrite (window_values_samples metric Hmetric); [|by apply Forall2_drop].
  simpl. rewrite (run_until_window series _ i t x Hchrono Hs).
  fold win. unfold candidate_step. simpl.
  destruct (win i); [done|]. by case_decide.
Qed.

Lemma window_loop_samples acc starts :
  Forall (λ i, (i < length series)%nat) starts →
  window_loop parsed metric window_minutes acc starts
  = Ok (fold_left (candidate_step win) starts acc).
Proof using Hmetric Hdata Hchrono.
  intros Hstarts. revert acc.
  induction Hstarts as [|i starts Hi _ IH]; intros acc; simpl; [done|].
  rewrite (window_step_samples acc i Hi). simpl. apply IH.
Qed.
End peak_loop.

Lemma peak_of_parsed_samples metric data series window_minutes :
  metric ≠ "timestamp_obj" →
  Forall2 (row_sample metric) data series →
  chronological series →
  (1 ≤ length series)%nat →
  let W := window_micros window_minutes in
  let win := window_of series W in
  peak_of_parsed (zip_with with_time data series) metric window_minutes
  = if (time_span series <? W)%Z then Ok (0%nat, average (series.*2))
    else
      let acc := fold_left (candidate_step win)
                   (seq 0 (length series - 1)) (0%Q, 0%nat) in
      Ok (acc.2, acc.1).
Proof.
  intros Hmetric Hdata Hchrono Hlen W win. unfold peak_of_parsed.
  rewrite (timestamps_samples metric Hmetric _ _ Hdata). simpl.
  destruct series as [|[t0 x0] series']; [simpl in Hlen; lia|].
  rewrite fmap_cons. simpl fst.
  assert (Hsorted : StronglySorted Z.le (t0 :: series'.*1)) by exact Hchrono.
  rewrite list_min_lower by (by apply StronglySorted_inv in Hsorted as [_ ?]).
  rewrite (list_max_sorted _ _ Hsorted).
  change (List.last series'.*1 t0 - t0)%Z with (time_span ((t0, x0) :: series')).
  fold W. destruct (time_span ((t0, x0) :: series') <? W)%Z.
  - rewrite (metric_values_samples metric Hmetric _ _ Hdata). simpl.
    done.
  - rewrite (window_loop_samples metric Hmetric data _ Hdata Hchrono).
    + rewrite length_zip_with, (Forall2_length _ _ _ Hdata), Nat.min_id.
      fold W win. simpl. by destruct (fold_left _ _ _).
    + rewrite length_zip_with, (Forall2_length _ _ _ Hdata), Nat.min_id.
      apply Forall_forall. intros i Hi%elem_of_seq. lia.
Qed.


Lemma sample_row_sample metric ts t x :
  metric ≠ "timestamp" →
  fromisoformat ts = Some t →
  row_sample metric (sample_row metric ts x) (t, x).
Proof.
  intros Hne Ht. exists ts, (CFloat x). unfold sample_row.
  split; [by simplify_map_eq|]. split; [done|].
  split; [by simplify_map_eq|]. done.
Qed.

Lemma example_rows4_samples :
  Forall2 (row_sample "cpu") example_rows4 example_series4.
Proof.
  unfold example_rows4, example_series4.
  repeat (constructor; [apply sample_row_sample; [done|vm_compute; reflexivity]|]).
  constructor.
Qed.



(** ** The derived-metric calculator ([calculate_derived_metrics]) *)

Lemma assoc_set_dtype_ne (c c' : string) ty (s : list (string * dtype)) :
  c ≠ c' → assoc c (set_dtype c' ty s) = assoc c s.
Proof.
  intros Hne. induction s as [|[k t] s IH]; simpl.
  - by rewrite bool_decide_eq_false_2.
  - case_bool_decide as Hk; simpl.
    + subst k. by rewrite !bool_decide_eq_false_2 by done.
    + case_bool_decide; [done|]. apply IH.
Qed.

Lemma numeric_column_with_column c c' ty expr df :
  c ≠ c' →
  numeric_column (with_column c' ty expr df) c = numeric_column df c.
Proof.
  intros Hne. unfold numeric_column, with_column. simpl.
  by rewrite assoc_set_dtype_ne.
Qed.

Lemma number_insert_ne (r : gmap string datum) c c' v :
  c ≠ c' → number (<[c' := v]> r) c = number r c.
Proof. intros Hne. unfold number. by rewrite lookup_insert_ne. Qed.

Lemma calculate_derived_metrics_rows df :
  numeric_column df "memory_total" = Ok () →
  numeric_column df "memory_used" = Ok () →
  numeric_column df "memory_swap_used" = Ok () →
  ∃ df', calculate_derived_metrics df = Ok df'
         ∧ rows df' = map derived_row (rows df).
Proof.
  intros Htotal Hused Hswap. unfold calculate_derived_metrics.
  rewrite Htotal, Hused. simpl.
  rewrite !numeric_column_with_column by done.
  rewrite Htotal, Hswap. simpl.
  eexists. split; [reflexivity|]. simpl. by rewrite map_map.
Qed.

Lemma calculate_derived_metrics_inv df df' :
  calculate_derived_metrics df = Ok df' →
  rows df' = map derived_row (rows df).
Proof.
  unfold calculate_derived_metrics.
  destruct (numeric_column df "memory_total") as [[]|]; [|done].
  destruct (numeric_column df "memory_used") as [[]|]; [|done]. simpl.
  destruct (numeric_column _ "memory_total") as [[]|]; [|done].
  destruct (numeric_column _ "memory_swap_used") as [[]|]; [|done]. simpl.
  intros [= <-]. simpl. by rewrite map_map.
Qed.

Lemma derived_row_ram r total used :
  number r "memory_total" = Some total → (0 < total)%Q →
  number r "memory_used" = Some used →
  derived_row r !! "ram_percent" = Some (VNum (used / total * 100)%Q).
Proof.
  intros Ht Hpos Hu. unfold derived_row.
  rewrite lookup_insert_ne by done. rewrite lookup_insert_eq.
  unfold percent_of_total. rewrite Ht, Hu. by rewrite decide_True.
Qed.

Lemma derived_row_swap r total used :
  number r "memory_total" = Some total → (0 < total)%Q →
  number r "memory_swap_used" = Some used →
  derived_row r !! "swap_pressure_percent"
  = Some (VNum (used / total * 100)%Q).
Proof.
  intros Ht Hpos Hu. unfold derived_row. rewrite lookup_insert_eq.
  unfold percent_of_total. rewrite !number_insert_ne by done.
  rewrite Ht, Hu. by rewrite decide_True.
Qed.

Lemma percent_of_total_guard c r :
  (∀ total, number r "memory_total" = Some total → (total <= 0)%Q) →
  percent_of_total c r = VNum 0.
Proof.
  intros Hguard. unfold percent_of_total.
  destruct (number r "memory_total") as [total|] eqn:Ht; [|done].
  rewrite decide_False; [done|].
  apply Qle_not_lt. by apply Hguard.
Qed.

Lemma derived_row_guard r :
  (∀ total, number r "memory_total" = Some total → (total <= 0)%Q) →
  derived_row r !! "ram_percent" = Some (VNum 0)
  ∧ derived_row r !! "swap_pressure_percent" = Some (VNum 0).
Proof.
  intros Hguard. unfold derived_row. split.
  - rewrite lookup_insert_ne by done. rewrite lookup_insert_eq.
    by rewrite percent_of_total_guard.
  - rewrite lookup_insert_eq. rewrite percent_of_total_guard; [done|].
    intros total. rewrite number_insert_ne by done. apply Hguard.
Qed.

Lemma derived_row_frame r k :
  k ≠ "ram_percent" → k ≠ "swap_pressure_percent" →
  derived_row r !! k = r !! k.
Proof.
  intros H1 H2. unfold derived_row. by rewrite !lookup_insert_ne.
Qed.

(** C6, as the code has it: on a frame that has the three counters as
    numeric columns the calculation returns normally, row by row;
    [ram_percent] and [swap_pressure_percent] are the quotient by
    [memory_total] times 100 when [memory_total] is positive, and both
    are 0 when [memory_total] is zero, negative or null. *)
Theorem derived_metrics_amended (df : DataFrame) :
  numeric_column df "memory_total" = Ok () →
  numeric_column df "memory_used" = Ok () →
  numeric_column df "memory_swap_used" = Ok () →
  ∃ df', calculate_derived_metrics df = Ok df'
    ∧ length (rows df') = length (rows df)
    ∧ ∀ i r r', rows df !! i = Some r → rows df' !! i = Some r' →
        (∀ total used,
           number r "memory_total" = Some total → (0 < total)%Q →
           number r "memory_used" = Some used →
           r' !! "ram_percent" = Some (VNum (used / total * 100)%Q))
        ∧ (∀ total used,
             number r "memory_total" = Some total → (0 < total)%Q →
             number r "memory_swap_used" = Some used →
             r' !! "swap_pressure_percent"
             = Some (VNum (used / total * 100)%Q))
        ∧ ((∀ total, number r "memory_total" = Some total → (total <= 0)%Q) →
           r' !! "ram_percent" = Some (VNum 0)
           ∧ r' !! "swap_pressure_percent" = Some (VNum 0)).
Proof.
  intros Htotal Hused Hswap.
  destruct (calculate_derived_metrics_rows df Htotal Hused Hswap)
    as (df' & Hcalc & Hrows).
  exists df'. split; [done|]. rewrite Hrows. split; [by rewrite length_map|].
  intros i r r' Hr Hr'.
  rewrite list_lookup_fmap, Hr in Hr'. simpl in Hr'. injection Hr' as <-.
  split; [|split].
  - intros. by eapply derived_row_ram.
  - intros. by eapply derived_row_swap.
  - apply derived_row_guard.
Qed.

Lemma derived_metrics_amended_witness :
  ∃ df', calculate_derived_metrics memory_frame = Ok df'
    ∧ length (rows df') = length (rows memory_frame)
    ∧ ∀ i r r', rows memory_frame !! i = Some r → rows df' !! i = Some r' →
        (∀ total used,
           number r "memory_total" = Some total → (0 < total)%Q →
           number r "memory_used" = Some used →
           r' !! "ram_percent" = Some (VNum (used / total * 100)%Q))
        ∧ (∀ total used,
             number r "memory_total" = Some total → (0 < total)%Q →
             number r "memory_swap_used" = Some used →
             r' !! "swap_pressure_percent"
             = Some (VNum (used / total * 100)%Q))
        ∧ ((∀ total, number r "memory_total" = Some total → (total <= 0)%Q) →
           r' !! "ram_percent" = Some (VNum 0)
           ∧ r' !! "swap_pressure_percent" = Some (VNum 0)).
Proof.
  apply (derived_metrics_amended memory_frame); vm_compute; reflexivity.
Defined.

(** C6 fails as stated: with [memory_total = -1] and [memory_used = 1]
    the guard [memory_total > 0] is false and [ram_percent] is 0, not
    [1 / -1 * 100 = -100]. *)
Lemma derived_metrics_counterexample : ¬ derived_metrics_as_stated.
Proof.
  intros Hclaim.
  pose (df := {| schema := memory_schema;
                 rows := [ memory_row "2023-04-01 12:00:00" 1 (-1) 0 ] |}).
  destruct (calculate_derived_metrics df) as [df'|] eqn:Hcalc; [|done].
  pose proof (calculate_derived_metrics_inv df df' Hcalc) as Hrows.
  destruct (Hclaim df df' 0%nat
              (memory_row "2023-04-01 12:00:00" 1 (-1) 0)
              (derived_row (memory_row "2023-04-01 12:00:00" 1 (-1) 0))
              1%Q (-1)%Q Hcalc)
    as (y & Hy & Heq).
  - done.
  - by rewrite Hrows.
  - vm_compute. reflexivity.
  - vm_compute. reflexivity.
  - vm_compute in Hy. injection Hy as <-.
    vm_compute in Heq. discriminate.
Qed.

(** ** The sufficiency scorer ([calculate_sufficiency_metrics]) *)

Lemma sufficiency_step_float metric metric_stats sufficiency :
  map_Forall (λ _ v, is_Some v) metric_stats →
  sufficiency_step metric metric_stats (Ok sufficiency)
  = Ok (match score_of metric_stats with
        | Some gap => <[metric := gap]> sufficiency
        | None => sufficiency
        end).
Proof.
  intros Hfloat. unfold sufficiency_step, score_of. simpl.
  destruct (metric_stats !! "p75") as [p75|] eqn:H75; [|done].
  destruct (Hfloat _ _ H75) as [a ->].
  destruct (metric_stats !! "p95") as [p95|] eqn:H95; [|done].
  destruct (Hfloat _ _ H95) as [b ->].
  destruct (metric_stats !! "max") as [mx|] eqn:Hmax; [|done].
  destruct (Hfloat _ _ Hmax) as [m ->].
  simpl. by case_decide.
Qed.

Lemma calculate_sufficiency_metrics_float stats :
  float_stats stats →
  calculate_sufficiency_metrics stats = Ok (omap score_of stats).
Proof.
  unfold calculate_sufficiency_metrics.
  apply (map_fold_weak_ind
           (λ r m, float_stats m → r = Ok (omap score_of m))).
  - intros _. by rewrite omap_empty.
  - intros metric metric_stats m r Hfresh IH Hfloat.
    apply map_Forall_insert in Hfloat as [Hrec Hrest]; [|done].
    rewrite (IH Hrest), (sufficiency_step_float _ _ _ Hrec).
    rewrite omap_insert. destruct (score_of metric_stats); [done|].
    rewrite delete_id; [done|].
    by rewrite lookup_omap, Hfresh.
Qed.


Lemma example_stats_float : float_stats example_stats.
Proof.
  unfold float_stats, example_stats.
  repeat (apply map_Forall_insert_2;
          [repeat (apply map_Forall_insert_2; [by eexists|]);
           apply map_Forall_empty|]).
  apply map_Forall_empty.
Qed.


(** ** The loader ([load_data]) and the entry point ([run_analysis]) *)

Section loader.
Context (scan_csv : string → result DataFrame).
Context (strptime : string → DataFrame → result DataFrame).
Context (clean_timestamps : DataFrame → result DataFrame).

Lemma scan_all_unparsable file_paths :
  Forall (unparsable scan_csv) file_paths → scan_all scan_csv file_paths = [].
Proof.
  induction 1 as [|p ps [e He] _ IH]; simpl; [done|]. by rewrite He.
Qed.

Lemma load_data_no_data file_paths :
  Forall (unparsable scan_csv) file_paths →
  load_data scan_csv strptime clean_timestamps file_paths = Raise ValueError.
Proof.
  intros Hall. unfold load_data. rewrite (scan_all_unparsable _ Hall).
  by destruct file_paths.
Qed.

Lemma concat_two sch rows1 rows2 :
  concat [ {| schema := sch; rows := rows1 |};
           {| schema := sch; rows := rows2 |} ]
  = Ok {| schema := sch; rows := rows1 ++ rows2 |}.
Proof.
  unfold concat. simpl. rewrite bool_decide_eq_true_2 by done. simpl.
  by rewrite app_nil_r.
Qed.

Lemma concat_one df : concat [df] = Ok df.
Proof. unfold concat. simpl. rewrite app_nil_r. by destruct df. Qed.
End loader.






(** ** What the operations leave of their input *)

Lemma parse_timestamp_stamped row row' :
  parse_timestamp row = Ok row' → stamped row row'.
Proof.
  unfold parse_timestamp, stamped.
  destruct (row !! "timestamp") as [[x|s|t]|] eqn:Hts;
    try (intros [= <-]; by left).
  destruct (fromisoformat s) as [t|] eqn:Ht; [|done].
  intros [= <-]. right. by exists s, t.
Qed.

Lemma parse_timestamps_stamped data :
  Forall2 stamped data (parse_timestamps data).1.
Proof.
  induction data as [|row data IH]; simpl; [constructor|].
  destruct (parse_timestamp row) as [row'|e] eqn:Hrow; simpl.
  - destruct (parse_timestamps data) as [rest e'] eqn:Hrest. simpl in *.
    constructor; [by apply parse_timestamp_stamped|done].
  - apply Forall_Forall2_diag. apply Forall_forall. intros r _. by left.
Qed.

Lemma find_peak_window_stamped data metric window_minutes :
  Forall2 stamped data (find_peak_window data metric window_minutes).1.
Proof.
  unfold find_peak_window.
  pose proof (parse_timestamps_stamped data) as Hparse.
  destruct (length data <? 2)%nat.
  - simpl. apply Forall_Forall2_diag. apply Forall_forall. intros r _. by left.
  - by destruct (parse_timestamps data) as [data' [e|]].
Qed.




(** ** Further properties of the code *)

(** *** Dates and file names *)

Lemma expect_spec c s r : expect c s = Some r ↔ s = String c r.
Proof.
  destruct s as [|c' s]; simpl; [naive_solver|].
  case_bool_decide; naive_solver.
Qed.

Lemma after_prefix_spec p s r : after_prefix p s = Some r ↔ s = p +:+ r.
Proof.
  revert s. induction p as [|c p IH]; intros s; simpl.
  - naive_solver.
  - rewrite string_app_cons. destruct (expect c s) as [s'|] eqn:E; simpl.
    + apply expect_spec in E as ->. rewrite IH.
      split; [by intros ->|by intros [= ->]].
    + split; [done|]. intros ->. simpl in E. by case_bool_decide.
Qed.

Lemma take_class_spec n p s a b :
  take_class n p s = Some (a, b) ↔
  s = a +:+ b ∧ String.length a = n ∧ string_forall p a = true.
Proof.
  revert s a b. induction n as [|n IH]; intros s a b; simpl.
  - split.
    + intros [= <- <-]. done.
    + intros (-> & Hl & _). by destruct a.
  - destruct s as [|c s].
    + split; [done|]. intros (H & Hl & _). by destruct a.
    + destruct (p c) eqn:Hc.
      * destruct (take_class n p s) as [[a' b']|] eqn:E; simpl.
        -- apply IH in E as (-> & <- & Hp). split.
           ++ intros [= <- <-]. rewrite string_app_cons. simpl.
              by rewrite Hc, Hp.
           ++ intros (H & Hl & Hf). destruct a as [|x a]; [done|].
              rewrite string_app_cons in H. injection H as -> H.
              simpl in Hl, Hf. injection Hl as Hl.
              rewrite Hc in Hf. simpl in Hf.
              assert (take_class (String.length a') p (a' +:+ b')
                      = Some (a, b)) as E'.
              { apply IH. done. }
              assert (take_class (String.length a') p (a' +:+ b')
                      = Some (a', b')) as E''.
              { by apply IH. }
              congruence.
        -- split; [done|]. intros (H & Hl & Hf).
           destruct a as [|x a]; [done|].
           rewrite string_app_cons in H. injection H as -> H.
           simpl in Hl, Hf. injection Hl as Hl. rewrite Hc in Hf.
           assert (take_class n p s = Some (a, b)) as E'.
           { apply IH. done. }
           congruence.
      * split; [done|]. intros (H & Hl & Hf).
        destruct a as [|x a]; [done|].
        rewrite string_app_cons in H. injection H as -> H.
        simpl in Hf. by rewrite Hc in Hf.
Qed.

Lemma digit_char_value c :
  is_digit c = true →
  digit_char (digit_value c) = c ∧ (0 ≤ digit_value c ≤ 9)%Z.
Proof.
  unfold is_digit, between, digit_char, digit_value, code. intros H.
  apply andb_prop in H as [H1 H2].
  apply Nat.leb_le in H1. apply Nat.leb_le in H2.
  split; [|lia].
  rewrite Nat2Z.id.
  replace (48 + (nat_of_ascii c - 48))%nat with (nat_of_ascii c) by lia.
  apply ascii_nat_embedding.
Qed.

Lemma digit_value_char k :
  (0 ≤ k ≤ 9)%Z → is_digit (digit_char k) = true ∧ digit_value (digit_char k) = k.
Proof.
  intros H.
  assert (k = 0 ∨ k = 1 ∨ k = 2 ∨ k = 3 ∨ k = 4 ∨ k = 5 ∨ k = 6 ∨ k = 7
          ∨ k = 8 ∨ k = 9)%Z as Hk by lia.
  repeat (destruct Hk as [->|Hk]; [done|]). by subst.
Qed.

Lemma zero_padded_cons n d w :
  (0 ≤ d ≤ 9)%Z → (0 ≤ w < 10 ^ Z.of_nat n)%Z →
  zero_padded (S n) (d * 10 ^ Z.of_nat n + w)
  = String (digit_char d) (zero_padded n w).
Proof.
  revert w. induction n as [|n IH]; intros w Hd Hw.
  - change (10 ^ Z.of_nat 0)%Z with 1%Z in *.
    assert (w = 0)%Z as -> by lia.
    replace (d * 1 + 0)%Z with d by lia.
    cbn [zero_padded]. rewrite Z.mod_small by lia. done.
  - rewrite Nat2Z.inj_succ, Z.pow_succ_r in * by lia.
    change (zero_padded (S (S n)) ?x)
      with (zero_padded (S n) (x / 10) +:+ String (digit_char (x mod 10)) EmptyString).
    replace ((d * (10 * 10 ^ Z.of_nat n) + w) / 10)%Z
      with (d * 10 ^ Z.of_nat n + w / 10)%Z.
    2:{ replace (d * (10 * 10 ^ Z.of_nat n) + w)%Z
          with (w + (d * 10 ^ Z.of_nat n) * 10)%Z by lia.
        rewrite Z.div_add by lia. lia. }
    replace ((d * (10 * 10 ^ Z.of_nat n) + w) mod 10)%Z with (w mod 10)%Z.
    2:{ replace (d * (10 * 10 ^ Z.of_nat n) + w)%Z
          with (w + (d * 10 ^ Z.of_nat n) * 10)%Z by lia.
        by rewrite Z.mod_add by lia. }
    rewrite IH; [|done|].
    2:{ split; [apply Z.div_pos; lia|].
        apply Z.div_lt_upper_bound; lia. }
    by rewrite string_app_cons.
Qed.

Lemma take_digits_spec n acc s v rest :
  take_digits n acc s = Some (v, rest) ↔
  ∃ w, (0 ≤ w < 10 ^ Z.of_nat n)%Z ∧ v = (acc * 10 ^ Z.of_nat n + w)%Z
       ∧ s = zero_padded n w +:+ rest.
Proof.
  revert acc s. induction n as [|n IH]; intros acc s.
  - simpl. split.
    + intros [= <- <-]. exists 0%Z. split; [lia|]. split; [lia|done].
    + intros (w & Hw & -> & ->). assert (w = 0)%Z as -> by lia.
      do 2 f_equal. lia.
  - rewrite Nat2Z.inj_succ, Z.pow_succ_r by lia.
    destruct s as [|c s]; simpl.
    + split; [done|]. intros (w & Hw & -> & H).
      destruct (zero_padded n (w / 10)); done.
    + destruct (is_digit c) eqn:Hc.
      * apply digit_char_value in Hc as Hc'. destruct Hc' as [Hc1 Hc2].
        rewrite IH. split.
        -- intros (w & Hw & -> & ->).
           exists (digit_value c * 10 ^ Z.of_nat n + w)%Z.
           split; [nia|]. split; [lia|].
           change (zero_padded n ((digit_value c * 10 ^ Z.of_nat n + w) / 10)
                   +:+ String (digit_char ((digit_value c * 10 ^ Z.of_nat n + w) mod 10)) EmptyString)
             with (zero_padded (S n) (digit_value c * 10 ^ Z.of_nat n + w)).
           rewrite zero_padded_cons by done. by rewrite Hc1, string_app_cons.
        -- intros (w & Hw & -> & H).
           pose proof (Z.pow_pos_nonneg 10 (Z.of_nat n)) as Hpos.
           set (d := (w / 10 ^ Z.of_nat n)%Z).
           set (w' := (w mod 10 ^ Z.of_nat n)%Z).
           assert (w = d * 10 ^ Z.of_nat n + w')%Z as Hw'.
           { unfold d, w'. rewrite (Z.div_mod w (10 ^ Z.of_nat n)) at 1 by lia. lia. }
           assert (0 ≤ w' < 10 ^ Z.of_nat n)%Z by (apply Z.mod_pos_bound; lia).
           assert (0 ≤ d ≤ 9)%Z.
           { unfold d. split; [apply Z.div_pos; lia|].
             apply Z.lt_succ_r. apply Z.div_lt_upper_bound; lia. }
           change (zero_padded n (w / 10) +:+ String (digit_char (w mod 10)) EmptyString)
             with (zero_padded (S n) w) in H.
           rewrite Hw', zero_padded_cons, string_app_cons in H by done.
           injection H as -> ->.
           exists w'. split; [done|]. split; [|done].
           destruct (digit_value_char d) as [_ ->]; [done|]. lia.
      * split; [done|]. intros (w & Hw & -> & H).
        change (zero_padded n (w / 10) +:+ String (digit_char (w mod 10)) EmptyString)
          with (zero_padded (S n) w) in H.
        pose proof (Z.pow_pos_nonneg 10 (Z.of_nat n)) as Hpos.
        set (d := (w / 10 ^ Z.of_nat n)%Z).
        set (w' := (w mod 10 ^ Z.of_nat n)%Z).
        assert (w = d * 10 ^ Z.of_nat n + w')%Z as Hw'.
        { unfold d, w'. rewrite (Z.div_mod w (10 ^ Z.of_nat n)) at 1 by lia. lia. }
        assert (0 ≤ w' < 10 ^ Z.of_nat n)%Z by (apply Z.mod_pos_bound; lia).
        assert (0 ≤ d ≤ 9)%Z.
        { unfold d. split; [apply Z.div_pos; lia|].
          apply Z.lt_succ_r. apply Z.div_lt_upper_bound; lia. }
        rewrite Hw', zero_padded_cons, string_app_cons in H by done.
        injection H as -> ->.
        destruct (digit_value_char d) as [Hd _]; [done|]. congruence.
Qed.
Lemma string_forall_app p a b :
  string_forall p (a +:+ b) = string_forall p a && string_forall p b.
Proof.
  induction a as [|c a IH]; [done|].
  rewrite string_app_cons. cbn [string_forall]. rewrite IH.
  by rewrite andb_assoc.
Qed.

Lemma string_length_app a b :
  String.length (a +:+ b) = (String.length a + String.length b)%nat.
Proof.
  induction a as [|c a IH]; [done|].
  rewrite string_app_cons. cbn [String.length]. by rewrite IH.
Qed.

Lemma zero_padded_digits n w :
  string_forall is_digit (zero_padded n w) = true
  ∧ String.length (zero_padded n w) = n.
Proof.
  revert w. induction n as [|n IH]; intros w; [done|].
  cbn [zero_padded]. rewrite string_forall_app, string_length_app.
  destruct (IH (w / 10)%Z) as [-> ->]. cbn [string_forall String.length].
  destruct (digit_value_char (w mod 10)) as [-> _].
  { pose proof (Z.mod_pos_bound w 10). lia. }
  split; [done|lia].
Qed.

Lemma days_in_month_bound y m : (28 ≤ days_in_month y m ≤ 31)%Z.
Proof.
  unfold days_in_month.
  repeat (case_match; try lia).
Qed.

Lemma date_fromisoformat_spec s d :
  date_fromisoformat s = Some d ↔ valid_date d = true ∧ s = isoformat d.
Proof.
  unfold date_fromisoformat, isoformat. split.
  - intros H.
    apply bind_Some in H as ([y s1] & E1 & H). cbv beta iota in H.
    apply bind_Some in H as (s2 & E2 & H).
    apply bind_Some in H as ([mo s3] & E3 & H). cbv beta iota in H.
    apply bind_Some in H as (s4 & E4 & H).
    apply bind_Some in H as ([dd s5] & E5 & H). cbv beta iota in H.
    destruct (bool_decide (s5 = EmptyString)) eqn:E6; [|done].
    destruct (valid_date (Date y mo dd)) eqn:E7; [|done].
    injection H as <-. split; [done|].
    apply bool_decide_eq_true in E6 as ->.
    apply take_digits_spec in E1 as (w1 & _ & -> & ->).
    apply expect_spec in E2 as ->.
    apply take_digits_spec in E3 as (w3 & _ & -> & ->).
    apply expect_spec in E4 as ->.
    apply take_digits_spec in E5 as (w5 & _ & -> & ->).
    cbn [year month day].
    rewrite !Z.mul_0_l, !Z.add_0_l, string_app_nil_r. done.
  - intros [Hv ->]. destruct d as [y mo dd].
    unfold valid_date in Hv. cbn [year month day] in *.
    pose proof (days_in_month_bound y mo).
    repeat (apply andb_prop in Hv as [Hv ?]).
    apply bind_Some.
    exists (y, "-" +:+ zero_padded 2 mo +:+ "-" +:+ zero_padded 2 dd). split.
    { apply take_digits_spec. exists y.
      split; [change (10 ^ Z.of_nat 4)%Z with 10000%Z; lia|]. split; [lia|done]. }
    cbv beta iota. apply bind_Some.
    exists (zero_padded 2 mo +:+ "-" +:+ zero_padded 2 dd).
    split; [by apply expect_spec|].
    apply bind_Some. exists (mo, "-" +:+ zero_padded 2 dd). split.
    { apply take_digits_spec. exists mo.
      split; [change (10 ^ Z.of_nat 2)%Z with 100%Z; lia|]. split; [lia|done]. }
    cbv beta iota. apply bind_Some. exists (zero_padded 2 dd).
    split; [by apply expect_spec|].
    apply bind_Some. exists (dd, EmptyString). split.
    { apply take_digits_spec. exists dd.
      split; [change (10 ^ Z.of_nat 2)%Z with 100%Z; lia|]. split; [lia|].
      by rewrite string_app_nil_r. }
    cbv beta iota. rewrite bool_decide_eq_true_2 by done.
    unfold valid_date. cbn [year month day andb].
    repeat (rewrite (proj2 (Z.leb_le _ _)) by lia). done.
Qed.

Lemma date_pattern_match_prefix name g :
  date_pattern_match name = Some g →
  ∃ rest, name = "mactop_data_" +:+ g +:+ ".csv" +:+ rest.
Proof.
  unfold date_pattern_match. intros H.
  apply bind_Some in H as (s0 & E0 & H).
  apply bind_Some in H as ([y s1] & E1 & H). cbv beta iota in H.
  apply bind_Some in H as (s2 & E2 & H).
  apply bind_Some in H as ([mo s3] & E3 & H). cbv beta iota in H.
  apply bind_Some in H as (s4 & E4 & H).
  apply bind_Some in H as ([dd s5] & E5 & H). cbv beta iota in H.
  apply bind_Some in H as (rest & E6 & H).
  injection H as <-. exists rest.
  apply after_prefix_spec in E0 as ->.
  apply take_class_spec in E1 as (-> & _ & _).
  apply expect_spec in E2 as ->.
  apply take_class_spec in E3 as (-> & _ & _).
  apply expect_spec in E4 as ->.
  apply take_class_spec in E5 as (-> & _ & _).
  apply after_prefix_spec in E6 as ->.
  f_equal; by rewrite ?string_app_assoc.
Qed.

Lemma date_pattern_match_daily d rest :
  date_pattern_match ("mactop_data_" +:+ isoformat d +:+ ".csv" +:+ rest)
  = Some (isoformat d).
Proof.
  unfold date_pattern_match, isoformat.
  destruct (zero_padded_digits 4 (year d)) as [Hy1 Hy2].
  destruct (zero_padded_digits 2 (month d)) as [Hm1 Hm2].
  destruct (zero_padded_digits 2 (day d)) as [Hd1 Hd2].
  set (y := zero_padded 4 (year d)) in *.
  set (m := zero_padded 2 (month d)) in *.
  set (dd := zero_padded 2 (day d)) in *.
  apply bind_Some.
  exists (y +:+ String "-" (m +:+ String "-" (dd +:+ ".csv" +:+ rest))).
  split.
  { apply after_prefix_spec. f_equal; by rewrite ?string_app_assoc. }
  apply bind_Some.
  exists (y, String "-" (m +:+ String "-" (dd +:+ ".csv" +:+ rest))).
  split; [by apply take_class_spec|]. cbv beta iota.
  apply bind_Some. exists (m +:+ String "-" (dd +:+ ".csv" +:+ rest)).
  split; [by apply expect_spec|].
  apply bind_Some. exists (m, String "-" (dd +:+ ".csv" +:+ rest)).
  split; [by apply take_class_spec|]. cbv beta iota.
  apply bind_Some. exists (dd +:+ ".csv" +:+ rest).
  split; [by apply expect_spec|].
  apply bind_Some. exists (dd, ".csv" +:+ rest).
  split; [by apply take_class_spec|]. cbv beta iota.
  apply bind_Some. exists rest.
  split; [by apply after_prefix_spec|]. done.
Qed.
Lemma matching_file_spec start_date end_date name :
  matching_file start_date end_date name = true ↔
  ∃ d rest, valid_date d = true
    ∧ name = "mactop_data_" +:+ isoformat d +:+ ".csv" +:+ rest
    ∧ in_date_range start_date end_date d = true.
Proof.
  unfold matching_file. split.
  - destruct (date_pattern_match name) as [g|] eqn:E; [|done].
    destruct (date_fromisoformat g) as [d|] eqn:E'; [|done].
    intros H. apply date_fromisoformat_spec in E' as [Hv ->].
    apply date_pattern_match_prefix in E as [rest ->].
    by exists d, rest.
  - intros (d & rest & Hv & -> & H).
    rewrite date_pattern_match_daily.
    by rewrite (proj2 (date_fromisoformat_spec _ d)).
Qed.

Lemma date_le_antisym a b :
  date_le a b && date_le b a = true ↔ a = b.
Proof.
  destruct a as [y1 m1 d1], b as [y2 m2 d2]. unfold date_le. simpl. split.
  - intros H. apply andb_prop in H as [H1 H2].
    repeat (apply orb_prop in H1 as [H1|H1] || apply andb_prop in H1 as [? H1]);
    repeat (apply orb_prop in H2 as [H2|H2] || apply andb_prop in H2 as [? H2]);
    f_equal; lia.
  - intros [= -> -> ->].
    rewrite !Z.eqb_refl, !Z.ltb_irrefl, !Z.leb_refl. done.
Qed.

(** X1: with a start or an end date, [find_csv_files] returns exactly
    the CSV files of the directory whose name starts with
    [mactop_data_], the ISO text of an existing date and [.csv], and
    whose date lies in the range; an end that is not given does not
    bound the date, and what follows [.csv] in the name is not looked
    at. *)
Theorem find_csv_files_selects
    (today : date) (glob : string → list string)
    (start_date end_date : option date) (name : string) :
  start_date ≠ None ∨ end_date ≠ None →
  name ∈ find_csv_files today glob start_date end_date ↔
  name ∈ glob "*.csv"
  ∧ ∃ d rest, valid_date d = true
      ∧ name = "mactop_data_" +:+ isoformat d +:+ ".csv" +:+ rest
      ∧ in_date_range start_date end_date d = true.
Proof.
  intros Hrange.
  assert (find_csv_files today glob start_date end_date
          = List.filter (matching_file start_date end_date) (glob "*.csv"))
    as ->.
  { unfold find_csv_files. destruct start_date, end_date; try done.
    by destruct Hrange. }
  rewrite list_elem_of_In, filter_In, <- list_elem_of_In.
  by rewrite matching_file_spec.
Qed.

Lemma find_csv_files_selects_witness :
  "mactop_data_2023-04-02.csv.old.csv"
  ∈ find_csv_files (Date 2023 4 2) example_glob
      (Some (Date 2023 4 2)) None.
Proof.
  apply find_csv_files_selects; [by left|]. split.
  - apply list_elem_of_In. vm_compute. tauto.
  - by exists (Date 2023 4 2), ".old.csv".
Defined.

Lemma matching_file_daily start_date end_date d :
  valid_date d = true →
  matching_file start_date end_date (CSV_FILENAME d)
  = in_date_range start_date end_date d.
Proof.
  intros Hv. unfold matching_file, CSV_FILENAME, strftime_ymd.
  rewrite <- (string_app_nil_r ".csv"), date_pattern_match_daily.
  by rewrite (proj2 (date_fromisoformat_spec _ d)).
Qed.

(** X2: the file that the recorder names for a day, through
    [get_daily_csv_path], is among the files that [run_analysis]
    analyses exactly when the day lies in the requested range, and,
    when no range is given, exactly when the day is today. *)
Theorem daily_file_analysed
    (today : date) (glob : string → list string)
    (start_date end_date : option date) (d : date) :
  valid_date d = true → (1000 ≤ year d)%Z →
  CSV_FILENAME d ∈ glob "*.csv" →
  CSV_FILENAME d ∈ analysis_files today glob start_date end_date ↔
  match start_date, end_date with
  | None, None => d = today
  | _, _ => in_date_range start_date end_date d = true
  end.
Proof.
  intros Hv _ Hin.
  assert (∀ s e, s ≠ None ∨ e ≠ None →
            CSV_FILENAME d ∈ find_csv_files today glob s e ↔
            in_date_range s e d = true) as Hfind.
  { intros s e Hse.
    assert (find_csv_files today glob s e
            = List.filter (matching_file s e) (glob "*.csv")) as ->.
    { unfold find_csv_files. destruct s, e; try done. by destruct Hse. }
    rewrite list_elem_of_In, filter_In, <- list_elem_of_In.
    rewrite matching_file_daily by done. split; [by intros [_ ?]|done]. }
  unfold analysis_files.
  destruct start_date as [s|], end_date as [e|].
  - apply Hfind. by left.
  - apply Hfind. by left.
  - apply Hfind. by right.
  - rewrite Hfind by (by left). unfold in_date_range.
    rewrite date_le_antisym. split; congruence.
Qed.

Lemma daily_file_analysed_witness :
  CSV_FILENAME (Date 2023 4 2)
  ∈ analysis_files (Date 2023 4 2) example_glob None None.
Proof.
  apply (daily_file_analysed (Date 2023 4 2) example_glob None None
           (Date 2023 4 2)).
  - reflexivity.
  - simpl. lia.
  - apply list_elem_of_In. vm_compute. tauto.
  - reflexivity.
Defined.

Lemma scan_all_filter scan_csv file_paths :
  scan_all scan_csv (List.filter (loadable scan_csv) file_paths)
  = scan_all scan_csv file_paths.
Proof.
  induction file_paths as [|p ps IH]; [done|].
  simpl. unfold loadable at 1.
  destruct (scan_csv p) eqn:E; simpl; [|done].
  by rewrite E, IH.
Qed.

(** X3: a file that cannot be read has no effect on the load: loading
    a list of files gives what loading its readable files gives, the
    same frame or the same exception. *)
Theorem load_data_skips_unreadable
    (scan_csv : string → result DataFrame)
    (strptime : string → DataFrame → result DataFrame)
    (clean_timestamps : DataFrame → result DataFrame)
    (file_paths : list string) :
  load_data scan_csv strptime clean_timestamps file_paths
  = load_data scan_csv strptime clean_timestamps
      (List.filter (loadable scan_csv) file_paths).
Proof.
  unfold load_data. rewrite scan_all_filter.
  destruct file_paths as [|p ps]; [done|].
  destruct (List.filter (loadable scan_csv) (p :: ps)) as [|q qs] eqn:E;
    [|done].
  rewrite <- scan_all_filter, E. done.
Qed.
(** *** Derived metrics *)

Lemma percent_of_total_bounds c r total used :
  number r "memory_total" = Some total →
  number r c = Some used →
  (0 <= used)%Q → (used <= total)%Q →
  ∃ p, percent_of_total c r = VNum p ∧ (0 <= p)%Q ∧ (p <= 100)%Q.
Proof.
  intros Ht Hu H0 H1. unfold percent_of_total. rewrite Ht.
  destruct (decide (0 < total)%Q) as [Hpos|Hpos].
  - rewrite Hu. eexists. split; [done|].
    assert (0 <= used / total)%Q by (apply Qle_shift_div_l; lra).
    assert (used / total <= 1)%Q by (apply Qle_shift_div_r; lra).
    split; lra.
  - eexists. split; [done|]. split; lra.
Qed.

(** X4: for a row whose counters are numbers with
    [0 <= memory_used <= memory_total] the derived [ram_percent] is a
    number between 0 and 100, and likewise [swap_pressure_percent] when
    [0 <= memory_swap_used <= memory_total]. *)
Theorem derived_percent_in_range (df df' : DataFrame) (i : nat)
    (r r' : gmap string datum) (total : Q) :
  calculate_derived_metrics df = Ok df' →
  rows df !! i = Some r → rows df' !! i = Some r' →
  number r "memory_total" = Some total →
  (∀ used, number r "memory_used" = Some used →
     (0 <= used)%Q → (used <= total)%Q →
     ∃ p, r' !! "ram_percent" = Some (VNum p) ∧ (0 <= p)%Q ∧ (p <= 100)%Q)
  ∧ (∀ used, number r "memory_swap_used" = Some used →
       (0 <= used)%Q → (used <= total)%Q →
       ∃ p, r' !! "swap_pressure_percent" = Some (VNum p)
            ∧ (0 <= p)%Q ∧ (p <= 100)%Q).
Proof.
  intros Hcalc Hr Hr' Ht.
  apply calculate_derived_metrics_inv in Hcalc.
  rewrite Hcalc, list_lookup_fmap, Hr in Hr'. injection Hr' as <-.
  unfold derived_row. split; intros used Hu H0 H1.
  - rewrite lookup_insert_ne, lookup_insert_eq by done.
    destruct (percent_of_total_bounds "memory_used" r total used)
      as (p & -> & ?); eauto.
  - rewrite lookup_insert_eq.
    destruct (percent_of_total_bounds "memory_swap_used"
                (<["ram_percent" := percent_of_total "memory_used" r]> r)
                total used) as (p & -> & ?); eauto;
      by rewrite number_insert_ne.
Qed.

Lemma derived_percent_in_range_witness :
  ∃ p, derived_row (memory_row "2023-04-01 12:00:00"
                      8589934592 17179869184 1073741824) !! "ram_percent"
       = Some (VNum p) ∧ (0 <= p)%Q ∧ (p <= 100)%Q.
Proof.
  assert (calculate_derived_metrics memory_frame = Ok derived_frame) as H1
    by (vm_compute; reflexivity).
  pose proof (derived_percent_in_range memory_frame derived_frame 0
                (memory_row "2023-04-01 12:00:00"
                   8589934592 17179869184 1073741824)
                (derived_row (memory_row "2023-04-01 12:00:00"
                                8589934592 17179869184 1073741824))
                17179869184%Q H1 eq_refl eq_refl eq_refl) as [H _].
  apply (H 8589934592%Q); [reflexivity|vm_compute; discriminate..].
Defined.

Lemma assoc_set_dtype (c : string) ty (s : list (string * dtype)) :
  assoc c (set_dtype c ty s) = Some ty.
Proof.
  induction s as [|[c' ty'] s IH]; simpl.
  - by rewrite bool_decide_eq_true_2.
  - case_bool_decide as Hc; simpl.
    + by rewrite bool_decide_eq_true_2.
    + by rewrite bool_decide_eq_false_2.
Qed.

Lemma set_dtype_id (c : string) ty (s : list (string * dtype)) :
  assoc c s = Some ty → set_dtype c ty s = s.
Proof.
  induction s as [|[c' ty'] s IH]; simpl; [done|].
  case_bool_decide as Hc.
  - intros [= ->]. by subst.
  - intros H. by rewrite IH.
Qed.

Lemma calculate_derived_metrics_frame df df' :
  calculate_derived_metrics df = Ok df' →
  numeric_column df "memory_total" = Ok ()
  ∧ numeric_column df "memory_used" = Ok ()
  ∧ numeric_column df "memory_swap_used" = Ok ()
  ∧ df' = {| schema := set_dtype "swap_pressure_percent" Float64
                         (set_dtype "ram_percent" Float64 (schema df));
             rows := map derived_row (rows df) |}.
Proof.
  unfold calculate_derived_metrics.
  destruct (numeric_column df "memory_total") as [[]|] eqn:E1; [|done].
  destruct (numeric_column df "memory_used") as [[]|] eqn:E2; [|done].
  cbn [mbind result_bind].
  rewrite !numeric_column_with_column by done. rewrite E1.
  destruct (numeric_column df "memory_swap_used") as [[]|] eqn:E3; [|done].
  cbn [mbind result_bind]. intros [= <-]. repeat split.
  unfold with_column. cbn [schema rows]. f_equal.
  by rewrite map_map.
Qed.

Lemma percent_of_total_derived_row c r :
  c ≠ "ram_percent" → c ≠ "swap_pressure_percent" →
  percent_of_total c (derived_row r) = percent_of_total c r.
Proof.
  intros H1 H2. unfold percent_of_total, derived_row.
  by rewrite !number_insert_ne.
Qed.

Lemma derived_row_idempotent r : derived_row (derived_row r) = derived_row r.
Proof.
  unfold derived_row at 1.
  rewrite percent_of_total_derived_row by done.
  rewrite (insert_id (derived_row r) "ram_percent").
  2:{ unfold derived_row. by rewrite lookup_insert_ne, lookup_insert_eq. }
  rewrite percent_of_total_derived_row by done.
  apply insert_id. unfold derived_row. rewrite lookup_insert_eq.
  unfold percent_of_total. by rewrite !number_insert_ne.
Qed.
(** X5: the derived-metric calculation is idempotent: applied to a
    frame that it has returned, it returns that frame again (the two
    derived columns are recomputed from the counters, which it does not
    change). *)
Theorem calculate_derived_metrics_idempotent (df df' : DataFrame) :
  calculate_derived_metrics df = Ok df' →
  calculate_derived_metrics df' = Ok df'.
Proof.
  intros H. apply calculate_derived_metrics_frame in H as (H1 & H2 & H3 & ->).
  set (df' := {| schema := _; rows := _ |}).
  assert (∀ c, c ≠ "ram_percent" → c ≠ "swap_pressure_percent" →
               numeric_column df' c = numeric_column df c) as Hnum.
  { intros c Hc1 Hc2. unfold numeric_column, df'. cbn [schema].
    by rewrite !assoc_set_dtype_ne. }
  unfold calculate_derived_metrics.
  rewrite !numeric_column_with_column by done.
  rewrite !Hnum by done. rewrite H1, H2, H3. cbn [mbind result_bind].
  f_equal. unfold with_column, df'. cbn [schema rows]. f_equal.
  - rewrite (set_dtype_id "ram_percent").
    2:{ rewrite assoc_set_dtype_ne by done. apply assoc_set_dtype. }
    apply set_dtype_id, assoc_set_dtype.
  - rewrite map_map. rewrite map_map.
    apply map_ext. intros r. apply (derived_row_idempotent r).
Qed.

Lemma calculate_derived_metrics_idempotent_witness :
  calculate_derived_metrics derived_frame = Ok derived_frame.
Proof.
  apply (calculate_derived_metrics_idempotent memory_frame).
  vm_compute. reflexivity.
Defined.

(** *** Statistics of the data frame *)

Section frame_statistics.
Variables col_min col_max col_mean col_median col_std
  : list datum → option Q.
Variable col_quantile : Q → list datum → option Q.

Lemma calculate_statistics_fold df metrics
    (record_of : string → gmap string (option Q))
    (acc : gmap string (gmap string (option Q))) metric :
  fold_left
    (λ stats m,
       if has_column df m then <[m := record_of m]> stats else stats)
    metrics acc !! metric
  = if bool_decide (metric ∈ metrics) && has_column df metric
    then Some (record_of metric) else acc !! metric.
Proof.
  revert acc. induction metrics as [|m metrics IH]; intros acc; simpl.
  - done.
  - rewrite IH. destruct (decide (metric ∈ metrics)) as [Hin|Hin].
    + rewrite (bool_decide_eq_true_2 (metric ∈ m :: metrics)) by (by right).
      rewrite (bool_decide_eq_true_2 (metric ∈ metrics)) by done. simpl.
      destruct (has_column df metric) eqn:Hc; [done|].
      destruct (has_column df m) eqn:Hm; [|done].
      rewrite lookup_insert_ne; [done|]. congruence.
    + rewrite (bool_decide_eq_false_2 (metric ∈ metrics)) by done. simpl.
      destruct (decide (metric = m)) as [->|Hne].
      * rewrite bool_decide_eq_true_2 by left. simpl.
        destruct (has_column df m); [by rewrite lookup_insert_eq|done].
      * rewrite bool_decide_eq_false_2.
        2:{ intros [?|?]%elem_of_cons; done. }
        simpl. destruct (has_column df m); [|done].
        by rewrite lookup_insert_ne.
Qed.

Lemma frame_statistics_lookup (df : DataFrame) (metrics : list string)
    (metric : string) :
  Analyze.calculate_statistics col_min col_max col_mean col_median col_std
    col_quantile df metrics !! metric
  = if bool_decide (metric ∈ metrics) && has_column df metric
    then Some (metric_statistics col_min col_max col_mean col_median
                 col_std col_quantile df metric)
    else None.
Proof.
  unfold Analyze.calculate_statistics.
  rewrite (calculate_statistics_fold df metrics
             (metric_statistics col_min col_max col_mean col_median
                col_std col_quantile df) ∅ metric).
  by rewrite lookup_empty.
Qed.

(** X6: the statistics of a frame have an entry for a metric exactly
    when the metric is requested and is a column of the frame; a
    requested metric that is no column is skipped without an error, and
    the entry is the record of the eight aggregations of the column
    ([min], [max], [mean], [median], [p50], [p75], [p95], [std]). *)
Theorem frame_statistics_entries (df : DataFrame) (metrics : list string)
    (metric : string) :
  Analyze.calculate_statistics col_min col_max col_mean col_median col_std
    col_quantile df metrics !! metric
  = (if bool_decide (metric ∈ metrics) && has_column df metric
     then Some (metric_statistics col_min col_max col_mean col_median
                  col_std col_quantile df metric)
     else None)
  ∧ dom (metric_statistics col_min col_max col_mean col_median col_std
           col_quantile df metric)
    = {[ "min"; "max"; "mean"; "median"; "p50"; "p75"; "p95"; "std" ]}.
Proof.
  split.
  - apply frame_statistics_lookup.
  - unfold metric_statistics. rewrite !dom_insert_L, dom_singleton_L.
    set_solver.
Qed.
End frame_statistics.
(** *** Heat map *)

Lemma filter_bucket_none (rs : list (gmap string datum))
    (k : option Z * option Z) :
  k ∉ bucket_of <$> rs → filter (λ r, bucket_of r = k) rs = [].
Proof.
  induction rs as [|r rs IH]; [done|].
  rewrite fmap_cons, not_elem_of_cons. intros [Hne Hnin].
  rewrite filter_cons_False by done. by apply IH.
Qed.

Lemma group_values_fold (metric : string) (rs : list (gmap string datum))
    (g : gmap (option Z * option Z) (list Q)) (k : option Z * option Z) :
  fold_left
    (λ groups r,
       let k := bucket_of r in
       let old := default [] (groups !! k) in
       <[k := match number r metric with
              | Some x => old ++ [x]
              | None => old
              end]> groups) rs g !! k
  = if bool_decide (k ∈ bucket_of <$> rs)
    then Some (default [] (g !! k)
               ++ omap (λ r, number r metric)
                    (filter (λ r, bucket_of r = k) rs))
    else g !! k.
Proof.
  revert g. induction rs as [|r rs IH]; intros g.
  - done.
  - cbn [fold_left]. rewrite IH. cbv zeta.
    destruct (decide (bucket_of r = k)) as [Hk|Hk].
    + rewrite (bool_decide_eq_true_2 (k ∈ bucket_of <$> r :: rs)).
      2:{ rewrite fmap_cons, Hk. left. }
      rewrite filter_cons_True by done. cbn [omap list_omap].
      rewrite Hk, lookup_insert_eq. cbn [default].
      case_bool_decide as Hin.
      * unfold id. destruct (number r metric); [by rewrite <- app_assoc|done].
      * rewrite filter_bucket_none by done. cbn [omap list_omap].
        unfold id. destruct (number r metric); by rewrite ?app_nil_r.
    + rewrite filter_cons_False by done.
      rewrite lookup_insert_ne by done.
      rewrite fmap_cons.
      destruct (decide (k ∈ bucket_of <$> rs)) as [Hin|Hin].
      * rewrite !bool_decide_eq_true_2; [done|by right|done].
      * rewrite !bool_decide_eq_false_2; [done| |done].
        rewrite not_elem_of_cons. split; [congruence|done].
Qed.

Lemma prepare_heatmap_data_inv df metric heatmap :
  prepare_heatmap_data df metric = Ok heatmap →
  heatmap = if has_column df "timestamp" && has_column df metric
            then mean <$> group_values df metric else ∅.
Proof.
  unfold prepare_heatmap_data.
  destruct (has_column df "timestamp"), (has_column df metric);
    cbn [negb orb andb]; try by intros [= <-].
  destruct (assoc "timestamp" (schema df)) as [[]|]; try done.
  by intros [= <-].
Qed.

Lemma heatmap_lookup (df : DataFrame) (metric : string)
    (heatmap : gmap (option Z * option Z) (option Q))
    (k : option Z * option Z) :
  prepare_heatmap_data df metric = Ok heatmap →
  heatmap !! k
  = if has_column df "timestamp" && has_column df metric
       && bool_decide (k ∈ bucket_of <$> rows df)
    then Some (mean (bucket_values df metric k))
    else None.
Proof.
  intros ->%prepare_heatmap_data_inv.
  destruct (has_column df "timestamp" && has_column df metric);
    cbn [andb]; [|done].
  rewrite lookup_fmap. unfold group_values.
  rewrite (group_values_fold metric (rows df) ∅ k).
  case_bool_decide; [|done]. by rewrite lookup_empty.
Qed.



Lemma weekday_hour_range t :
  (1 ≤ weekday t ≤ 7)%Z ∧ (0 ≤ hour t ≤ 23)%Z.
Proof.
  unfold weekday, hour, day_micros, hour_micros.
  pose proof (Z.mod_pos_bound (t / 86400000000) 7).
  pose proof (Z.mod_pos_bound t 86400000000).
  split; [lia|]. split.
  - apply Z.div_pos; lia.
  - apply Z.lt_succ_r, Z.div_lt_upper_bound; lia.
Qed.

(** X8: every key of a heat map is a pair of a day of the week between
    1 and 7 and an hour between 0 and 23, or the pair of two nulls
    (the rows without a time stamp); a frame without the [timestamp]
    column or without the metric column has the empty heat map. *)
Theorem heatmap_keys_in_range (df : DataFrame) (metric : string)
    (heatmap : gmap (option Z * option Z) (option Q)) :
  prepare_heatmap_data df metric = Ok heatmap →
  (has_column df "timestamp" && has_column df metric = false →
   heatmap = ∅)
  ∧ ∀ k, is_Some (heatmap !! k) →
      k = (None, None)
      ∨ ∃ d h, k = (Some d, Some h) ∧ (1 ≤ d ≤ 7)%Z ∧ (0 ≤ h ≤ 23)%Z.
Proof.
  intros H. split.
  - apply prepare_heatmap_data_inv in H as ->. by intros ->.
  - intros k. rewrite (heatmap_lookup df metric heatmap k H).
    destruct (has_column df "timestamp" && has_column df metric);
      cbn [andb]; [|by intros [? ?]].
    case_bool_decide as Hin; [|by intros [? ?]]. intros _.
    apply list_elem_of_fmap in Hin as (r & -> & _).
    unfold bucket_of. destruct (r !! "timestamp") as [[| | |t]|]; auto.
    right. exists (weekday t), (hour t).
    by destruct (weekday_hour_range t).
Qed.

Lemma heatmap_keys_in_range_witness :
  (Some 1, Some 8)%Z = (None, None)
  ∨ ∃ d h, (Some 1, Some 8)%Z = (Some d, Some h)
           ∧ (1 ≤ d ≤ 7)%Z ∧ (0 ≤ h ≤ 23)%Z.
Proof.
  apply (proj2 (heatmap_keys_in_range heatmap_frame "test_metric" _ eq_refl)
           (Some 1, Some 8)%Z).
  vm_compute. by eexists.
Defined.
(** *** Sufficiency *)

(** X9: for statistics records of numbers, a metric whose record is
    ordered, [0 <= p75 <= p95 <= max], receives a score between 0 and
    1. *)
Theorem sufficiency_in_unit_interval
    (stats : gmap string (gmap string (option Q)))
    (metric : string) (metric_stats : gmap string (option Q))
    (p75 p95 max_val : Q) :
  float_stats stats →
  stats !! metric = Some metric_stats →
  metric_stats !! "p75" = Some (Some p75) →
  metric_stats !! "p95" = Some (Some p95) →
  metric_stats !! "max" = Some (Some max_val) →
  (0 <= p75)%Q → (p75 <= p95)%Q → (p95 <= max_val)%Q →
  ∃ sufficiency s,
    calculate_sufficiency_metrics stats = Ok sufficiency
    ∧ sufficiency !! metric = Some s ∧ (0 <= s)%Q ∧ (s <= 1)%Q.
Proof.
  intros Hf Hm H75 H95 Hmax H0 H1 H2.
  rewrite (calculate_sufficiency_metrics_float stats Hf).
  eexists _, _. split; [done|].
  rewrite lookup_omap, Hm. cbn [mbind option_bind].
  unfold score_of. rewrite H75, H95, Hmax. split; [done|].
  destruct (decide (max_val == 0)%Q) as [Hz|Hz]; [split; lra|].
  assert (0 < max_val)%Q.
  { destruct (Qlt_le_dec 0 max_val) as [|Hle]; [done|].
    exfalso. apply Hz. lra. }
  split; [apply Qle_shift_div_l; lra|apply Qle_shift_div_r; lra].
Qed.

Lemma sufficiency_in_unit_interval_witness :
  ∃ sufficiency s,
    calculate_sufficiency_metrics example_stats = Ok sufficiency
    ∧ sufficiency !! "metric1" = Some s ∧ (0 <= s)%Q ∧ (s <= 1)%Q.
Proof.
  apply (sufficiency_in_unit_interval example_stats "metric1"
           {[ "p75" := Some 75%Q; "p95" := Some 95%Q; "max" := Some 100%Q ]}
           75 95 100);
    [apply example_stats_float|reflexivity..|
     vm_compute; discriminate|vm_compute; discriminate|
     vm_compute; discriminate].
Defined.

Lemma sufficiency_score_raises p75 p95 max_val :
  match Analyze.sufficiency_score p75 p95 max_val with
  | Ok _ =>
      ¬ (max_val = None
         ∨ ∃ m, max_val = Some m ∧ ¬ (m == 0)%Q ∧ (p75 = None ∨ p95 = None))
  | Raise e =>
      e = TypeError
      ∧ (max_val = None
         ∨ ∃ m, max_val = Some m ∧ ¬ (m == 0)%Q ∧ (p75 = None ∨ p95 = None))
  end.
Proof.
  unfold Analyze.sufficiency_score. destruct max_val as [m|].
  - destruct (decide (m == 0)%Q) as [Hz|Hz].
    + intros [?|(m' & [= <-] & Hm & _)]; done.
    + destruct p95 as [a|], p75 as [b|].
      * intros [?|(m' & [= <-] & _ & [?|?])]; done.
      * split; [done|]. right. exists m. auto.
      * split; [done|]. right. exists m. auto.
      * split; [done|]. right. exists m. auto.
  - split; [done|]. by left.
Qed.

Lemma sufficiency_step_raises metric metric_stats acc :
  match sufficiency_step metric metric_stats (Ok acc) with
  | Ok _ => ¬ null_gap metric_stats
  | Raise e => e = TypeError ∧ null_gap metric_stats
  end.
Proof.
  unfold sufficiency_step, null_gap. cbn [mbind result_bind].
  destruct (metric_stats !! "p75") as [p75|] eqn:E1;
    [|by intros (? & ? & ? & ? & _)].
  destruct (metric_stats !! "p95") as [p95|] eqn:E2;
    [|by intros (? & ? & ? & _ & ? & _)].
  destruct (metric_stats !! "max") as [max_val|] eqn:E3;
    [|by intros (? & ? & ? & _ & _ & ? & _)].
  pose proof (sufficiency_score_raises p75 p95 max_val) as H.
  destruct (Analyze.sufficiency_score p75 p95 max_val) as [gap|e];
    cbn [mbind result_bind].
  - intros (a & b & c & [= <-] & [= <-] & [= <-] & Hc). by apply H.
  - destruct H as [-> H]. split; [done|]. by exists p75, p95, max_val.
Qed.

(** X10: the sufficiency calculation raises [TypeError] exactly when
    some statistics record that has the three fields [p75], [p95] and
    [max] has a null [max], or a [max] other than 0 together with a
    null [p75] or [p95] (the statistics of a column without values are
    null); it raises no other exception, and it returns a result when
    there is no such record. *)
Theorem sufficiency_null_statistics
    (stats : gmap string (gmap string (option Q))) :
  match calculate_sufficiency_metrics stats with
  | Ok _ =>
      ∀ metric metric_stats,
        stats !! metric = Some metric_stats → ¬ null_gap metric_stats
  | Raise e =>
      e = TypeError
      ∧ ∃ metric metric_stats,
          stats !! metric = Some metric_stats ∧ null_gap metric_stats
  end
  ∧ calculate_sufficiency_metrics null_stats = Raise TypeError.
Proof.
  split; [|by vm_compute].
  unfold calculate_sufficiency_metrics.
  apply (map_fold_weak_ind
           (λ (r : result (gmap string Q)) m,
              match r with
              | Ok _ =>
                  ∀ metric metric_stats,
                    m !! metric = Some metric_stats → ¬ null_gap metric_stats
              | Raise e =>
                  e = TypeError
                  ∧ ∃ metric metric_stats,
                      m !! metric = Some metric_stats ∧ null_gap metric_stats
              end)).
  - intros metric ms. by rewrite lookup_empty.
  - intros i x m r Hi IH. destruct r as [acc|e].
    + pose proof (sufficiency_step_raises i x acc) as H.
      destruct (sufficiency_step i x (Ok acc)) as [acc'|e].
      * intros metric ms. destruct (decide (i = metric)) as [->|Hne].
        -- rewrite lookup_insert_eq. by intros [= <-].
        -- rewrite lookup_insert_ne by done. apply IH.
      * destruct H as [-> H]. split; [done|]. exists i, x.
        by rewrite lookup_insert_eq.
    + destruct IH as [-> (metric & ms & Hm & Hgap)].
      unfold sufficiency_step. cbn [mbind result_bind]. split; [done|].
      exists metric, ms. split; [|done].
      rewrite lookup_insert_ne; [done|]. congruence.
Qed.
(** *** The analysis entry point *)

Lemma columns_set_dtype (c : string) ty (s : list (string * dtype)) k :
  k ∈ (set_dtype c ty s).*1 ↔ k = c ∨ k ∈ s.*1.
Proof.
  induction s as [|[c' ty'] s IH]; simpl.
  - rewrite list_elem_of_singleton, elem_of_nil. tauto.
  - case_bool_decide as Hc; simpl; rewrite !elem_of_cons.
    + subst. tauto.
    + rewrite IH. tauto.
Qed.

Lemma numeric_column_has_column df c :
  numeric_column df c = Ok () → has_column df c = true.
Proof.
  unfold numeric_column, has_column, columns. intros H.
  apply bool_decide_eq_true. induction (schema df) as [|[c' ty'] s IH].
  - done.
  - simpl in *. case_bool_decide as Hc.
    + subst. left.
    + right. by apply IH.
Qed.

Lemma derived_frame_columns df df' :
  calculate_derived_metrics df = Ok df' →
  Forall (λ c, has_column df' c = true)
    [ "ram_percent"; "swap_pressure_percent"; "memory_used";
      "memory_total"; "memory_swap_used" ].
Proof.
  intros H. apply calculate_derived_metrics_frame in H as (H1 & H2 & H3 & ->).
  apply numeric_column_has_column, bool_decide_eq_true in H1, H2, H3.
  unfold has_column, columns in *. cbn [schema].
  repeat apply Forall_cons_2; [..|apply Forall_nil_2];
    apply bool_decide_eq_true; rewrite !columns_set_dtype; auto.
Qed.

Lemma heatmaps_of_keys df targets h0 h :
  heatmaps_of df targets h0 = Ok h →
  ∀ m, is_Some (h !! m) ↔
       is_Some (h0 !! m) ∨ (m ∈ targets ∧ has_column df m = true).
Proof.
  revert h0. induction targets as [|t targets IH]; intros h0; simpl.
  - intros [= <-] m. rewrite elem_of_nil. tauto.
  - destruct (has_column df t) eqn:Ht.
    + destruct (prepare_heatmap_data df t) as [hd|]; [|done].
      cbn [mbind result_bind]. intros H m. rewrite (IH _ H m).
      rewrite elem_of_cons. destruct (decide (t = m)) as [->|Hne].
      * rewrite lookup_insert_eq. split; [|eauto]. intros _. right. auto.
      * rewrite lookup_insert_ne by done.
        split; [tauto|]. intros [?|[[->|?] ?]]; [tauto|done|tauto].
    + intros H m. rewrite (IH _ H m), elem_of_cons.
      split; [tauto|]. intros [?|[[->|?] Hc]]; [tauto|congruence|tauto].
Qed.

Lemma sufficiency_keys (stats : gmap string (gmap string (option Q))) suf :
  calculate_sufficiency_metrics stats = Ok suf →
  ∀ m, is_Some (suf !! m) → is_Some (stats !! m).
Proof.
  unfold calculate_sufficiency_metrics. revert suf.
  apply (map_fold_weak_ind
           (λ (r : result (gmap string Q)) st,
              ∀ suf, r = Ok suf →
                     ∀ m, is_Some (suf !! m) → is_Some (st !! m))).
  - intros suf [= <-] m. by rewrite lookup_empty.
  - intros i x st r Hi IH suf Hs m.
    destruct r as [acc|e]; [|done].
    unfold sufficiency_step in Hs. cbn [mbind result_bind] in Hs.
    destruct (decide (i = m)) as [->|Hne];
      [by rewrite lookup_insert_eq|].
    rewrite lookup_insert_ne by done.
    destruct (x !! "p75"), (x !! "p95"), (x !! "max");
      try (injection Hs as <-; by apply IH).
    destruct (Analyze.sufficiency_score _ _ _); [|done].
    cbn [mbind result_bind] in Hs. injection Hs as <-.
    rewrite lookup_insert_ne by done. by apply IH.
Qed.

Lemma add_raw_elem target m all_metrics k :
  k ∈ add_raw target m all_metrics ↔
  k ∈ all_metrics ∨ (k = m ∧ target ∈ all_metrics).
Proof.
  unfold add_raw.
  destruct (decide (target ∈ all_metrics)) as [Ht|Ht].
  - rewrite (bool_decide_eq_true_2 _ Ht). cbn [andb].
    destruct (decide (m ∈ all_metrics)) as [Hm|Hm].
    + rewrite (bool_decide_eq_true_2 _ Hm). cbn [negb].
      split; [tauto|]. intros [?|[-> _]]; done.
    + rewrite (bool_decide_eq_false_2 _ Hm). cbn [negb].
      rewrite elem_of_app, list_elem_of_singleton. tauto.
  - rewrite (bool_decide_eq_false_2 _ Ht). cbn [andb]. tauto.
Qed.

(** X11: when [run_analysis] returns results, the metrics it reports
    are the requested ones (the four primary metrics by default);
    every heat map belongs to a requested metric that also has
    statistics, and every sufficiency score to a metric that has
    statistics; [ram_percent] and [swap_pressure_percent], when
    requested, always have a heat map and statistics, and so have the
    counters they are derived from; the number of records is the
    number of rows loaded. *)
Theorem run_analysis_results
    (scan_csv : string → result DataFrame)
    (strptime : string → DataFrame → result DataFrame)
    (clean_timestamps : DataFrame → result DataFrame)
    (col_min col_max col_mean col_median col_std : list datum → option Q)
    (col_quantile : Q → list datum → option Q)
    (csv_files : list string) (target_metrics : option (list string))
    st hm suf ms summ :
  run_analysis scan_csv strptime clean_timestamps
    col_min col_max col_mean col_median col_std col_quantile
    csv_files target_metrics
  = Ok (AnalysisResults st hm suf ms summ) →
  let targets := default PRIMARY_ANALYSIS_METRICS target_metrics in
  ms = targets ∧ summary_metrics summ = targets
  ∧ (∀ m, is_Some (hm !! m) → m ∈ targets ∧ is_Some (st !! m))
  ∧ (∀ m, is_Some (suf !! m) → is_Some (st !! m))
  ∧ ("ram_percent" ∈ targets →
     is_Some (hm !! "ram_percent")
     ∧ Forall (λ m, is_Some (st !! m))
         [ "ram_percent"; "memory_used"; "memory_total" ])
  ∧ ("swap_pressure_percent" ∈ targets →
     is_Some (hm !! "swap_pressure_percent")
     ∧ Forall (λ m, is_Some (st !! m))
         [ "swap_pressure_percent"; "memory_swap_used" ])
  ∧ ∃ df, load_data scan_csv strptime clean_timestamps csv_files = Ok df
          ∧ total_records summ = length (rows df).
Proof.
  intros H targets. unfold run_analysis in H. fold targets in H.
  destruct csv_files as [|f fs]; [done|].
  destruct (load_data scan_csv strptime clean_timestamps (f :: fs))
    as [df0|] eqn:Eload; [|done].
  cbn [mbind result_bind] in H.
  destruct (calculate_derived_metrics df0) as [df|] eqn:Ederived; [|done].
  cbn [mbind result_bind] in H.
  destruct (heatmaps_of df targets ∅) as [heatmaps|] eqn:Eheat; [|done].
  cbn [mbind result_bind] in H.
  destruct (calculate_sufficiency_metrics _) as [sufficiency|] eqn:Esuf;
    [|done].
  cbn [mbind result_bind] in H.
  destruct (day_range df) as [range|] eqn:Erange; [|done].
  cbn [mbind result_bind] in H. injection H as <- <- <- <- <-.
  pose proof (derived_frame_columns df0 df Ederived) as Hcols.
  rewrite !Forall_cons in Hcols.
  destruct Hcols as (Hram & Hswap & Hused & Htotal & Hsw & _).
  pose proof (heatmaps_of_keys df targets ∅ heatmaps Eheat) as Hheat.
  set (all_metrics := add_raw _ _ _) in *.
  assert (∀ m, m ∈ all_metrics → has_column df m = true →
               is_Some (Analyze.calculate_statistics col_min col_max col_mean
                          col_median col_std col_quantile df all_metrics
                        !! m)) as Hst.
  { intros m Hm Hc.
    rewrite (frame_statistics_lookup col_min col_max col_mean col_median
               col_std col_quantile df all_metrics m).
    by rewrite bool_decide_eq_true_2, Hc by done. }
  assert (∀ m, m ∈ targets → m ∈ all_metrics) as Hall.
  { intros m Hm. unfold all_metrics. rewrite !add_raw_elem. tauto. }
  split; [done|]. split; [done|]. split.
  { intros m [[]%lookup_empty_is_Some|[Hm Hc]]%Hheat. auto. }
  split; [by apply sufficiency_keys|]. split.
  - intros Hin. split; [apply Hheat; auto|].
    repeat apply Forall_cons_2; [..|apply Forall_nil_2];
      (apply Hst; [|done]); unfold all_metrics; rewrite !add_raw_elem; tauto.
  - split.
    + intros Hin. split; [apply Hheat; auto|].
      repeat apply Forall_cons_2; [..|apply Forall_nil_2];
        (apply Hst; [|done]); unfold all_metrics; rewrite !add_raw_elem;
        tauto.
    + exists df0. split; [done|]. cbn [total_records].
      apply calculate_derived_metrics_inv in Ederived.
      by rewrite Ederived, length_map.
Qed.


Lemma run_analysis_results_witness :
  is_Some (example_heatmaps !! "ram_percent")
  ∧ is_Some (example_statistics !! "memory_total")
  ∧ total_records example_summary = 2%nat.
Proof.
  assert (run_analysis example_scan example_strptime Ok
            unit_aggregate unit_aggregate unit_aggregate unit_aggregate
            unit_aggregate (λ _, unit_aggregate)
            [ "mactop_data_2023-04-01.csv" ] None
          = Ok (AnalysisResults example_statistics example_heatmaps
                  example_sufficiency PRIMARY_ANALYSIS_METRICS
                  example_summary)) as E.
  { vm_compute. reflexivity. }
  pose proof (run_analysis_results _ _ _ _ _ _ _ _ _ _ _ _ _ _ _ _ E)
      as (_ & _ & _ & _ & H5 & _ & _).
  destruct H5 as [H5 H6].
  { cbn [default]. unfold PRIMARY_ANALYSIS_METRICS.
    do 2 apply list_elem_of_further. apply list_elem_of_here. }
  rewrite !Forall_cons in H6. destruct H6 as (_ & _ & H6 & _).
  split; [done|]. split; [done|]. reflexivity.
Defined.
(** *** Recording *)

Lemma fill_fields_fold (fields : list string) (metrics : gmap string cell) k :
  fold_left fill_field fields metrics !! k
  = if bool_decide (k ∈ fields) && negb (bool_decide (k = "timestamp"))
       && bool_decide (metrics !! k = None)
    then Some (CStr EmptyString) else metrics !! k.
Proof.
  revert metrics. induction fields as [|f fields IH]; intros metrics.
  - done.
  - cbn [fold_left]. rewrite IH. unfold fill_field.
    destruct (decide (k = f)) as [->|Hne];
      repeat (case_bool_decide; cbn [andb negb orb]);
      simplify_map_eq; try done;
      exfalso; rewrite elem_of_cons in *; tauto.
Qed.

Lemma fill_fields_lookup (metrics : gmap string cell) k :
  fill_fields metrics !! k
  = if bool_decide (k ∈ CSV_FIELDS) && negb (bool_decide (k = "timestamp"))
       && bool_decide (metrics !! k = None)
    then Some (CStr EmptyString) else metrics !! k.
Proof. apply fill_fields_fold. Qed.

Lemma fill_fields_default (metrics : gmap string cell) k :
  default (CStr EmptyString) (fill_fields metrics !! k)
  = default (CStr EmptyString) (metrics !! k).
Proof.
  rewrite fill_fields_lookup.
  destruct (bool_decide (k ∈ CSV_FIELDS)); cbn [andb]; [|done].
  destruct (negb (bool_decide (k = "timestamp"))); cbn [andb]; [|done].
  case_bool_decide as H; [|done]. by rewrite H.
Qed.

Lemma fill_fields_keys (metrics : gmap string cell) :
  map_Forall (λ k _, k ∈ CSV_FIELDS) (fill_fields metrics)
  ↔ map_Forall (λ k _, k ∈ CSV_FIELDS) metrics.
Proof.
  split; intros H k c Hk.
  - destruct (decide (k ∈ CSV_FIELDS)) as [|Hnin]; [done|].
    apply (H k c). rewrite fill_fields_lookup.
    by rewrite (bool_decide_eq_false_2 _ Hnin).
  - rewrite fill_fields_lookup in Hk.
    destruct (decide (k ∈ CSV_FIELDS)) as [|Hnin]; [done|].
    rewrite (bool_decide_eq_false_2 _ Hnin) in Hk. by apply (H k c).
Qed.

(** X12: [write_metrics_to_csv] leaves the dictionary with an entry
    for every field of the file other than [timestamp] (the empty text
    where there was none) and with the entries it had; when every key
    of the dictionary is a field of the file it appends one line, of
    the eleven fields in their order, each the value of the field or
    the empty text; when some key is no field of the file it appends
    nothing. *)
Theorem write_metrics_to_csv_line (metrics : gmap string cell)
    (file : list (list cell)) :
  let metrics' := (write_metrics_to_csv metrics file).1 in
  let file' := (write_metrics_to_csv metrics file).2 in
  (∀ k, k ∈ CSV_FIELDS → k ≠ "timestamp" → is_Some (metrics' !! k))
  ∧ (∀ k c, metrics !! k = Some c → metrics' !! k = Some c)
  ∧ (map_Forall (λ k _, k ∈ CSV_FIELDS) metrics →
     file' = file ++ [ map (λ f, default (CStr EmptyString) (metrics !! f))
                         CSV_FIELDS ])
  ∧ (¬ map_Forall (λ k _, k ∈ CSV_FIELDS) metrics → file' = file).
Proof.
  unfold write_metrics_to_csv. cbn [fst snd]. repeat split.
  - intros k Hk Hts. rewrite fill_fields_lookup.
    rewrite (bool_decide_eq_true_2 _ Hk), (bool_decide_eq_false_2 _ Hts).
    cbn [negb andb]. case_bool_decide as H; [done|].
    by apply not_eq_None_Some.
  - intros k c Hk. rewrite fill_fields_lookup, Hk.
    rewrite (bool_decide_eq_false_2 (Some c = None)) by done.
    by rewrite andb_false_r.
  - intros H. unfold writerow.
    rewrite bool_decide_eq_true_2 by (by apply fill_fields_keys).
    do 2 f_equal. apply map_ext. intros f. apply fill_fields_default.
  - intros H. unfold writerow.
    rewrite bool_decide_eq_false_2; [done|]. by rewrite fill_fields_keys.
Qed.

Lemma parse_metrics_ok text : ∃ m, parse_metrics text = Ok m.
Proof. rewrite parse_metrics_lines. apply process_lines_ok. Qed.

Lemma recorded_metrics_lookup (m : gmap string Q) timestamp k :
  k ∈ CSV_FIELDS → k ≠ "timestamp" →
  fill_fields (<["timestamp" := CStr timestamp]> (CFloat <$> m)) !! k
  = Some (match m !! k with
          | Some x => CFloat x
          | None => CStr EmptyString
          end).
Proof.
  intros Hk Hts. rewrite fill_fields_lookup.
  rewrite (bool_decide_eq_true_2 _ Hk), (bool_decide_eq_false_2 _ Hts).
  cbn [negb andb]. rewrite lookup_insert_ne by done. rewrite lookup_fmap.
  destruct (m !! k) as [x|]; cbn [fmap option_fmap option_map].
  - by rewrite bool_decide_eq_false_2.
  - by rewrite bool_decide_eq_true_2.
Qed.

(** X13: in a round of the recorder whose number is a multiple of 5,
    the status display works on the dictionary that the writer has
    completed with empty texts, so the defaults of its look-ups are
    never used: when the parsed text has no [memory_total] the round
    ends with [TypeError] (after the line has been written), and so it
    does when [memory_total] is positive and [memory_used] is missing;
    otherwise a missing [cpu_usage_percent] or [gpu_usage_percent] ends
    it with [ValueError]; with the four metrics present, and in every
    other round, the round ends normally. *)
Theorem record_sample_status (content timestamp : string) (iteration : Z)
    (file : list (list cell)) (metrics : gmap string Q) :
  content ≠ EmptyString →
  parse_metrics content = Ok metrics →
  (record_sample content timestamp iteration file).2
  = if (iteration mod 5 =? 0)%Z then
      match metrics !! "memory_total" with
      | None => Raise TypeError
      | Some total =>
          if bool_decide (0 < total)%Q
             && bool_decide (metrics !! "memory_used" = None)
          then Raise TypeError
          else if bool_decide (metrics !! "cpu_usage_percent" = None)
                  || bool_decide (metrics !! "gpu_usage_percent" = None)
          then Raise ValueError
          else Ok ()
      end
    else Ok ().
Proof.
  intros Hc Hparse. unfold record_sample.
  rewrite (bool_decide_eq_false_2 _ Hc), Hparse.
  unfold write_metrics_to_csv. cbn [snd].
  unfold display_recording_status.
  destruct (iteration mod 5 =? 0)%Z; [|done].
  rewrite !recorded_metrics_lookup
    by (done || (apply list_elem_of_In; vm_compute; tauto)).
  cbn [default from_option id].
  destruct (metrics !! "memory_total") as [total|]; [|done].
  cbn [gt_zero mbind result_bind].
  assert (∀ (r : result unit),
            (_ ← format_f (match metrics !! "cpu_usage_percent" with
                           | Some x => CFloat x
                           | None => CStr EmptyString
                           end);
             _ ← format_f (match metrics !! "gpu_usage_percent" with
                           | Some x => CFloat x
                           | None => CStr EmptyString
                           end);
             Ok ())
            = if bool_decide (metrics !! "cpu_usage_percent" = None)
                 || bool_decide (metrics !! "gpu_usage_percent" = None)
              then Raise ValueError else Ok ()) as Hfmt.
  { intros _.
    destruct (metrics !! "cpu_usage_percent");
      [rewrite (bool_decide_eq_false_2 (Some _ = None)) by done
      |by rewrite (bool_decide_eq_true_2 (None = None))].
    destruct (metrics !! "gpu_usage_percent");
      [by rewrite (bool_decide_eq_false_2 (Some _ = None))
      |by rewrite (bool_decide_eq_true_2 (None = None))]. }
  specialize (Hfmt (Ok ())).
  destruct (bool_decide (0 < total)%Q); cbn [andb].
  - destruct (metrics !! "memory_used") as [used|].
    + rewrite (bool_decide_eq_false_2 (Some _ = None)) by done.
      cbn [percent mbind result_bind]. apply Hfmt.
    + by rewrite (bool_decide_eq_true_2 (None = None)).
  - cbn [mbind result_bind]. apply Hfmt.
Qed.
Lemma write_metrics_to_csv_line_witness :
  (write_metrics_to_csv cpu_only_metrics []).2
  = [] ++ [ map (λ f, default (CStr EmptyString) (cpu_only_metrics !! f))
              CSV_FIELDS ].
Proof.
  apply (write_metrics_to_csv_line cpu_only_metrics []).
  apply (bool_decide_unpack _). vm_compute. exact I.
Defined.

Lemma record_sample_status_witness :
  (record_sample "mactop_cpu_usage_percent 12.5" "2023-04-01T12:00:00" 5 []).2
  = Raise TypeError.
Proof.
  rewrite (record_sample_status _ _ _ _ {[ "cpu_usage_percent" := 12.5%Q ]}).
  - reflexivity.
  - done.
  - vm_compute. reflexivity.
Defined.
(** *** Reading the file back *)

Lemma read_row_lookup (row : gmap string string) k :
  map_imap (λ key value, Some (convert_value key value)) row !! k
  = convert_value k <$> row !! k.
Proof. rewrite map_lookup_imap. by destruct (row !! k). Qed.

Lemma float_of_string_empty : float_of_string EmptyString = None.
Proof. reflexivity. Qed.

Lemma metric_values_read_cons metric row reader :
  metric ≠ "timestamp" →
  metric_values (read_csv_data (row :: reader)) metric
  = match row !! metric with
    | Some s =>
        if bool_decide (s = EmptyString)
        then metric_values (read_csv_data reader) metric
        else
          match float_of_string s with
          | Some x =>
              xs ← metric_values (read_csv_data reader) metric; Ok (x :: xs)
          | None => Raise ValueError
          end
    | None => metric_values (read_csv_data reader) metric
    end.
Proof.
  intros Hts. unfold read_csv_data. cbn [map metric_values].
  rewrite read_row_lookup. destruct (row !! metric) as [s|]; [|done].
  cbn [fmap option_fmap option_map]. unfold convert_value.
  rewrite (bool_decide_eq_false_2 _ Hts). cbn [negb andb].
  case_bool_decide as Hs; cbn [negb].
  - by subst.
  - destruct (float_of_string s) as [x|] eqn:Ef; cbn [nonempty float].
    + done.
    + destruct s; [done|]. cbn [nonempty float]. by rewrite Ef.
Qed.

Lemma metric_values_read_clean metric reader :
  metric ≠ "timestamp" →
  Forall (λ row, ¬ garbage metric row) reader →
  metric_values (read_csv_data reader) metric = Ok (numbers_of metric reader).
Proof.
  intros Hts. induction 1 as [|row reader Hrow _ IH]; [done|].
  rewrite metric_values_read_cons by done. unfold numbers_of.
  cbn [omap list_omap]. fold (numbers_of metric reader).
  destruct (row !! metric) as [s|] eqn:Es; cbn [mbind option_bind]; [|done].
  case_bool_decide as Hs.
  - subst. by rewrite float_of_string_empty.
  - destruct (float_of_string s) as [x|] eqn:Ef.
    + by rewrite IH.
    + exfalso. apply Hrow. by exists s.
Qed.

Lemma metric_values_read_garbage metric reader :
  metric ≠ "timestamp" →
  Exists (garbage metric) reader →
  metric_values (read_csv_data reader) metric = Raise ValueError.
Proof.
  intros Hts. induction 1 as [row reader (s & Es & Hs & Ef)|row reader _ IH];
    rewrite metric_values_read_cons by done.
  - rewrite Es, (bool_decide_eq_false_2 _ Hs), Ef. done.
  - rewrite IH. destruct (row !! metric) as [s|]; [|done].
    case_bool_decide; [done|]. by destruct (float_of_string s).
Qed.

Lemma statistics_of_values_ok values :
  ∃ st, statistics_of_values values = Ok st.
Proof.
  destruct values as [|v values]; [by eexists|].
  destruct (statistics_of_values_nonempty (v :: values)) as (st & H & _);
    [done|by exists st].
Qed.


(** *** More on the statistics record *)

Lemma fold_sum_bounds (xs : list Q) (a lo hi : Q) :
  Forall (λ y, (lo <= y)%Q ∧ (y <= hi)%Q) xs →
  (a + inject_Z (Z.of_nat (length xs)) * lo <= fold_left Qplus xs a)%Q
  ∧ (fold_left Qplus xs a <= a + inject_Z (Z.of_nat (length xs)) * hi)%Q.
Proof.
  intros H. revert a. induction H as [|x xs [Hlo Hhi] _ IH]; intros a.
  - cbn [fold_left length]. change (inject_Z (Z.of_nat 0)) with 0%Q.
    split; lra.
  - cbn [fold_left length]. destruct (IH (a + x)%Q) as [IH1 IH2].
    rewrite Nat2Z.inj_succ. unfold Z.succ. rewrite inject_Z_plus.
    change (inject_Z 1) with 1%Q.
    set (n := inject_Z (Z.of_nat (length xs))) in *.
    split; [eapply Qle_trans; [|exact IH1]|eapply Qle_trans; [exact IH2|]];
      lra.
Qed.

Lemma fold_sum_nonneg (xs : list Q) (a : Q) :
  Forall (λ y, (0 <= y)%Q) xs → (0 <= a)%Q → (0 <= fold_left Qplus xs a)%Q.
Proof.
  intros H. revert a. induction H as [|x xs Hx _ IH]; intros a Ha; [done|].
  cbn [fold_left]. apply IH. lra.
Qed.

Lemma variance_nonneg xs v : variance xs = Ok v → (0 <= v)%Q.
Proof.
  unfold variance. destruct (Z.ltb_spec (Z.of_nat (length xs)) 2) as [|Hn];
    [done|].
  intros [= <-]. apply Qle_shift_div_l.
  - change 0%Q with (inject_Z 0). rewrite <- Zlt_Qlt. lia.
  - rewrite Qmult_0_l. apply fold_sum_nonneg; [|lra].
    apply Forall_forall. intros y [x [-> _]]%list_elem_of_fmap.
    match goal with
    | |- (0 <= ?z * ?z)%Q => generalize z; intros w; nra
    end.
Qed.

Lemma statistics_of_values_mean (values : list Q) st :
  values ≠ [] →
  statistics_of_values values = Ok st →
  let s := sort values in
  let n := Z.of_nat (length s) in
  min s = Ok (s_min st) ∧ max s = Ok (s_max st)
  ∧ s_mean st = (sum s / inject_Z n)%Q
  ∧ (if (1 <? n)%Z then variance s else Ok 0%Q) = Ok (s_variance st).
Proof.
  intros Hne H s n. unfold statistics_of_values in H.
  destruct values as [|v values]; [done|]. fold s in H. fold n in H.
  destruct (min s) as [mn|]; [|done]. cbn [mbind result_bind] in H.
  destruct (max s) as [mx|]; [|done]. cbn [mbind result_bind] in H.
  destruct (if (n mod 2 =? 1)%Z then _ else _) as [med|]; [|done].
  cbn [mbind result_bind] in H.
  destruct (index s (int (inject_Z n * 0.75))) as [q75|]; [|done].
  cbn [mbind result_bind] in H.
  destruct (index s (int (inject_Z n * 0.95))) as [q95|]; [|done].
  cbn [mbind result_bind] in H.
  destruct (if (1 <? n)%Z then stdev s else _) as [sd|]; [|done].
  cbn [mbind result_bind] in H.
  destruct (if (1 <? n)%Z then variance s else _) as [var|]; [|done].
  cbn [mbind result_bind mret result_ret] in H. by injection H as <-.
Qed.

Lemma statistics_of_values_bounds (values : list Q) :
  values ≠ [] →
  ∃ st, statistics_of_values values = Ok st
    ∧ s_min st ∈ values ∧ s_max st ∈ values
    ∧ (∀ v, v ∈ values → (s_min st <= v)%Q ∧ (v <= s_max st)%Q)
    ∧ (s_min st <= s_mean st)%Q ∧ (s_mean st <= s_max st)%Q
    ∧ (0 <= s_variance st)%Q.
Proof.
  intros Hne.
  destruct (statistics_of_values_ok values) as [st Hst].
  exists st. split; [done|].
  destruct (statistics_of_values_mean values st Hne Hst)
    as (Hmin & Hmax & Hmean & Hvar).
  assert (sort values ≠ []) as Hs.
  { intros E. apply (f_equal length) in E. rewrite sort_length in E.
    by destruct values. }
  destruct (min_spec _ Hs) as (mn & Emn & Hmn1 & Hmn2).
  destruct (max_spec _ Hs) as (mx & Emx & Hmx1 & Hmx2).
  rewrite Emn in Hmin. rewrite Emx in Hmax.
  injection Hmin as <-. injection Hmax as <-.
  assert (∀ v, v ∈ values ↔ v ∈ sort values) as Hperm.
  { intros v. by rewrite (sort_perm values). }
  split; [by apply Hperm|]. split; [by apply Hperm|]. split.
  { intros v Hin%Hperm. auto. }
  destruct (fold_sum_bounds (sort values) 0 mn mx) as [Hlo Hhi].
  { apply Forall_forall. auto. }
  fold (sum (sort values)) in Hlo, Hhi.
  assert (0 < inject_Z (Z.of_nat (length (sort values))))%Q as Hn.
  { change 0%Q with (inject_Z 0). rewrite <- Zlt_Qlt.
    destruct (sort values); [done|]. cbn [length]. lia. }
  rewrite Hmean. split; [apply Qle_shift_div_l; [done|lra]|].
  split; [apply Qle_shift_div_r; [done|lra]|].
  destruct (1 <? Z.of_nat (length (sort values)))%Z.
  - by apply variance_nonneg in Hvar.
  - injection Hvar as <-. lra.
Qed.


(** *** More on the peak-window finder *)

Lemma parse_timestamps_bad data :
  Exists bad_timestamp data → ∃ e, (parse_timestamps data).2 = Some e.
Proof.
  induction 1 as [row data Hbad|row data _ [e IH]]; cbn [parse_timestamps].
  - assert (∃ e, parse_timestamp row = Raise e) as [e ->]; [|by eexists].
    unfold parse_timestamp.
    destruct Hbad as [->|(s & -> & ->)]; by eexists.
  - destruct (parse_timestamp row) as [row'|e']; [|by eexists].
    destruct (parse_timestamps data) as [rest e'']. cbn [snd] in *.
    by exists e.
Qed.



Lemma parse_timestamp_idempotent row row' :
  parse_timestamp row = Ok row' → parse_timestamp row' = Ok row'.
Proof.
  unfold parse_timestamp.
  destruct (row !! "timestamp") as [[x|s|t]|] eqn:E; try done.
  - intros [= <-]. by rewrite E.
  - destruct (fromisoformat s) as [t|] eqn:Et; [|done]. intros [= <-].
    rewrite lookup_insert_ne by done. rewrite E, Et.
    by rewrite insert_insert_eq.
  - intros [= <-]. by rewrite E.
Qed.

Lemma parse_timestamps_idempotent data :
  parse_timestamps (parse_timestamps data).1 = parse_timestamps data.
Proof.
  induction data as [|row data IH]; [done|]. cbn [parse_timestamps].
  destruct (parse_timestamp row) as [row'|e] eqn:E.
  - destruct (parse_timestamps data) as [rest e'] eqn:E'. cbn [fst] in *.
    cbn [parse_timestamps].
    rewrite (parse_timestamp_idempotent _ _ E). by rewrite IH.
  - cbn [fst parse_timestamps]. by rewrite E.
Qed.

Lemma parse_timestamps_length data :
  length (parse_timestamps data).1 = length data.
Proof.
  induction data as [|row data IH]; [done|]. cbn [parse_timestamps].
  destruct (parse_timestamp row) as [row'|e]; [|done].
  destruct (parse_timestamps data) as [rest e']. cbn [fst length] in *.
  by rewrite IH.
Qed.

Lemma find_peak_window_rows data metric window_minutes :
  (find_peak_window data metric window_minutes).1
  = if (length data <? 2)%nat then data else (parse_timestamps data).1.
Proof.
  unfold find_peak_window. destruct (length data <? 2)%nat; [done|].
  by destruct (parse_timestamps data) as [data' [e|]].
Qed.

(** X17: the rows that a call of the peak-window finder leaves are not
    changed by a further call, for any metric and window, and the
    further call returns what it would have returned on the original
    rows: the time stamps are parsed once for all metrics. *)
Theorem find_peak_window_again
    (data : list (gmap string cell)) (metric metric' : string)
    (window_minutes window_minutes' : Z) :
  let data' := (find_peak_window data metric window_minutes).1 in
  find_peak_window data' metric' window_minutes'
  = (data', (find_peak_window data metric' window_minutes').2).
Proof.
  cbv zeta. rewrite find_peak_window_rows. unfold find_peak_window.
  destruct (length data <? 2)%nat eqn:Hlen.
  - by rewrite Hlen.
  - rewrite parse_timestamps_length, Hlen, parse_timestamps_idempotent.
    by destruct (parse_timestamps data) as [data' [e|]].
Qed.
Lemma window_step_index data metric window_minutes acc i acc' :
  window_step data metric window_minutes acc i = Ok acc' →
  acc'.2 = acc.2 ∨ (acc'.2 = i ∧ (i < length data)%nat).
Proof.
  unfold window_step. destruct acc as [h b].
  destruct (index data (Z.of_nat i)) as [row|] eqn:Ei; [|done].
  cbn [mbind result_bind].
  assert (i < length data)%nat as Hi.
  { unfold index in Ei.
    destruct (Z.of_nat i <? 0)%Z eqn:E0; [lia|].
    rewrite E0 in Ei. rewrite Nat2Z.id in Ei.
    destruct (data !! i) eqn:El; [|done]. by eapply lookup_lt_Some. }
  destruct (timestamp_obj row) as [t|]; [|done]. cbn [mbind result_bind].
  destruct (window_values _ _ _) as [[|x xs]|]; cbn [mbind result_bind];
    [by intros [= <-]; left| |done].
  case_decide; intros [= <-]; cbn [snd]; auto.
Qed.

Lemma window_loop_index data metric window_minutes acc starts acc' :
  window_loop data metric window_minutes acc starts = Ok acc' →
  acc'.2 = acc.2 ∨ (acc'.2 ∈ starts ∧ (acc'.2 < length data)%nat).
Proof.
  revert acc. induction starts as [|i starts IH]; intros acc;
    cbn [window_loop].
  - intros [= <-]. by left.
  - destruct (window_step data metric window_minutes acc i) as [acc1|] eqn:E;
      [|done].
    cbn [mbind result_bind]. intros H.
    apply window_step_index in E. apply IH in H.
    destruct H as [H|[H1 H2]].
    + destruct E as [E|[E1 E2]].
      * left. congruence.
      * right. rewrite H, E1. split; [left|done].
    + right. split; [by right|done].
Qed.

Lemma timestamps_rows data ts :
  timestamps data = Ok ts →
  Forall (λ row, ∃ t, row !! "timestamp_obj" = Some (CTime t)) data.
Proof.
  revert ts. induction data as [|row data IH]; intros ts;
    cbn [timestamps]; [by constructor|].
  unfold timestamp_obj at 1.
  destruct (row !! "timestamp_obj") as [[x|s|t]|] eqn:E; try done.
  cbn [mbind result_bind].
  destruct (timestamps data) as [ts'|]; [|done]. intros _.
  apply Forall_cons_2; [by exists t|]. by eapply IH.
Qed.

Lemma peak_of_parsed_index data metric window_minutes idx avg :
  peak_of_parsed data metric window_minutes = Ok (idx, avg) →
  (0 < idx)%nat →
  (idx < length data - 1)%nat
  ∧ ∃ row t, data !! idx = Some row
             ∧ row !! "timestamp_obj" = Some (CTime t).
Proof.
  unfold peak_of_parsed.
  destruct (timestamps data) as [ts|] eqn:Ets; [|done].
  cbn [mbind result_bind]. destruct ts as [|t0 ts]; [done|].
  destruct (_ <? _)%Z.
  - destruct (metric_values data metric) as [[|v vs]|];
      cbn [mbind result_bind]; [| |done]; intros [= <- <-]; lia.
  - destruct (window_loop _ _ _ _ _) as [[h b]|] eqn:Eloop; [|done].
    cbn [mbind result_bind]. intros [= <- <-] Hpos.
    apply window_loop_index in Eloop. cbn [snd] in Eloop.
    destruct Eloop as [->|[Hin Hlt]]; [lia|].
    apply elem_of_seq in Hin. split; [lia|].
    destruct (lookup_lt_is_Some_2 data b Hlt) as [row Hrow].
    pose proof (timestamps_rows _ _ Ets) as Hall.
    rewrite Forall_lookup in Hall. destruct (Hall b row Hrow) as [t Ht].
    by exists row, t.
Qed.

Lemma find_peak_window_index data metric window_minutes data' idx avg :
  find_peak_window data metric window_minutes = (data', Ok (idx, avg)) →
  (0 < idx)%nat →
  (idx < length data' - 1)%nat
  ∧ ∃ row t, data' !! idx = Some row
             ∧ row !! "timestamp_obj" = Some (CTime t).
Proof.
  unfold find_peak_window. destruct (length data <? 2)%nat.
  { intros [= <- <- <-]. lia. }
  destruct (parse_timestamps data) as [d [e|]].
  { intros [= <- <- <-]. lia. }
  intros [= <- H] Hpos. by apply (peak_of_parsed_index _ _ _ _ _ H).
Qed.

(** X18: in what [analyze_data] reports for a metric, a peak window
    that starts at the first row is never printed as a peak period;
    a peak index above 0 is the index of a row other than the last
    one, that row holds its parsed time stamp under [timestamp_obj],
    and this time is the start of the printed peak period: the
    handler for a missing or unusable [timestamp_obj] is never needed
    and the index is never out of range. *)
Theorem analyze_metric_peak_time
    (data : list (gmap string cell)) (metric_key : string) :
  match analyze_metric data metric_key with
  | (data', Ok (Some r)) =>
      (peak_idx r = 0%nat → peak_time r = None)
      ∧ ((0 < peak_idx r)%nat →
         (peak_idx r < length data' - 1)%nat
         ∧ ∃ row t, data' !! peak_idx r = Some row
                    ∧ row !! "timestamp_obj" = Some (CTime t)
                    ∧ peak_time r = Some t)
  | _ => True
  end.
Proof.
  unfold analyze_metric.
  destruct (select_metric data metric_key) as [data1 [[name|]|e]] eqn:Esel.
  - destruct (calculate_statistics data1 name) as [st|e] eqn:Est.
    + destruct (find_peak_window data1 name 15) as [data2 [[idx avg]|e]]
        eqn:Epeak.
      * unfold peak_time_of. destruct idx as [|idx].
        -- cbn [Nat.ltb Nat.leb mbind result_bind peak_idx peak_time].
           split; [done|lia].
        -- destruct (find_peak_window_index _ _ _ _ _ _ Epeak)
             as (Hlt & row & t & Hrow & Ht); [lia|].
           change (0 <? S idx)%nat with true. cbv iota.
           rewrite (index_lookup data2 (Z.of_nat (S idx)) row);
             [|lia|by rewrite Nat2Z.id].
           cbn [mbind result_bind]. unfold timestamp_obj. rewrite Ht.
           cbn [mbind result_bind peak_idx peak_time].
           split; [done|]. intros _. split; [done|]. by exists row, t.
      * done.
    + done.
  - done.
  - done.
Qed.

Example analyze_metric_example :
  ∃ data' r, analyze_metric power_rows4 "power_total" = (data', Ok (Some r))
    ∧ report_column r = "power_total"
    ∧ peak_idx r = 1%nat ∧ peak_avg r = (12 # 2)%Q
    ∧ peak_time r = fromisoformat "2023-04-01T12:10:00"
    ∧ s_max (report_stats r) = 9%Q.
Proof. vm_compute. eexists _, _. repeat split. Qed.

(** *** The derived columns of the analysis command *)

(** X19: for a row whose two memory counters are numbers, the analysis
    command of [mactop_monitor.py] stores under [ram_percent] the very
    number that the derived-metric calculation of [analyze.py] computes
    for a row with the same counters: the quotient times 100 when the
    total is positive, and 0 otherwise. *)
Theorem ram_percent_agrees
    (item : gmap string cell) (r : gmap string datum) (total used : Q) :
  item !! "memory_total" = Some (CFloat total) →
  item !! "memory_used" = Some (CFloat used) →
  number r "memory_total" = Some total →
  number r "memory_used" = Some used →
  ∃ p, percent_item "memory_total" "memory_used" "ram_percent" item
       = Ok (<["ram_percent" := CFloat p]> item)
       ∧ percent_of_total "memory_used" r = VNum p
       ∧ p = if decide (0 < total)%Q then (used / total * 100)%Q else 0%Q.
Proof.
  intros Ht Hu Hnt Hnu. unfold percent_item, percent_of_total.
  rewrite Ht, Hu, Hnt, Hnu. cbn [float_or_zero nonempty float mbind result_bind].
  destruct (decide (0 < total)%Q); eexists; done.
Qed.

Lemma ram_percent_agrees_witness :
  ∃ p, percent_item "memory_total" "memory_used" "ram_percent"
         {[ "memory_total" := CFloat 16; "memory_used" := CFloat 8 ]}
       = Ok (<["ram_percent" := CFloat p]>
               {[ "memory_total" := CFloat 16; "memory_used" := CFloat 8 ]})
       ∧ percent_of_total "memory_used"
           {[ "memory_total" := VNum 16; "memory_used" := VNum 8 ]} = VNum p
       ∧ p = if decide (0 < 16)%Q then (8 / 16 * 100)%Q else 0%Q.
Proof.
  apply (ram_percent_agrees _ _ 16 8); reflexivity.
Defined.

Lemma percent_item_counters item :
  memory_counters item →
  ∃ p, percent_item "memory_total" "memory_used" "ram_percent" item
       = Ok (<["ram_percent" := CFloat p]> item)
       ∧ (0 <= p)%Q ∧ (p <= 100)%Q.
Proof.
  intros (total & used & Ht & Hu & H0 & H1). unfold percent_item.
  rewrite Ht, Hu. cbn [float_or_zero nonempty float mbind result_bind].
  destruct (decide (0 < total)%Q) as [Hpos|Hpos]; eexists; (split; [done|]).
  - assert (0 <= used / total)%Q by (apply Qle_shift_div_l; lra).
    assert (used / total <= 1)%Q by (apply Qle_shift_div_r; lra).
    split; lra.
  - split; lra.
Qed.

Lemma percent_items_counters data :
  Forall memory_counters data →
  ∃ values,
    percent_items "memory_total" "memory_used" "ram_percent" data
    = (zip_with (λ item p, <["ram_percent" := CFloat p]> item) data values,
       None)
    ∧ length values = length data
    ∧ Forall (λ p, (0 <= p)%Q ∧ (p <= 100)%Q) values.
Proof.
  induction 1 as [|item data Hitem _ (values & IH & Hlen & Hall)].
  - by exists [].
  - destruct (percent_item_counters item Hitem) as (p & Hp & Hp0 & Hp1).
    exists (p :: values). cbn [percent_items]. rewrite Hp, IH.
    split; [done|]. split; [by cbn [length]; rewrite Hlen|].
    by apply Forall_cons_2.
Qed.

Lemma metric_values_inserted metric (data : list (gmap string cell)) values :
  length values = length data →
  metric_values
    (zip_with (λ item p, <[metric := CFloat p]> item) data values) metric
  = Ok values.
Proof.
  revert values. induction data as [|item data IH]; intros [|p values] Hlen;
    try done.
  cbn [zip_with metric_values]. rewrite lookup_insert_eq.
  cbn [nonempty float mbind result_bind]. rewrite IH by (by injection Hlen).
  done.
Qed.


(** *** Samples without labels *)

Lemma strip_unlabelled_line name v :
  name ≠ EmptyString → string_forall is_word name = true →
  is_value_text v = true →
  strip (unlabelled_line name v) = unlabelled_line name v.
Proof.
  intros Hne Hname Hv. unfold strip, strip_with.
  assert (drop_while is_space (unlabelled_line name v)
          = unlabelled_line name v) as ->.
  { unfold unlabelled_line. destruct name as [|c name]; [done|].
    rewrite string_app_cons. cbn [drop_while].
    cbn [string_forall] in Hname. apply andb_true_iff in Hname as [Hc _].
    by rewrite (word_not_space c Hc). }
  unfold unlabelled_line.
  replace (name +:+ String " " v)
    with ((name +:+ String " " EmptyString) +:+ v).
  - by apply rstrip_with_app_value.
  - rewrite string_app_assoc. f_equal.
Qed.

Lemma match_unlabelled_line name v :
  name ≠ EmptyString → string_forall is_word name = true →
  is_value_text v = true →
  METRIC_PATTERN_match (unlabelled_line name v)
  = Some {| metric_name := name; labels := None; value := v |}.
Proof.
  intros Hne Hname Hv. apply METRIC_PATTERN_match_spec.
  exists EmptyString, (String " " EmptyString), EmptyString.
  cbn [metric_name labels value]. repeat split; try done.
  - unfold unlabelled_line. by rewrite string_app_nil_r.
  - by left.
Qed.

(** X21: a sample line without labels, [name value], is stored for any
    metric name: under the name without its prefix for the three known
    metrics, and under its own name otherwise; an earlier value of that
    key is replaced. *)
Theorem parse_unlabelled_line (name v : string) (x : Q)
    (r : gmap string Q) :
  name ≠ EmptyString → string_forall is_word name = true →
  is_value_text v = true →
  float_of_string v = Some x →
  process_line r (unlabelled_line name v)
  = Ok (<[recorded_name name := x]> r).
Proof.
  intros Hne Hname Hv Hx. unfold process_line.
  rewrite strip_unlabelled_line by done.
  assert (bool_decide (unlabelled_line name v = EmptyString)
          || startswith "#" (unlabelled_line name v) = false) as ->.
  { unfold unlabelled_line. destruct name as [|c name]; [done|].
    rewrite string_app_cons. cbn [startswith].
    rewrite bool_decide_eq_false_2 by done. cbn [orb].
    apply bool_decide_eq_false_2. intros ->. done. }
  rewrite match_unlabelled_line by done.
  cbn [metric_name labels value]. rewrite Hx. unfold recorded_name.
  by repeat case_bool_decide.
Qed.

Lemma parse_unlabelled_line_witness :
  process_line {[ "go_goroutines" := 7%Q ]}
    (unlabelled_line "go_goroutines" "8")
  = Ok (<[recorded_name "go_goroutines" := 8%Q]>
          {[ "go_goroutines" := 7%Q ]}).
Proof.
  apply parse_unlabelled_line; reflexivity || done.
Defined.

Lemma process_label_keys m_name v (r r' : gmap string Q) part k :
  process_label m_name v r part = Ok r' → is_Some (r !! k) → is_Some (r' !! k).
Proof.
  unfold process_label. intros H Hk.
  assert (∀ f, is_Some (<[f := v]> r !! k)) as Hins.
  { intros f. destruct (decide (f = k)) as [->|];
      [by rewrite lookup_insert_eq|by rewrite lookup_insert_ne]. }
  destruct (contains "=" part); [|by injection H as <-].
  destruct (unpack2 (split1 "=" part)) as [[a b]|]; [|done].
  cbn [mbind result_bind] in H.
  repeat (case_match; try (injection H as <-; done || apply Hins)).
Qed.

Lemma process_labels_keys m_name v (r r' : gmap string Q) parts k :
  process_labels m_name v r parts = Ok r' →
  is_Some (r !! k) → is_Some (r' !! k).
Proof.
  revert r. induction parts as [|part parts IH]; intros r;
    cbn [process_labels].
  - by intros [= <-].
  - destruct (process_label m_name v r part) as [r1|] eqn:E; [|done].
    cbn [mbind result_bind]. intros H Hk. apply (IH _ H).
    by eapply process_label_keys.
Qed.

Lemma process_line_keys (r r' : gmap string Q) line k :
  process_line r line = Ok r' → is_Some (r !! k) → is_Some (r' !! k).
Proof.
  unfold process_line. intros H Hk.
  assert (∀ f x, is_Some (<[f := x]> r !! k)) as Hins.
  { intros f x. destruct (decide (f = k)) as [->|];
      [by rewrite lookup_insert_eq|by rewrite lookup_insert_ne]. }
  destruct (_ || _); [by injection H as <-|].
  destruct (METRIC_PATTERN_match _) as [m|]; [|by injection H as <-].
  destruct (float_of_string _) as [x|]; [|by injection H as <-].
  destruct (labels m) as [[|c l]|].
  - repeat (case_match; try (injection H as <-; done || apply Hins)).
  - by eapply process_labels_keys.
  - repeat (case_match; try (injection H as <-; done || apply Hins)).
Qed.

Lemma process_lines_keys (r r' : gmap string Q) lines k :
  process_lines r lines = Ok r' → is_Some (r !! k) → is_Some (r' !! k).
Proof.
  revert r. induction lines as [|line lines IH]; intros r;
    cbn [process_lines].
  - by intros [= <-].
  - destruct (process_line r line) as [r1|] eqn:E; [|done].
    cbn [mbind result_bind]. intros H Hk. apply (IH _ H).
    by eapply process_line_keys.
Qed.

(** X22: when the text of the endpoint has, anywhere, a sample line
    without labels whose recorded name is no field of the CSV file,
    the round of the recorder writes nothing: the writer refuses the
    whole dictionary, and the other metrics of the sample are lost
    with it. *)
Theorem unknown_metric_loses_sample
    (content timestamp : string) (iteration : Z) (file : list (list cell))
    (before after : list string) (name v : string) (x : Q) :
  splitlines content = before ++ unlabelled_line name v :: after →
  name ≠ EmptyString → string_forall is_word name = true →
  is_value_text v = true →
  float_of_string v = Some x →
  recorded_name name ∉ CSV_FIELDS →
  (record_sample content timestamp iteration file).1 = file.
Proof.
  intros Hlines Hne Hname Hv Hx Hfield. unfold record_sample.
  case_bool_decide; [done|].
  destruct (parse_metrics content) as [m|] eqn:Hparse; [|done].
  unfold write_metrics_to_csv. cbn [fst snd].
  unfold writerow. rewrite bool_decide_eq_false_2; [done|].
  rewrite fill_fields_keys. intros Hall.
  rewrite parse_metrics_lines, Hlines, process_lines_app in Hparse.
  destruct (process_lines ∅ before) as [r1|]; [|done].
  cbn [mbind result_bind process_lines] in Hparse.
  rewrite (parse_unlabelled_line name v x r1) in Hparse by done.
  cbn [mbind result_bind] in Hparse.
  destruct (process_lines_keys _ _ _ (recorded_name name) Hparse)
    as [y Hy]; [by rewrite lookup_insert_eq|].
  apply Hfield, (Hall (recorded_name name) (CFloat y)).
  rewrite lookup_insert_ne.
  - by rewrite lookup_fmap, Hy.
  - intros E. apply Hfield. rewrite <- E.
    apply list_elem_of_In. vm_compute. tauto.
Qed.

Lemma unknown_metric_loses_sample_witness :
  (record_sample
     ("mactop_cpu_usage_percent 12.5" +:+ newline +:+ "go_goroutines 8")
     "2023-04-01T12:00:00" 1 []).1 = [].
Proof.
  apply (unknown_metric_loses_sample _ _ _ _
           [ "mactop_cpu_usage_percent 12.5" ] [] "go_goroutines" "8" 8);
    try reflexivity; try done.
  intros H. apply list_elem_of_In in H. vm_compute in H.
  intuition discriminate.
Defined.
(** *** The visualizer *)

Lemma int_nonneg x : (0 <= x)%Q → int x = Qfloor x ∧ (0 ≤ Qfloor x)%Z.
Proof.
  intros H. unfold int. rewrite decide_True by done. split; [done|].
  change 0%Z with (Qfloor 0). by apply Qfloor_resp_le.
Qed.

Lemma int_monotone x y : (0 <= x)%Q → (x <= y)%Q → (int x ≤ int y)%Z.
Proof.
  intros Hx Hxy. destruct (int_nonneg x Hx) as [-> _].
  destruct (int_nonneg y) as [-> _]; [lra|]. by apply Qfloor_resp_le.
Qed.

Lemma int_bounded x (n : Z) :
  (0 <= x)%Q → (x <= inject_Z n)%Q → (0 ≤ int x ≤ n)%Z.
Proof.
  intros Hx Hn. destruct (int_nonneg x Hx) as [-> ?]. split; [done|].
  rewrite <- (Qfloor_Z n). by apply Qfloor_resp_le.
Qed.

Lemma position_bounds v lo hi :
  (lo <= v)%Q → (v <= hi)%Q → ¬ (lo == hi)%Q →
  (0 <= (v - lo) / (hi - lo))%Q ∧ ((v - lo) / (hi - lo) <= 1)%Q.
Proof.
  intros H1 H2 Hne.
  assert (0 < hi - lo)%Q.
  { destruct (Qlt_le_dec lo hi); [lra|]. exfalso. apply Hne. lra. }
  split; [apply Qle_shift_div_l; lra|apply Qle_shift_div_r; lra].
Qed.

Lemma color_index_range value min_val max_val :
  (min_val <= value)%Q → (value <= max_val)%Q →
  (0 ≤ Visualize.color_index value min_val max_val ≤ 9)%Z.
Proof.
  intros H1 H2. unfold Visualize.color_index.
  destruct (decide (min_val == max_val)%Q) as [|Hne]; [lia|].
  destruct (position_bounds value min_val max_val H1 H2 Hne) as [Hp0 Hp1].
  change (inject_Z (Z.of_nat (length Visualize.HEAT_COLORS))) with 10%Q.
  change (Z.of_nat (length Visualize.HEAT_COLORS) - 1)%Z with 9%Z.
  destruct (int_bounded ((value - min_val) / (max_val - min_val) * 10) 10);
    [lra|change (inject_Z 10) with 10%Q; lra|lia].
Qed.


Lemma quotient_below (g m c : Q) :
  (0 < m)%Q → (g / m < c)%Q ↔ (g < c * m)%Q.
Proof.
  intros Hm. split.
  - intros H. destruct (Qlt_le_dec g (c * m)) as [|Hle]; [done|].
    exfalso. assert (c <= g / m)%Q by (by apply Qle_shift_div_l). lra.
  - intros H. by apply Qlt_shift_div_r.
Qed.



(** *** The dashboard *)

Lemma spark_char_level v lo hi :
  (lo <= v)%Q → (v <= hi)%Q →
  let range := if decide (hi - lo <= 0)%Q then 1%Q else (hi - lo)%Q in
  ∃ k, Dashboard.spark_char v lo range = inr (Dashboard.Level k)
       ∧ (k < 8)%nat.
Proof.
  intros H1 H2 range. unfold Dashboard.spark_char.
  assert ((0 <= (v - lo) / range)%Q ∧ ((v - lo) / range <= 1)%Q)
    as [Hp0 Hp1].
  { subst range. destruct (decide (hi - lo <= 0)%Q) as [Hle|Hgt].
    - split; [apply Qle_shift_div_l; lra|apply Qle_shift_div_r; lra].
    - split; [apply Qle_shift_div_l; lra|apply Qle_shift_div_r; lra]. }
  destruct (int_bounded ((v - lo) / range * 8) 8) as [Hi0 Hi8];
    [lra|change (inject_Z 8) with 8%Q; lra|].
  set (i := int ((v - lo) / range * 8)) in *.
  rewrite (proj2 (Z.leb_le 0 (Z.min i 7))) by lia.
  eexists. split; [done|]. lia.
Qed.

Lemma spark_chars_levels values lo hi :
  Forall (λ v, (lo <= v)%Q ∧ (v <= hi)%Q) values →
  let range := if decide (hi - lo <= 0)%Q then 1%Q else (hi - lo)%Q in
  ∃ cs, Dashboard.spark_chars values lo range = inr cs
        ∧ length cs = length values
        ∧ Forall (λ c, ∃ k, c = Dashboard.Level k ∧ (k < 8)%nat) cs.
Proof.
  intros H range. induction H as [|v values [H1 H2] _ (cs & IH & Hlen & Hall)].
  - by exists [].
  - destruct (spark_char_level v lo hi H1 H2) as (k & Hk & Hk8).
    fold range in Hk. cbn [Dashboard.spark_chars]. rewrite Hk, IH.
    eexists. split; [done|]. split; [by cbn [length]; rewrite Hlen|].
    apply Forall_cons_2; [by exists k|done].
Qed.

Lemma omap_total {A B} (f : A → option B) (P : B → Prop) (l : list A) :
  (∀ i, ∃ v, f i = Some v ∧ P v) →
  length (omap f l) = length l ∧ Forall P (omap f l).
Proof.
  intros Hf. induction l as [|i l [IH1 IH2]]; [done|].
  destruct (Hf i) as (v & Hv & Hin). cbn [omap list_omap]. rewrite Hv.
  split; [by cbn [length]; rewrite IH1|by apply Forall_cons_2].
Qed.

Lemma sampled_values (values : list Q) (width : Z) :
  values ≠ [] →
  length (Dashboard.sampled values width) = Z.to_nat width
  ∧ Forall (λ v, v ∈ values) (Dashboard.sampled values width).
Proof.
  intros Hne. unfold Dashboard.sampled.
  match goal with
  | |- context [omap ?f ?l] =>
      destruct (omap_total f (λ v, v ∈ values) l) as [H1 H2]
  end.
  { intros i. set (j := Z.to_nat _).
    destruct (lookup_lt_is_Some_2 values j) as [v Hv].
    { subst j. destruct values; [done|]. cbn [length]. lia. }
    exists v. split; [done|]. by eapply list_elem_of_lookup_2. }
  split; [by rewrite H1, length_seq|done].
Qed.

Lemma last_elem_of {A} (l : list A) (d : A) :
  l ≠ [] → List.last l d ∈ l.
Proof.
  induction l as [|x l IH]; [done|]. intros _.
  destruct l as [|y l]; [left|]. right. by apply IH.
Qed.


Lemma dashboard_window_values rows window_end :
  Dashboard.window_values rows window_end = run_until window_end rows.
Proof.
  induction rows as [|[t x] rows IH]; [done|].
  cbn [Dashboard.window_values run_until]. by rewrite IH.
Qed.

Lemma zip_fst_snd {A B} (l : list (A * B)) : zip (l.*1) (l.*2) = l.
Proof. induction l as [|[a b] l IH]; [done|]. cbn. by rewrite IH. Qed.

Lemma dashboard_window_step series window_minutes acc i :
  chronological series → (i < length series)%nat →
  Dashboard.window_step (series.*1) (series.*2) window_minutes acc i
  = Ok (candidate_step (window_of series (window_micros window_minutes))
          acc i).
Proof.
  intros Hchrono Hi. unfold Dashboard.window_step. destruct acc as [h b].
  destruct (lookup_lt_is_Some_2 series i Hi) as [[t x] Hs].
  rewrite (index_lookup (series.*1) (Z.of_nat i) t);
    [|lia|by rewrite Nat2Z.id, list_lookup_fmap, Hs].
  cbn [mbind result_bind]. rewrite zip_fst_snd, dashboard_window_values.
  rewrite (run_until_window series _ i t x Hchrono Hs).
  unfold candidate_step. cbn [fst snd].
  destruct (window_of series (window_micros window_minutes) i); [done|].
  by case_decide.
Qed.

Lemma dashboard_window_loop series window_minutes acc starts :
  chronological series →
  Forall (λ i, (i < length series)%nat) starts →
  Dashboard.window_loop (series.*1) (series.*2) window_minutes acc starts
  = Ok (fold_left
          (candidate_step (window_of series (window_micros window_minutes)))
          starts acc).
Proof.
  intros Hchrono Hstarts. revert acc.
  induction Hstarts as [|i starts Hi _ IH]; intros acc; [done|].
  cbn [Dashboard.window_loop fold_left].
  rewrite dashboard_window_step by done. cbn [mbind result_bind]. apply IH.
Qed.

Lemma dashboard_series metric now i data series :
  Forall2 (row_sample metric) data series →
  Dashboard.process_timestamps now i data = series.*1
  ∧ Dashboard.metric_data metric data = Ok (series.*2).
Proof.
  intros H. revert i.
  induction H as [|row [t x] data series (s & c & Hs & Ht & Hc & Hne & Hf) _ IH];
    intros i; [done|].
  cbn [fst snd] in *. destruct (IH (S i)) as [IH1 IH2].
  cbn [Dashboard.process_timestamps Dashboard.metric_data].
  rewrite Hs, Ht, Hc, Hne, Hf, IH1, IH2. done.
Qed.

Lemma last_List_last {A} (l : list A) (d : A) :
  l ≠ [] → last l = Some (List.last l d).
Proof.
  induction l as [|x l IH]; [done|]. intros _.
  destruct l as [|y l]; [done|]. rewrite last_cons, IH by done. done.
Qed.

(** X27: on rows whose time stamps parse and are in chronological
    order and whose metric values are present, the dashboard builds
    the series of the rows and its peak-window finder returns what the
    peak-window finder of the analysis command returns. *)
Theorem dashboard_peak_window_agrees
    (now : nat → Z) (data : list (gmap string cell)) (metric : string)
    (window_minutes : Z) (series : list (Z * Q)) :
  Forall2 (row_sample metric) data series →
  metric ≠ "timestamp_obj" →
  chronological series →
  Dashboard.process_timestamps now 0 data = series.*1
  ∧ Dashboard.metric_data metric data = Ok (series.*2)
  ∧ Dashboard.find_peak_window (series.*1) (series.*2) window_minutes
    = (find_peak_window data metric window_minutes).2.
Proof.
  intros Hdata Hmetric Hchrono.
  destruct (dashboard_series metric now 0 data series Hdata) as [H1 H2].
  split; [done|]. split; [done|].
  pose proof (Forall2_length _ _ _ Hdata) as Hlen.
  unfold Dashboard.find_peak_window, find_peak_window.
  rewrite !length_fmap, Nat.eqb_refl, Hlen. cbn [negb]. rewrite orb_false_r.
  destruct (length series <? 2)%nat eqn:Hl; [done|].
  apply Nat.ltb_ge in Hl.
  rewrite (parse_timestamps_samples metric data series Hdata). cbn [snd].
  rewrite (peak_of_parsed_samples metric data series window_minutes)
    by (done || lia).
  cbv zeta.
  destruct series as [|[t0 x0] series'] eqn:Es; [cbn in Hl; lia|].
  rewrite <- Es in *.
  assert (index (series.*1) 0 = Ok t0) as ->.
  { by rewrite Es. }
  assert (index (series.*1) (-1) = Ok (List.last (series'.*1) t0)) as ->.
  { unfold index. rewrite length_fmap.
    change (-1 <? 0)%Z with true. cbv iota.
    rewrite (proj2 (Z.ltb_ge _ _)) by lia.
    replace (Z.to_nat (-1 + Z.of_nat (length series)))
      with (pred (length (series.*1))) by (rewrite length_fmap; lia).
    rewrite <- last_lookup. rewrite Es, fmap_cons. cbn [fst].
    rewrite (last_List_last _ t0) by done. f_equal.
    destruct (series'.*1); [done|]. cbn [List.last]. done. }
  cbn [mbind result_bind].
  assert (time_span series = List.last (series'.*1) t0 - t0)%Z as <-.
  { by rewrite Es. }
  destruct (time_span series <? window_micros window_minutes)%Z.
  - unfold average. by rewrite length_fmap.
  - rewrite dashboard_window_loop; [|done|].
    + cbn [mbind result_bind]. by destruct (fold_left _ _ _).
    + apply Forall_forall. intros i Hi%elem_of_seq. lia.
Qed.

Lemma dashboard_peak_window_agrees_witness :
  Dashboard.find_peak_window (example_series4.*1) (example_series4.*2) 15
  = (find_peak_window example_rows4 "cpu" 15).2.
Proof.
  apply (dashboard_peak_window_agrees (λ _, 0%Z) example_rows4 "cpu" 15
           example_series4).
  - exact example_rows4_samples.
  - discriminate.
  - unfold chronological, example_series4. simpl.
    repeat (apply SSorted_cons;
            [|repeat (apply Forall_cons_2; [vm_compute; discriminate|]);
              apply Forall_nil_2]).
    apply SSorted_nil.
Defined.
(** *** The keys of the parsed metrics *)

Lemma process_label_confined m_name v (r r' : gmap string Q) part k :
  process_label m_name v r part = Ok r' →
  k ∉ label_fields → r' !! k = r !! k.
Proof.
  unfold process_label. intros H Hk.
  assert (∀ f, f ∈ label_fields → <[f := v]> r !! k = r !! k) as Hins.
  { intros f Hf. apply lookup_insert_ne. intros ->. done. }
  destruct (contains "=" part); [|by injection H as <-].
  destruct (unpack2 (split1 "=" part)) as [[a b]|]; [|done].
  cbn [mbind result_bind] in H.
  repeat (case_match;
          try (injection H as <-;
               done || (apply Hins, list_elem_of_In; vm_compute; tauto))).
Qed.

Lemma process_labels_confined m_name v (r r' : gmap string Q) parts k :
  process_labels m_name v r parts = Ok r' →
  k ∉ label_fields → r' !! k = r !! k.
Proof.
  revert r. induction parts as [|part parts IH]; intros r;
    cbn [process_labels].
  - by intros [= <-].
  - destruct (process_label m_name v r part) as [r1|] eqn:E; [|done].
    cbn [mbind result_bind]. intros H Hk. rewrite (IH _ H Hk).
    by eapply process_label_confined.
Qed.

Lemma process_line_confined (r r' : gmap string Q) line k :
  process_line r line = Ok r' →
  r' !! k = r !! k
  ∨ k ∈ label_fields
  ∨ ∃ name, unlabelled_sample line name ∧ k = recorded_name name.
Proof.
  unfold process_line. intros H.
  destruct (_ || _); [by injection H as <-; left|].
  destruct (METRIC_PATTERN_match (strip line)) as [m|] eqn:Em;
    [|by injection H as <-; left].
  destruct (float_of_string _) as [x|]; [|by injection H as <-; left].
  assert (labels m = None ∨ labels m = Some EmptyString →
          (if bool_decide (metric_name m = "mactop_cpu_usage_percent")
           then Ok (<["cpu_usage_percent" := x]> r)
           else if bool_decide (metric_name m = "mactop_gpu_freq_mhz")
           then Ok (<["gpu_freq_mhz" := x]> r)
           else if bool_decide (metric_name m = "mactop_gpu_usage_percent")
           then Ok (<["gpu_usage_percent" := x]> r)
           else Ok (<[metric_name m := x]> r)) = Ok r' →
          r' !! k = r !! k
          ∨ k ∈ label_fields
          ∨ ∃ name, unlabelled_sample line name ∧ k = recorded_name name)
    as Hplain.
  { intros Hl H'.
    assert (r' = <[recorded_name (metric_name m) := x]> r) as ->.
    { unfold recorded_name. repeat case_bool_decide; by injection H' as <-. }
    destruct (decide (recorded_name (metric_name m) = k)) as [<-|Hne].
    - right. right. exists (metric_name m). split; [|done]. by exists m.
    - left. by rewrite lookup_insert_ne. }
  destruct (labels m) as [[|c l]|] eqn:El.
  - apply Hplain; auto.
  - destruct (decide (k ∈ label_fields)) as [|Hk]; [auto|].
    left. by eapply process_labels_confined.
  - apply Hplain; auto.
Qed.

Lemma process_lines_confined (r r' : gmap string Q) lines k :
  process_lines r lines = Ok r' →
  r' !! k = r !! k
  ∨ k ∈ label_fields
  ∨ ∃ line name, line ∈ lines ∧ unlabelled_sample line name
                 ∧ k = recorded_name name.
Proof.
  revert r. induction lines as [|line lines IH]; intros r;
    cbn [process_lines].
  - intros [= <-]. by left.
  - destruct (process_line r line) as [r1|] eqn:E; [|done].
    cbn [mbind result_bind]. intros H.
    destruct (IH _ H) as [Hsame|[?|(l & name & Hl & Hs & ->)]]; [|auto|].
    + rewrite Hsame.
      destruct (process_line_confined _ _ _ k E)
        as [?|[?|(name & Hs & ->)]]; [auto|auto|].
      right. right. exists line, name. split; [left|done].
    + right. right. exists l, name. split; [by right|done].
Qed.

(** X28: every key of the dictionary that [parse_metrics] returns is
    one of the seven fields of the labelled samples, or the recorded
    name of a sample without labels that stands on a line of the text;
    a labelled sample of any other metric or label, a comment and a
    malformed line add no key. *)
Theorem parse_metrics_keys (text : string) (m : gmap string Q) (k : string) :
  parse_metrics text = Ok m →
  is_Some (m !! k) →
  k ∈ label_fields
  ∨ ∃ line name, line ∈ splitlines text ∧ unlabelled_sample line name
                 ∧ k = recorded_name name.
Proof.
  rewrite parse_metrics_lines. intros H Hk.
  destruct (process_lines_confined _ _ _ k H) as [E|[?|?]]; [|auto|auto].
  rewrite E, lookup_empty in Hk. by destruct Hk.
Qed.

Lemma parse_metrics_keys_witness :
  "cpu_usage_percent" ∈ label_fields
  ∨ ∃ line name, line ∈ splitlines example_text ∧ unlabelled_sample line name
                 ∧ "cpu_usage_percent" = recorded_name name.
Proof.
  apply (parse_metrics_keys example_text
           {[ "cpu_usage_percent" := 12.5%Q; "power_cpu" := 70%Q ]}).
  - vm_compute. reflexivity.
  - by eexists.
Defined.
(** *** The recorder of the package *)

Lemma record_process_line_keys (metrics : gmap string Q) line k :
  is_Some (Record.process_line metrics line !! k) →
  is_Some (metrics !! k)
  ∨ ∃ v, Record.words (strip line) = [k; v].
Proof.
  unfold Record.process_line.
  destruct (_ || _); [auto|].
  destruct (Record.words (strip line)) as [|name [|value [|w ws]]]; auto.
  destruct (float_of_string value); [|auto].
  destruct (decide (name = k)) as [->|Hne].
  - intros _. right. by exists value.
  - rewrite lookup_insert_ne by done. auto.
Qed.

Lemma record_parse_keys (lines : list string) (metrics : gmap string Q) k :
  is_Some (fold_left Record.process_line lines metrics !! k) →
  is_Some (metrics !! k)
  ∨ ∃ line v, line ∈ lines ∧ Record.words (strip line) = [k; v].
Proof.
  revert metrics. induction lines as [|line lines IH]; intros metrics;
    cbn [fold_left]; [auto|].
  intros [H|(l & v & Hl & Hw)]%IH.
  - apply record_process_line_keys in H as [?|[v Hv]]; [auto|].
    right. exists line, v. split; [left|done].
  - right. exists l, v. split; [by right|done].
Qed.

(** X29: the recorder of the package stores each sample under the
    first word of its line, labels included, and writes only the
    expected fields; so a response in which no line of two words
    starts with the name of an expected field, as when every name has
    the prefix [mactop_] or carries labels, yields a row that holds
    the time stamp and five empty cells. *)
Theorem record_row_without_expected_names (text timestamp : string)
    (row : list cell) :
  (∀ line name v, line ∈ split LF text →
     Record.words (strip line) = [name; v] →
     name ∉ Record.EXPECTED_METRIC_FIELDS) →
  Record.sample_row text timestamp = Some row →
  row = CStr timestamp :: replicate 5 (CStr EmptyString).
Proof.
  intros Hnames. unfold Record.sample_row.
  destruct (decide (Record.parse_response text = ∅)); [done|].
  intros [= <-]. unfold Record.batch_row.
  assert (∀ field, field ∈ Record.EXPECTED_METRIC_FIELDS →
            Record.parse_response text !! field = None) as Hnone.
  { intros field Hfield.
    destruct (Record.parse_response text !! field) as [x|] eqn:E; [|done].
    exfalso. destruct (record_parse_keys (split LF text) ∅ field)
      as [[? Hk]|(line & v & Hl & Hw)].
    - unfold Record.parse_response in E. by rewrite E.
    - by rewrite lookup_empty in Hk.
    - by apply (Hnames line field v). }
  unfold Record.metrics_with_timestamp, Record.EXPECTED_METRIC_FIELDS.
  cbn [map replicate].
  rewrite !lookup_union, !lookup_fmap.
  rewrite !Hnone by (apply list_elem_of_In; vm_compute; tauto).
  cbn [fmap option_fmap option_map].
  rewrite lookup_singleton_eq.
  rewrite !lookup_singleton_ne by done. done.
Qed.

Lemma record_row_without_expected_names_witness :
  Record.sample_row example_response "2023-04-01 12:00:00"
  = Some (CStr "2023-04-01 12:00:00" :: replicate 5 (CStr EmptyString)).
Proof.
  assert (∃ row, Record.sample_row example_response "2023-04-01 12:00:00"
                 = Some row) as [row Hrow].
  { vm_compute. by eexists. }
  rewrite Hrow. f_equal.
  apply (record_row_without_expected_names example_response
           "2023-04-01 12:00:00" row); [|done].
  intros line name v Hl Hw.
  apply list_elem_of_In in Hl. vm_compute in Hl.
  destruct Hl as [<-|[<-|[]]]; vm_compute in Hw; injection Hw as <- _;
    intros Hin%list_elem_of_In; vm_compute in Hin; intuition discriminate.
Defined.
